(** * The HLE kernel's threads and events

    A shallow embedding of [src/core/hle/kernel/thread.cpp] and
    [src/core/hle/kernel/event.cpp]: the thread object and its status word,
    the wait linkage, address arbitration, thread creation and termination,
    the choice of the next thread, and the event object with its reset types.

    Kernel objects live in one registry and are reached through handles; a
    C++ pointer to a kernel object is modelled by the handle of that object,
    and every read or write through the pointer goes through the registry, so
    that two pointers to the same object alias here as they do in the code.
    A failed assertion or a null dereference is the result [None]. *)

From stdpp Require Import gmap strings list fin_maps.

Local Open Scope Z_scope.

(** ** Machine integers *)

(** Handles and most fields are [u32]; priorities are [s32]. Both are carried
    by [Z]; the one conversion the code writes out, the cast [(u32)x] of a
    signed value, is [to_u32]. *)
Abbreviation Handle := Z.

Definition to_u32 (x : Z) : Z := x mod 2 ^ 32.

(** ** Constants of [thread.h]

    The header that declares the status flags and the priority bounds is not
    part of the sources at hand, so the flags and bounds are the fields of a
    class and every definition below is generic in them. [header_ok] says
    what the code relies on: the six status flags are non-zero masks with no
    bit in common, [THREADSTATUS_WAITSUSPEND] (the wait and suspend flags
    taken together) has no bit in common with the ready flag, and the
    priority range is not empty. *)
Class ThreadHeader : Type := {
  THREADSTATUS_RUNNING : Z;
  THREADSTATUS_READY : Z;
  THREADSTATUS_WAIT : Z;
  THREADSTATUS_SUSPEND : Z;
  THREADSTATUS_DORMANT : Z;
  THREADSTATUS_DEAD : Z;
  THREADSTATUS_WAITSUSPEND : Z;
  THREADPRIO_HIGHEST : Z;
  THREADPRIO_LOWEST : Z
}.

Fixpoint disjoint_masks (l : list Z) : bool :=
  match l with
  | [] => true
  | f :: r => forallb (fun g => Z.land f g =? 0) r && disjoint_masks r
  end.

Definition status_flags `{hdr : ThreadHeader} : list Z :=
  [THREADSTATUS_RUNNING; THREADSTATUS_READY; THREADSTATUS_WAIT;
   THREADSTATUS_SUSPEND; THREADSTATUS_DORMANT; THREADSTATUS_DEAD].

Definition header_ok `{hdr : ThreadHeader} : bool :=
  forallb (fun f => (0 <? f) && (f <? 2 ^ 32)) status_flags
  && disjoint_masks status_flags
  && (Z.land THREADSTATUS_READY THREADSTATUS_WAITSUSPEND =? 0)
  && (THREADPRIO_HIGHEST <=? THREADPRIO_LOWEST).

(** The wait types that the two source files name. *)
Inductive WaitType : Set :=
  | WAITTYPE_NONE
  | WAITTYPE_EVENT
  | WAITTYPE_THREADEND
  | WAITTYPE_VBLANK
  | WAITTYPE_ARB.

#[global] Instance WaitType_eq_dec : EqDecision WaitType.
Proof. solve_decision. Defined.

Inductive ResetType : Set :=
  | RESETTYPE_ONESHOT
  | RESETTYPE_STICKY.

#[global] Instance ResetType_eq_dec : EqDecision ResetType.
Proof. solve_decision. Defined.

Inductive ErrorModule : Set := ErrorModule_Kernel.

Inductive ResultCode : Set :=
  | RESULT_SUCCESS
  | InvalidHandle (module : ErrorModule).

Inductive LogLevel : Set := LOG_ERROR | LOG_WARN.

(** ** Objects *)

(** The register snapshot of a thread. The struct is declared outside the
    sources at hand; the fields are the ones [ResetThread] writes, and
    [ctx_rest] stands for every other word of the struct. *)
Record ThreadContext : Type := mkThreadContext {
  cpu_registers : list Z;
  sp : Z;
  pc : Z;
  cpsr : Z;
  reg_15 : Z;
  mode : Z;
  ctx_rest : list Z
}.

Record Thread : Type := mkThread {
  context : ThreadContext;
  status : Z;
  entry_point : Z;
  stack_top : Z;
  stack_size : Z;
  initial_priority : Z;
  current_priority : Z;
  processor_id : Z;
  wait_type : WaitType;
  wait_handle : Handle;
  waiting_threads : list Handle;
  name : string
}.

(** An event, with the waiter list of its [WaitObject] base class. *)
Record Event : Type := mkEvent {
  intitial_reset_type : ResetType;
  reset_type : ResetType;
  signaled : bool;
  event_name : string;
  wo_waiting_threads : list Handle
}.

Inductive Object : Type :=
  | ObjThread (t : Thread)
  | ObjEvent (e : Event).

(** Field updates. *)
Definition set_context (c : ThreadContext) (t : Thread) : Thread :=
  mkThread c (status t) (entry_point t) (stack_top t) (stack_size t)
    (initial_priority t) (current_priority t) (processor_id t) (wait_type t)
    (wait_handle t) (waiting_threads t) (name t).

Definition set_status (s : Z) (t : Thread) : Thread :=
  mkThread (context t) s (entry_point t) (stack_top t) (stack_size t)
    (initial_priority t) (current_priority t) (processor_id t) (wait_type t)
    (wait_handle t) (waiting_threads t) (name t).

Definition set_current_priority (p : Z) (t : Thread) : Thread :=
  mkThread (context t) (status t) (entry_point t) (stack_top t) (stack_size t)
    (initial_priority t) p (processor_id t) (wait_type t)
    (wait_handle t) (waiting_threads t) (name t).

Definition set_wait_type (w : WaitType) (t : Thread) : Thread :=
  mkThread (context t) (status t) (entry_point t) (stack_top t) (stack_size t)
    (initial_priority t) (current_priority t) (processor_id t) w
    (wait_handle t) (waiting_threads t) (name t).

Definition set_wait_handle (h : Handle) (t : Thread) : Thread :=
  mkThread (context t) (status t) (entry_point t) (stack_top t) (stack_size t)
    (initial_priority t) (current_priority t) (processor_id t) (wait_type t)
    h (waiting_threads t) (name t).

Definition set_waiting_threads (l : list Handle) (t : Thread) : Thread :=
  mkThread (context t) (status t) (entry_point t) (stack_top t) (stack_size t)
    (initial_priority t) (current_priority t) (processor_id t) (wait_type t)
    (wait_handle t) l (name t).

Definition set_signaled (b : bool) (e : Event) : Event :=
  mkEvent (intitial_reset_type e) (reset_type e) b (event_name e)
    (wo_waiting_threads e).

Definition set_wo_waiting_threads (l : list Handle) (e : Event) : Event :=
  mkEvent (intitial_reset_type e) (reset_type e) (signaled e) (event_name e) l.

(** ** The ready queue *)

(** Modelled from the spec: [common/thread_queue_list.h] is not part of the
    sources at hand. Section 4.3 of the specification describes the ready
    queue as one FIFO bucket per priority: [Prepare] makes sure a bucket
    exists, [PushBack] and [PushFront] enqueue at either end, [Remove] takes a
    handle out of a bucket if it is there, [PopFirst] removes and returns the
    head of the non-empty bucket with the lowest priority value, and
    [PopFirstBetter] does the same among the buckets whose priority value is
    strictly below the given one. A pop that finds nothing returns the
    default handle [0], which is what [NextThread] tests for. *)
Module ThreadQueueList.

Definition bucket (q : gmap Z (list Handle)) (priority : Z) : list Handle :=
  default [] (q !! priority).

Definition prepare (priority : Z) (q : gmap Z (list Handle)) : gmap Z (list Handle) :=
  match q !! priority with
  | Some _ => q
  | None => <[priority := []]> q
  end.

Definition push_back (priority : Z) (h : Handle) (q : gmap Z (list Handle))
  : gmap Z (list Handle) :=
  <[priority := bucket q priority ++ [h]]> q.

Definition push_front (priority : Z) (h : Handle) (q : gmap Z (list Handle))
  : gmap Z (list Handle) :=
  <[priority := h :: bucket q priority]> q.

Definition remove (priority : Z) (h : Handle) (q : gmap Z (list Handle))
  : gmap Z (list Handle) :=
  alter (filter (fun x => x <> h)) priority q.

(** The priorities of the non-empty buckets that pass [ok]. *)
Definition candidates (ok : Z -> bool) (q : gmap Z (list Handle)) : list Z :=
  (filter (fun pb => ok pb.1 = true /\ pb.2 <> []) (map_to_list q)).*1.

Definition lowest (l : list Z) : option Z :=
  foldr (fun p acc => Some (from_option (Z.min p) p acc)) None l.

Definition pop_at (priority : Z) (q : gmap Z (list Handle))
  : Handle * gmap Z (list Handle) :=
  match bucket q priority with
  | [] => (0, q)
  | h :: rest => (h, <[priority := rest]> q)
  end.

Definition pop_first (q : gmap Z (list Handle)) : Handle * gmap Z (list Handle) :=
  match lowest (candidates (fun _ => true) q) with
  | Some p => pop_at p q
  | None => (0, q)
  end.

Definition pop_first_better (priority : Z) (q : gmap Z (list Handle))
  : Handle * gmap Z (list Handle) :=
  match lowest (candidates (fun p => p <? priority) q) with
  | Some p => pop_at p q
  | None => (0, q)
  end.

End ThreadQueueList.

(** ** The kernel state *)

(** The globals of [thread.cpp] and the object registry ([g_object_pool] in
    [thread.cpp], [g_handle_table] in [event.cpp]). [g_current_thread] is a
    [Thread*]: [None] is the null pointer. [klog] collects the levels of the
    messages written by the logging macros, newest first. *)
Record Kernel : Type := mkKernel {
  g_object_pool : gmap Handle Object;
  g_thread_queue : list Handle;
  g_thread_ready_queue : gmap Z (list Handle);
  g_current_thread : option Handle;
  klog : list LogLevel
}.

Definition set_pool (p : gmap Handle Object) (k : Kernel) : Kernel :=
  mkKernel p (g_thread_queue k) (g_thread_ready_queue k) (g_current_thread k) (klog k).

Definition set_thread_queue (l : list Handle) (k : Kernel) : Kernel :=
  mkKernel (g_object_pool k) l (g_thread_ready_queue k) (g_current_thread k) (klog k).

Definition set_ready_queue (q : gmap Z (list Handle)) (k : Kernel) : Kernel :=
  mkKernel (g_object_pool k) (g_thread_queue k) q (g_current_thread k) (klog k).

Definition log_msg (l : LogLevel) (k : Kernel) : Kernel :=
  mkKernel (g_object_pool k) (g_thread_queue k) (g_thread_ready_queue k)
    (g_current_thread k) (l :: klog k).

(** [g_object_pool.Get<Thread>(handle)]: the checked lookup, null when the
    handle is free or names an object of another type. *)
Definition Get_Thread (k : Kernel) (handle : Handle) : option Thread :=
  match g_object_pool k !! handle with
  | Some (ObjThread t) => Some t
  | _ => None
  end.

(** [g_object_pool.GetFast<Thread>(handle)]: the unchecked lookup. Its result
    is a usable [Thread*] exactly when the handle names a thread; every caller
    asserts that it is not null or dereferences it at once. *)
Definition GetFast_Thread (k : Kernel) (handle : Handle) : option Thread :=
  Get_Thread k handle.

(** [g_handle_table.Get<Event>(handle).get()]. *)
Definition Get_Event (k : Kernel) (handle : Handle) : option Event :=
  match g_object_pool k !! handle with
  | Some (ObjEvent e) => Some e
  | _ => None
  end.

(** A write through a [Thread*] or an [Event*]. *)
Definition on_thread (f : Thread -> Thread) (o : Object) : Object :=
  match o with
  | ObjThread t => ObjThread (f t)
  | ObjEvent e => ObjEvent e
  end.

Definition on_event (f : Event -> Event) (o : Object) : Object :=
  match o with
  | ObjThread t => ObjThread t
  | ObjEvent e => ObjEvent (f e)
  end.

Definition update_thread (t : Handle) (f : Thread -> Thread) (k : Kernel) : Kernel :=
  set_pool (alter (on_thread f) t (g_object_pool k)) k.

Definition update_event (evt : Handle) (f : Event -> Event) (k : Kernel) : Kernel :=
  set_pool (alter (on_event f) evt (g_object_pool k)) k.

(** ** [thread.cpp] *)

Section ThreadCpp.

Context `{hdr : ThreadHeader}.

Definition IsRunning (t : Thread) : bool :=
  negb (Z.land (status t) THREADSTATUS_RUNNING =? 0).
Definition IsStopped (t : Thread) : bool :=
  negb (Z.land (status t) THREADSTATUS_DORMANT =? 0).
Definition IsReady (t : Thread) : bool :=
  negb (Z.land (status t) THREADSTATUS_READY =? 0).
Definition IsWaiting (t : Thread) : bool :=
  negb (Z.land (status t) THREADSTATUS_WAIT =? 0).
Definition IsSuspended (t : Thread) : bool :=
  negb (Z.land (status t) THREADSTATUS_SUSPEND =? 0).

(** [GetCurrentThread()] followed by a dereference. *)
Definition GetCurrentThread (k : Kernel) : option Handle := g_current_thread k.

Definition GetCurrentThreadHandle (k : Kernel) : option Handle :=
  cur ← GetCurrentThread k;
  _ ← GetFast_Thread k cur;
  Some cur.

(** [memset(&t->context, 0, sizeof(ThreadContext))]. *)
Definition zero_context (c : ThreadContext) : ThreadContext :=
  mkThreadContext (replicate (length (cpu_registers c)) 0) 0 0 0 0 0
    (replicate (length (ctx_rest c)) 0).

(** [ResetThread] reads and writes the one thread it is given. *)
Definition ResetThread (arg lowest_priority : Z) (t : Thread) : Thread :=
  let c := zero_context (context t) in
  let c := mkThreadContext (<[0%nat := arg]> (cpu_registers c)) (sp c) (pc c)
             (cpsr c) (reg_15 c) (mode c) (ctx_rest c) in
  let c := mkThreadContext (cpu_registers c) (sp c) (entry_point t)
             (cpsr c) (entry_point t) (mode c) (ctx_rest c) in
  let c := mkThreadContext (cpu_registers c) (stack_top t) (pc c)
             (cpsr c) (reg_15 c) (mode c) (ctx_rest c) in
  let c := mkThreadContext (cpu_registers c) (sp c) (pc c)
             0x1F (reg_15 c) (mode c) (ctx_rest c) in
  let c := mkThreadContext (cpu_registers c) (sp c) (pc c)
             (cpsr c) (reg_15 c) 8 (ctx_rest c) in
  let t := set_context c t in
  let t := if current_priority t <? lowest_priority
           then set_current_priority (initial_priority t) t else t in
  let t := set_wait_type WAITTYPE_NONE t in
  set_wait_handle 0 t.

(** [t] points to a registered thread at every call of the file; were it
    not, there would be nothing to read. *)
Definition ChangeReadyState (t : Handle) (ready : bool) (k : Kernel) : Kernel :=
  match Get_Thread k t with
  | None => k
  | Some th =>
      let handle := t in
      if IsReady th then
        if negb ready then
          set_ready_queue
            (ThreadQueueList.remove (current_priority th) handle
               (g_thread_ready_queue k)) k
        else k
      else if ready then
        let k :=
          if IsRunning th then
            set_ready_queue
              (ThreadQueueList.push_front (current_priority th) handle
                 (g_thread_ready_queue k)) k
          else
            set_ready_queue
              (ThreadQueueList.push_back (current_priority th) handle
                 (g_thread_ready_queue k)) k in
        update_thread t (set_status THREADSTATUS_READY) k
      else k
  end.

(** The assertion on the result of [GetFast] is the only way to fail. *)
Definition VerifyWait (k : Kernel) (handle : Handle) (type : WaitType)
    (wait_handle' : Handle) : option bool :=
  thread ← GetFast_Thread k handle;
  if bool_decide (type <> wait_type thread)
     || bool_decide (wait_handle' <> wait_handle thread)
  then Some false
  else Some true.

(** [status &= ~THREADSTATUS_WAIT] on the [u32] status: the conjunction with
    the complement, which on a status in range is the machine's result. *)
Definition ResumeThreadFromWait (handle : Handle) (k : Kernel) : Kernel :=
  match Get_Thread k handle with
  | Some thread =>
      let s := Z.land (status thread) (Z.lnot THREADSTATUS_WAIT) in
      let k := update_thread handle (set_status s) k in
      if Z.land s (Z.lor (Z.lor THREADSTATUS_WAITSUSPEND THREADSTATUS_DORMANT)
                     THREADSTATUS_DEAD) =? 0
      then ChangeReadyState handle true k
      else k
  | None => k
  end.

(** The loop of [StopThread] over [thread->waiting_threads]. Its body
    writes no waiter list, so the list is the one read before the loop. *)
Fixpoint StopThread_wake (handle : Handle) (waiting : list Handle) (k : Kernel)
    : option Kernel :=
  match waiting with
  | [] => Some k
  | waiting_thread :: rest =>
      match VerifyWait k waiting_thread WAITTYPE_THREADEND handle with
      | Some v =>
          StopThread_wake handle rest
            (if v then ResumeThreadFromWait waiting_thread k else k)
      | None => None
      end
  end.

(** The [reason] string of the C++ signature is not used by the body. *)
Definition StopThread (handle : Handle) (k : Kernel) : option Kernel :=
  thread ← GetFast_Thread k handle;
  let k := ChangeReadyState handle false k in
  let k := update_thread handle (set_status THREADSTATUS_DORMANT) k in
  k ← StopThread_wake handle (waiting_threads thread) k;
  let k := update_thread handle (set_waiting_threads []) k in
  let k := update_thread handle (set_wait_type WAITTYPE_NONE) k in
  Some (update_thread handle (set_wait_handle 0) k).

(** [t] is a [Thread*]; [None] is the null pointer. *)
Definition ChangeThreadState (t : option Handle) (new_status : Z) (k : Kernel)
    : Kernel :=
  match t with
  | None => k
  | Some t =>
      match Get_Thread k t with
      | None => k
      | Some th =>
          if status th =? new_status then k
          else
            let k := ChangeReadyState t
                       (negb (Z.land new_status THREADSTATUS_READY =? 0)) k in
            let k := update_thread t (set_status new_status) k in
            if new_status =? THREADSTATUS_WAIT then
              match Get_Thread k t with
              | Some th' =>
                  if bool_decide (wait_type th' = WAITTYPE_NONE)
                  then log_msg LOG_ERROR k else k
              | None => k
              end
            else k
      end
  end.

(** The loop of [ArbitrateHighestPriorityThread]: the pair carries
    [highest_priority_thread] and [priority]. *)
Fixpoint Arbitrate_scan (k : Kernel) (arbiter : Z) (queue : list Handle)
    (best : Handle * Z) : option (Handle * Z) :=
  match queue with
  | [] => Some best
  | handle :: rest =>
      match VerifyWait k handle WAITTYPE_ARB arbiter with
      | Some v =>
          if negb v then Arbitrate_scan k arbiter rest best
          else
            match GetFast_Thread k handle with
            | Some thread =>
                if current_priority thread <=? best.2
                then Arbitrate_scan k arbiter rest
                       (handle, current_priority thread)
                else Arbitrate_scan k arbiter rest best
            | None => None
            end
      | None => None
      end
  end.

Definition ArbitrateHighestPriorityThread (arbiter address : Z) (k : Kernel)
    : option (Handle * Kernel) :=
  best ← Arbitrate_scan k arbiter (g_thread_queue k) (0, THREADPRIO_LOWEST);
  let highest_priority_thread := best.1 in
  if negb (0 =? highest_priority_thread)
  then Some (highest_priority_thread,
             ResumeThreadFromWait highest_priority_thread k)
  else Some (highest_priority_thread, k).

(** The loop of [ArbitrateAllThreads]; here the body does change the state
    that the next test reads. *)
Fixpoint ArbitrateAll_loop (arbiter : Z) (queue : list Handle) (k : Kernel)
    : option Kernel :=
  match queue with
  | [] => Some k
  | handle :: rest =>
      match VerifyWait k handle WAITTYPE_ARB arbiter with
      | Some v =>
          ArbitrateAll_loop arbiter rest
            (if v then ResumeThreadFromWait handle k else k)
      | None => None
      end
  end.

Definition ArbitrateAllThreads (arbiter address : Z) (k : Kernel) : option Kernel :=
  ArbitrateAll_loop arbiter (g_thread_queue k) k.

Definition CallThread (t : Handle) (k : Kernel) : Kernel :=
  let k :=
    match Get_Thread k t with
    | Some th =>
        if bool_decide (wait_type th <> WAITTYPE_NONE)
        then update_thread t (set_wait_type WAITTYPE_NONE) k else k
    | None => k
    end in
  ChangeThreadState (Some t) THREADSTATUS_READY k.

(** [NextThread] returns a [Thread*]: the handle of the thread found, or
    [None] for the null pointer. *)
Definition NextThread (k : Kernel) : option Handle * Kernel :=
  let cur := GetCurrentThread k ≫= Get_Thread k in
  let '(next, q) :=
    match cur with
    | Some c =>
        if IsRunning c
        then ThreadQueueList.pop_first_better (current_priority c)
               (g_thread_ready_queue k)
        else ThreadQueueList.pop_first (g_thread_ready_queue k)
    | None => ThreadQueueList.pop_first (g_thread_ready_queue k)
    end in
  let k := set_ready_queue q k in
  if next =? 0 then (None, k)
  else (_ ← GetFast_Thread k next; Some next, k).

Definition WaitCurrentThread (wait_type' : WaitType) (wait_handle' : Handle)
    (k : Kernel) : option Kernel :=
  thread ← GetCurrentThread k;
  th ← Get_Thread k thread;
  let k := update_thread thread (set_wait_type wait_type') k in
  let k := update_thread thread (set_wait_handle wait_handle') k in
  Some (ChangeThreadState (Some thread)
          (Z.lor THREADSTATUS_WAIT (Z.land (status th) THREADSTATUS_SUSPEND)) k).

(** [Thread::WaitSynchronization(bool* wait)] on the thread [this]; the
    second component of the result is the value left in [*wait]. *)
Definition Thread_WaitSynchronization (this : Handle) (wait : bool) (k : Kernel)
    : option (Z * bool * Kernel) :=
  self ← Get_Thread k this;
  if negb (status self =? THREADSTATUS_DORMANT) then
    thread ← GetCurrentThreadHandle k;
    let k :=
      if bool_decide (thread ∈ waiting_threads self) then k
      else update_thread this
             (fun t => set_waiting_threads (waiting_threads t ++ [thread]) t) k in
    k ← WaitCurrentThread WAITTYPE_THREADEND this k;
    Some (0, true, k)
  else Some (0, wait, k).

End ThreadCpp.

(** ** Thread creation *)

(** The two collaborators of thread creation that live outside the sources at
    hand: [Memory::GetPointer], of which the code only tests whether the
    result is null, and the registry's [Create], of which the code only uses
    the handle it hands out. *)
Class KernelEnv : Type := {
  Memory_GetPointer : Z -> bool;
  ObjectPool_Create : gmap Handle Object -> Handle
}.

(** Modelled from the spec: the macro [CLAMP] of [common/common.h] is not part
    of the sources at hand; section 4.4 says that an out-of-range priority is
    clamped into the range. *)
Definition CLAMP (x lo hi : Z) : Z :=
  if x >? hi then hi else if x <? lo then lo else x.

Section Creation.

Context `{hdr : ThreadHeader} `{env : KernelEnv}.

(** [Thread* CreateThread(Handle& handle, ...)]. [fresh] is the content of
    the register snapshot of the object that [new Thread] returns, which no
    statement of the function writes. The handle comes back with the
    state. *)
Definition CreateThread_Thread (fresh : ThreadContext) (name' : string)
    (entry_point' priority processor_id' stack_top' stack_size' : Z)
    (k : Kernel) : option (Handle * Kernel) :=
  if (THREADPRIO_HIGHEST <=? priority) && (priority <=? THREADPRIO_LOWEST) then
    let handle := ObjectPool_Create (g_object_pool k) in
    let thread :=
      mkThread fresh THREADSTATUS_DORMANT entry_point' stack_top'
        (to_u32 stack_size') priority priority processor_id'
        WAITTYPE_NONE 0 [] name' in
    let k := set_pool (<[handle := ObjThread thread]> (g_object_pool k)) k in
    let k := set_thread_queue (g_thread_queue k ++ [handle]) k in
    let k := set_ready_queue
               (ThreadQueueList.prepare priority (g_thread_ready_queue k)) k in
    Some (handle, k)
  else None.

(** [Handle CreateThread(const char* name, ...)], the wrapper for external
    users; a null [name] is [None]. *)
Definition CreateThread (fresh : ThreadContext) (name' : option string)
    (entry_point' priority arg processor_id' stack_top' stack_size' : Z)
    (k : Kernel) : option (Handle * Kernel) :=
  match name' with
  | None => Some (to_u32 (-1), log_msg LOG_ERROR k)
  | Some name' =>
      if to_u32 stack_size' <? 0x200 then Some (to_u32 (-1), log_msg LOG_ERROR k)
      else
        let clamp := (priority <? THREADPRIO_HIGHEST)
                     || (priority >? THREADPRIO_LOWEST) in
        let new_priority := CLAMP priority THREADPRIO_HIGHEST THREADPRIO_LOWEST in
        let k := if clamp then log_msg LOG_WARN k else k in
        let priority := if clamp then new_priority else priority in
        if negb (Memory_GetPointer entry_point')
        then Some (to_u32 (-1), log_msg LOG_ERROR k)
        else
          match CreateThread_Thread fresh name' entry_point' priority
                  processor_id' stack_top' stack_size' k with
          | Some (handle, k) =>
              let k := update_thread handle (ResetThread arg 0) k in
              let k := CallThread handle k in
              Some (handle, k)
          | None => None
          end
  end.

End Creation.

(** ** [event.cpp] *)

(** The members of the [WaitObject] base class and the scheduler entry that
    [event.cpp] calls are defined outside the sources at hand. The event code
    is generic in them; [this] is the handle of the object the member is
    called on, and the [Thread*] handed to [AddWaitingThread] may be the null
    pointer, [None]. *)
Class WaitObjectOps : Type := {
  AddWaitingThread : Handle -> option Handle -> Kernel -> Kernel;
  ReleaseAllWaitingThreads : Handle -> Kernel -> bool * Kernel;
  WaitCurrentThread_WaitSynchronization :
    WaitType -> Handle -> Z -> Kernel -> option Kernel
}.

Section EventCpp.

Context `{ops : WaitObjectOps}.

(** [Event::WaitSynchronization(unsigned index)] on the event [this]. The
    result carries the code and the value of the [ResultVal<bool>]. The
    current-thread pointer is passed on as it is; the function itself does
    not read through it. *)
Definition Event_WaitSynchronization (this : Handle) (index : Z) (k : Kernel)
    : option (ResultCode * bool * Kernel) :=
  evt ← Get_Event k this;
  let wait := negb (signaled evt) in
  if wait then
    let k := AddWaitingThread this (GetCurrentThread k) k in
    k ← WaitCurrentThread_WaitSynchronization WAITTYPE_EVENT this index k;
    Some (RESULT_SUCCESS, wait, k)
  else Some (RESULT_SUCCESS, wait, k).

Definition SetEventSignaled (handle : Handle) (signaled' : bool) (k : Kernel)
    : ResultCode * Kernel :=
  match Get_Event k handle with
  | None => (InvalidHandle ErrorModule_Kernel, k)
  | Some _ =>
      (RESULT_SUCCESS, update_event handle (set_signaled signaled') k)
  end.

(** After the release, [evt->reset_type] is read through the same pointer;
    if the release took the object out of the registry there is nothing
    left to read or to write. *)
Definition SignalEvent (handle : Handle) (k : Kernel) : ResultCode * Kernel :=
  match Get_Event k handle with
  | None => (InvalidHandle ErrorModule_Kernel, k)
  | Some _ =>
      let k := update_event handle (set_signaled true) k in
      let '(thread_awoken, k) := ReleaseAllWaitingThreads handle k in
      let k :=
        match Get_Event k handle with
        | Some evt =>
            if bool_decide (reset_type evt <> RESETTYPE_STICKY) && thread_awoken
            then update_event handle (set_signaled false) k
            else k
        | None => k
        end in
      (RESULT_SUCCESS, k)
  end.

Definition ClearEvent (handle : Handle) (k : Kernel) : ResultCode * Kernel :=
  match Get_Event k handle with
  | None => (InvalidHandle ErrorModule_Kernel, k)
  | Some _ => (RESULT_SUCCESS, update_event handle (set_signaled false) k)
  end.

End EventCpp.

(** ** The wait-object protocol of the specification *)

Section SpecWaitObject.

Context `{hdr : ThreadHeader}.

(** Modelled from the spec: [WaitObject::AddWaitingThread] is not part of
    the sources at hand. Section 4.1: idempotent, no-op if the thread is
    already present. *)
Definition spec_AddWaitingThread (this thread : Handle) (k : Kernel) : Kernel :=
  update_event this
    (fun e =>
       if bool_decide (thread ∈ wo_waiting_threads e) then e
       else set_wo_waiting_threads (wo_waiting_threads e ++ [thread]) e) k.

(** Modelled from the spec: the member takes a [Thread*]. The spec speaks of
    threads only; the null pointer names none, and nothing is added for
    it. *)
Definition spec_AddWaitingThread_ptr (this : Handle) (thread : option Handle)
    (k : Kernel) : Kernel :=
  match thread with
  | Some t => spec_AddWaitingThread this t k
  | None => k
  end.

(** Modelled from the spec: [WaitCurrentThread_WaitSynchronization] is not
    part of the sources at hand. Sections 4.1 and 4.5: the scheduler blocks
    the calling thread, that is, sets its wait fields and moves it to the
    wait state, keeping the suspend flag; this is [WaitCurrentThread] with
    the handle of the wait object. *)
Definition spec_WaitCurrentThread_WaitSynchronization (wait_type' : WaitType)
    (wait_object : Handle) (index : Z) (k : Kernel) : option Kernel :=
  WaitCurrentThread wait_type' wait_object k.

(** Modelled from the spec: [WaitObject::ReleaseAllWaitingThreads] is not
    part of the sources at hand. Sections 4.1, 4.5 and 7: every waiter whose
    wait still names this object is resumed through the scheduler, a waiter
    whose wait was retargeted is skipped, the waiter set is cleared, and the
    result says whether some thread was woken, a thread that stays
    suspended not being counted. *)
Definition spec_release_one (this w : Handle) (k : Kernel) : bool * Kernel :=
  match VerifyWait k w WAITTYPE_EVENT this with
  | Some true =>
      let k := ResumeThreadFromWait w k in
      (from_option IsReady false (Get_Thread k w), k)
  | _ => (false, k)
  end.

Fixpoint spec_release_each (this : Handle) (ws : list Handle) (k : Kernel)
    : bool * Kernel :=
  match ws with
  | [] => (false, k)
  | w :: rest =>
      let '(woke, k) := spec_release_one this w k in
      let '(any, k) := spec_release_each this rest k in
      (woke || any, k)
  end.

Definition spec_ReleaseAllWaitingThreads (this : Handle) (k : Kernel)
    : bool * Kernel :=
  match Get_Event k this with
  | Some e =>
      let '(any, k) := spec_release_each this (wo_waiting_threads e) k in
      (any, update_event this (set_wo_waiting_threads []) k)
  | None => (false, k)
  end.

Definition spec_WaitObject : WaitObjectOps :=
  {| AddWaitingThread := spec_AddWaitingThread_ptr;
     ReleaseAllWaitingThreads := spec_ReleaseAllWaitingThreads;
     WaitCurrentThread_WaitSynchronization :=
       spec_WaitCurrentThread_WaitSynchronization |}.

End SpecWaitObject.

(** ** A header and an environment for the closed examples *)

(** One bit per status flag and the priorities 0 to 63. The theorems below
    hold for every header that passes [header_ok]; this one serves the
    examples that need numbers. *)
Definition example_header : ThreadHeader :=
  {| THREADSTATUS_RUNNING := 1;
     THREADSTATUS_READY := 2;
     THREADSTATUS_WAIT := 4;
     THREADSTATUS_SUSPEND := 8;
     THREADSTATUS_DORMANT := 16;
     THREADSTATUS_DEAD := 32;
     THREADSTATUS_WAITSUSPEND := 12;
     THREADPRIO_HIGHEST := 0;
     THREADPRIO_LOWEST := 63 |}.

(** Every address but 0 is mapped, and the registry hands out the handle that
    follows the number of objects it holds. *)
Definition example_env : KernelEnv :=
  {| Memory_GetPointer := fun a => negb (a =? 0);
     ObjectPool_Create := fun pool => Z.of_nat (size pool) + 1 |}.

Definition example_context : ThreadContext :=
  mkThreadContext [7; 7; 7] 7 7 7 7 7 [7; 7].

(** A thread of the given status and priority that waits as told. *)
Definition example_thread (st prio : Z) (wt : WaitType) (wh : Handle) : Thread :=
  mkThread example_context st 256 4096 1024 prio prio 0 wt wh [] "t".

Definition example_kernel (pool : list (Handle * Object)) (reg : list Handle)
    (cur : option Handle) : Kernel :=
  mkKernel (list_to_map pool) reg ∅ cur [].

(** Two threads wait on the arbiter 9 with the same priority 10. *)
Definition tie_kernel : Kernel :=
  example_kernel
    [(1, ObjThread (example_thread 4 10 WAITTYPE_ARB 9));
     (2, ObjThread (example_thread 4 10 WAITTYPE_ARB 9))]
    [1; 2] None.

(** A one-shot event 5 on which thread 1 waits, with thread 2 running. *)
Definition event_5 : Event := mkEvent RESETTYPE_ONESHOT RESETTYPE_ONESHOT false "e" [1].

Definition event_kernel : Kernel :=
  example_kernel
    [(1, ObjThread (example_thread 4 10 WAITTYPE_EVENT 5));
     (2, ObjThread (example_thread 1 20 WAITTYPE_NONE 0));
     (5, ObjEvent event_5)]
    [1; 2] (Some 2).

(** Thread 2 runs at priority 20; thread 1 is ready at 10, thread 3 at 20. *)
Definition ready_kernel : Kernel :=
  mkKernel
    (list_to_map
       [(1, ObjThread (example_thread 2 10 WAITTYPE_NONE 0));
        (2, ObjThread (example_thread 1 20 WAITTYPE_NONE 0));
        (3, ObjThread (example_thread 2 20 WAITTYPE_NONE 0))])
    [1; 2; 3] (list_to_map [(10, [1]); (20, [3])]) (Some 2) [].

(** Thread 1 is ready; thread 2 waits for its end, thread 3 did and now
    waits on an event. *)
Definition stop_target : Thread :=
  set_waiting_threads [2; 3] (example_thread 2 10 WAITTYPE_NONE 0).

Definition stop_kernel : Kernel :=
  mkKernel
    (list_to_map
       [(1, ObjThread stop_target);
        (2, ObjThread (example_thread 4 20 WAITTYPE_THREADEND 1));
        (3, ObjThread (example_thread 4 30 WAITTYPE_EVENT 9))])
    [1; 2; 3] (list_to_map [(10, [1])]) None [].

(** Three threads wait on the arbiter 9 with the priorities 5, 1 and 3. *)
Definition arbitration_kernel : Kernel :=
  example_kernel
    [(1, ObjThread (example_thread 4 5 WAITTYPE_ARB 9));
     (2, ObjThread (example_thread 4 1 WAITTYPE_ARB 9));
     (3, ObjThread (example_thread 4 3 WAITTYPE_ARB 9))]
    [1; 2; 3] None.

(** The status of every registered thread, in registry order. *)
Definition statuses (k : Kernel) : list (option Z) :=
  (fun h => status <$> Get_Thread k h) <$> g_thread_queue k.

(** ** Notions used in the statements *)

Section Notions.

Context `{hdr : ThreadHeader}.

(** The wait of thread [h] is of type [ty] on [wh]. *)
Definition wait_matches (k : Kernel) (ty : WaitType) (wh h : Handle) : bool :=
  from_option
    (fun t => bool_decide (wait_type t = ty) && bool_decide (wait_handle t = wh))
    false (Get_Thread k h).

Definition priority_of (k : Kernel) (h : Handle) : Z :=
  from_option current_priority 0 (Get_Thread k h).

(** Lowest priority value, the first of equals wins: the selection in the
    words of the specification. *)
Fixpoint first_best (k : Kernel) (l : list Handle) : option Handle :=
  match l with
  | [] => None
  | h :: r =>
      match first_best k r with
      | None => Some h
      | Some h' => if priority_of k h <=? priority_of k h' then Some h else Some h'
      end
  end.

Definition claimed_arbitration (arbiter : Z) (k : Kernel) : Handle :=
  default 0 (first_best k
               (filter (fun h => wait_matches k WAITTYPE_ARB arbiter h = true)
                  (g_thread_queue k))).

(** The effect of one [ResumeThreadFromWait] on the thread it resumes. *)
Definition resumed (t : Thread) : Thread :=
  let s := Z.land (status t) (Z.lnot THREADSTATUS_WAIT) in
  if Z.land s (Z.lor (Z.lor THREADSTATUS_WAITSUSPEND THREADSTATUS_DORMANT)
                 THREADSTATUS_DEAD) =? 0
  then if IsReady (set_status s t) then set_status s t
       else set_status THREADSTATUS_READY t
  else set_status s t.

(** The flags that keep a thread from becoming ready when it is resumed. *)
Definition wake_mask : Z :=
  Z.lor (Z.lor THREADSTATUS_WAITSUSPEND THREADSTATUS_DORMANT) THREADSTATUS_DEAD.

(** What [header_ok] gives, fact by fact. *)
Record flags_wf : Prop := {
  running_pos : 0 < THREADSTATUS_RUNNING;
  ready_pos : 0 < THREADSTATUS_READY;
  wait_pos : 0 < THREADSTATUS_WAIT;
  suspend_pos : 0 < THREADSTATUS_SUSPEND;
  dormant_pos : 0 < THREADSTATUS_DORMANT;
  dead_pos : 0 < THREADSTATUS_DEAD;
  running_ready : Z.land THREADSTATUS_RUNNING THREADSTATUS_READY = 0;
  ready_wait : Z.land THREADSTATUS_READY THREADSTATUS_WAIT = 0;
  ready_suspend : Z.land THREADSTATUS_READY THREADSTATUS_SUSPEND = 0;
  ready_dormant : Z.land THREADSTATUS_READY THREADSTATUS_DORMANT = 0;
  ready_dead : Z.land THREADSTATUS_READY THREADSTATUS_DEAD = 0;
  running_dormant : Z.land THREADSTATUS_RUNNING THREADSTATUS_DORMANT = 0;
  wait_suspend : Z.land THREADSTATUS_WAIT THREADSTATUS_SUSPEND = 0;
  wait_dormant : Z.land THREADSTATUS_WAIT THREADSTATUS_DORMANT = 0;
  ready_waitsuspend :
    Z.land THREADSTATUS_READY THREADSTATUS_WAITSUSPEND = 0;
  prio_range : THREADPRIO_HIGHEST <= THREADPRIO_LOWEST
}.

(** Two states in which every thread waits on the same thing. *)
Definition same_waits (k k' : Kernel) : Prop :=
  forall h, (fun t => (wait_type t, wait_handle t)) <$> Get_Thread k' h
            = (fun t => (wait_type t, wait_handle t)) <$> Get_Thread k h.

(** Some bucket of the ready queue holds [h]. *)
Definition queued (q : gmap Z (list Handle)) (h : Handle) : Prop :=
  exists p b, q !! p = Some b /\ h ∈ b.

End Notions.

(** ** The rest of [thread.cpp] *)

Definition set_current_thread (c : option Handle) (k : Kernel) : Kernel :=
  mkKernel (g_object_pool k) (g_thread_queue k) (g_thread_ready_queue k) c (klog k).

(** The CPU core behind [Core::g_app_core], which lives outside the files
    embedded here: a state, the two transfers of a register snapshot, and the
    program counter. *)
Class ArmCore : Type := {
  Cpu : Type;
  core_SaveContext : Cpu -> ThreadContext -> ThreadContext;
  core_LoadContext : ThreadContext -> Cpu -> Cpu;
  core_GetPC : Cpu -> Z
}.

(** The two constants [SetupMainThread] takes from other headers. *)
Class MainThreadConsts : Type := {
  THREADPROCESSORID_0 : Z;
  SCRATCHPAD_VADDR_END : Z
}.

(** The kernel together with the CPU core, the flag [HLE::g_reschedule] and
    the context switches reported by [INFO_LOG], newest first. *)
Record Machine `{core : ArmCore} : Type := mkMachine {
  kernel : Kernel;
  g_app_core : Cpu;
  g_reschedule : bool;
  switches : list (Handle * Handle)
}.

Arguments mkMachine {core} _ _ _ _.
Arguments kernel {core} _.
Arguments g_app_core {core} _.
Arguments g_reschedule {core} _.
Arguments switches {core} _.

Section ThreadCppRest.

Context `{hdr : ThreadHeader} `{env : KernelEnv} `{core : ArmCore}
  `{mc : MainThreadConsts}.

Definition set_kernel (k : Kernel) (m : Machine) : Machine :=
  mkMachine k (g_app_core m) (g_reschedule m) (switches m).

(** [SetCurrentThread(t)] stores the pointer and reads the handle through
    it. The model keeps the one field, the handle being the pointer. *)
Definition SetCurrentThread (t : option Handle) (k : Kernel) : option Kernel :=
  t' ← t;
  _ ← Get_Thread k t';
  Some (set_current_thread (Some t') k).

(** [GetThreadPriority] returns the [s32] priority as a [u32]. *)
Definition GetThreadPriority (handle : Handle) (k : Kernel) : option Z :=
  thread ← GetFast_Thread k handle;
  Some (to_u32 (current_priority thread)).

(** [SetThreadPriority]. The handle 0 stands for the current thread, but the
    calls on the ready queue are made with the handle as it was given. *)
Definition SetThreadPriority (handle : Handle) (priority : Z) (k : Kernel)
    : option (Z * Kernel) :=
  thread ← (if handle =? 0 then GetCurrentThread k
            else (_ ← GetFast_Thread k handle; Some handle));
  th ← Get_Thread k thread;
  let clamp := (priority <? THREADPRIO_HIGHEST)
               || (priority >? THREADPRIO_LOWEST) in
  let new_priority := CLAMP priority THREADPRIO_HIGHEST THREADPRIO_LOWEST in
  let k := if clamp then log_msg LOG_WARN k else k in
  let priority := if clamp then new_priority else priority in
  let old := current_priority th in
  let k := set_ready_queue
             (ThreadQueueList.remove old handle (g_thread_ready_queue k)) k in
  let k := update_thread thread (set_current_priority priority) k in
  let k := set_ready_queue
             (ThreadQueueList.prepare priority (g_thread_ready_queue k)) k in
  let k := if IsRunning th
           then update_thread thread
                  (set_status
                     (Z.lor (Z.land (status th) (Z.lnot THREADSTATUS_RUNNING))
                        THREADSTATUS_READY)) k
           else k in
  th' ← Get_Thread k thread;
  let k := if IsReady th'
           then set_ready_queue
                  (ThreadQueueList.push_back (current_priority th') handle
                     (g_thread_ready_queue k)) k
           else k in
  Some (0, k).

(** [SwitchContext(t)]; [None] is the null pointer, which [SetCurrentThread]
    dereferences. *)
Definition SwitchContext (t : option Handle) (m : Machine) : option Machine :=
  let cur := GetCurrentThread (kernel m) in
  m ← match cur with
      | Some c =>
          th ← Get_Thread (kernel m) c;
          let k := update_thread c
                     (set_context (core_SaveContext (g_app_core m) (context th)))
                     (kernel m) in
          let k := if IsRunning th then ChangeReadyState c true k else k in
          Some (set_kernel k m)
      | None => Some m
      end;
  match t with
  | Some t =>
      k ← SetCurrentThread (Some t) (kernel m);
      let k := ChangeReadyState t false k in
      th ← Get_Thread k t;
      let k := update_thread t
                 (set_status
                    (Z.land (Z.lor (status th) THREADSTATUS_RUNNING)
                       (Z.lnot THREADSTATUS_READY))) k in
      let k := update_thread t (set_wait_type WAITTYPE_NONE) k in
      th ← Get_Thread k t;
      Some (mkMachine k (core_LoadContext (context th) (g_app_core m))
              (g_reschedule m) (switches m))
  | None =>
      k ← SetCurrentThread None (kernel m);
      Some (set_kernel k m)
  end.

(** [Reschedule]. The message of [INFO_LOG] reads the handle of [prev]
    through the pointer. *)
Definition Reschedule (m : Machine) : option Machine :=
  let prev := GetCurrentThread (kernel m) in
  let '(next, k) := NextThread (kernel m) in
  let m := mkMachine k (g_app_core m) false (switches m) in
  match next with
  | Some n =>
      p ← prev;
      _ ← Get_Thread (kernel m) p;
      let m := mkMachine (kernel m) (g_app_core m) (g_reschedule m)
                 ((p, n) :: switches m) in
      m ← SwitchContext (Some n) m;
      pth ← Get_Thread (kernel m) p;
      if bool_decide (wait_type pth = WAITTYPE_VBLANK)
      then Some (set_kernel (ResumeThreadFromWait p (kernel m)) m)
      else Some m
  | None => Some m
  end.

(** [SetupMainThread]; [fresh] as in [CreateThread_Thread]. *)
Definition SetupMainThread (fresh : ThreadContext) (priority stack_size' : Z)
    (m : Machine) : option (Handle * Machine) :=
  match CreateThread_Thread fresh "main" (core_GetPC (g_app_core m)) priority
          THREADPROCESSORID_0 SCRATCHPAD_VADDR_END stack_size' (kernel m) with
  | Some (handle, k) =>
      let k := update_thread handle (ResetThread 0 0) k in
      k ← match GetCurrentThread k with
          | Some c =>
              th ← Get_Thread k c;
              Some (if IsRunning th then ChangeReadyState c true k else k)
          | None => Some k
          end;
      k ← SetCurrentThread (Some handle) k;
      let k := update_thread handle (set_status THREADSTATUS_RUNNING) k in
      th ← Get_Thread k handle;
      Some (handle,
            mkMachine k (core_LoadContext (context th) (g_app_core m))
              (g_reschedule m) (switches m))
  | None => None
  end.

End ThreadCppRest.

(** ** The rest of [event.cpp] *)

(** [g_handle_table.Create], which may find no free handle, and the handle
    that stands for that case. *)
Class HandleTable : Type := {
  HandleTable_Create : gmap Handle Object -> option Handle;
  INVALID_HANDLE : Handle
}.

Section EventCppRest.

Context `{tbl : HandleTable}.

(** [Event* CreateEvent(Handle& handle, ...)]: the handle and the new event
    come back with the state. When the table gives no handle the event is
    in no registry. *)
Definition CreateEvent_Event (reset_type' : ResetType) (name' : string)
    (k : Kernel) : Handle * Event * Kernel :=
  let evt := mkEvent reset_type' reset_type' false name' [] in
  match HandleTable_Create (g_object_pool k) with
  | Some handle =>
      (handle, evt, set_pool (<[handle := ObjEvent evt]> (g_object_pool k)) k)
  | None => (INVALID_HANDLE, evt, k)
  end.

(** [Handle CreateEvent(const ResetType, const std::string&)]. *)
Definition CreateEvent (reset_type' : ResetType) (name' : string) (k : Kernel)
    : Handle * Kernel :=
  let '(handle, _, k) := CreateEvent_Event reset_type' name' k in
  (handle, k).

End EventCppRest.

(** ** The invariants of the scheduler *)

Section Invariants.

Context `{hdr : ThreadHeader}.

(** [h] may sit in the bucket [p]: it names a ready thread of priority [p]. *)
Definition entry_ok (k : Kernel) (p : Z) (h : Handle) : bool :=
  match Get_Thread k h with
  | Some t => IsReady t && (current_priority t =? p)
  | None => false
  end.

(** Every bucket of the ready queue holds distinct handles of ready threads
    of the bucket's priority. *)
Definition queue_ok (k : Kernel) : Prop :=
  map_Forall
    (fun p b => NoDup b /\ Forall (fun h => entry_ok k p h = true) b)
    (g_thread_ready_queue k).

(** Only the current thread has the running flag, and it is not ready. *)
Definition running_ok (k : Kernel) (h : Handle) (o : Object) : bool :=
  match o with
  | ObjThread t =>
      negb (IsRunning t)
      || (bool_decide (g_current_thread k = Some h) && negb (IsReady t))
  | ObjEvent _ => true
  end.

Definition one_running (k : Kernel) : Prop :=
  map_Forall (fun h o => running_ok k h o = true) (g_object_pool k).

(** Every registered handle names a thread. *)
Definition registered (k : Kernel) : Prop :=
  Forall (fun h => is_Some (Get_Thread k h)) (g_thread_queue k).

(** The three together. *)
Definition sched_ok (k : Kernel) : Prop :=
  queue_ok k /\ one_running k /\ registered k.

#[global] Instance queue_ok_dec k : Decision (queue_ok k).
Proof. unfold queue_ok. apply _. Defined.

#[global] Instance one_running_dec k : Decision (one_running k).
Proof. unfold one_running. apply _. Defined.

#[global] Instance registered_dec k : Decision (registered k).
Proof. unfold registered. apply _. Defined.

#[global] Instance sched_ok_dec k : Decision (sched_ok k).
Proof. unfold sched_ok. apply _. Defined.

End Invariants.

(** A core whose state is the register snapshot itself. *)
Definition example_core : ArmCore :=
  {| Cpu := ThreadContext;
     core_SaveContext := fun cpu _ => cpu;
     core_LoadContext := fun ctx _ => ctx;
     core_GetPC := pc |}.

Definition example_consts : MainThreadConsts :=
  {| THREADPROCESSORID_0 := 0; SCRATCHPAD_VADDR_END := 0x10000000 |}.

(** A table that hands out the handle after the number of objects, while
    there are fewer than four. *)
Definition example_table : HandleTable :=
  {| HandleTable_Create :=
       fun pool => if (size pool <? 4)%nat then Some (Z.of_nat (size pool) + 1)
                   else None;
     INVALID_HANDLE := 0 |}.

Definition example_machine (k : Kernel) : Machine (core := example_core) :=
  @mkMachine example_core k example_context true [].

(** Thread 2 runs, and nothing waits on the one-shot event 5, which is not
    signalled. *)
Definition quiet_event_kernel : Kernel :=
  example_kernel
    [(2, ObjThread (example_thread 1 20 WAITTYPE_NONE 0));
     (5, ObjEvent (mkEvent RESETTYPE_ONESHOT RESETTYPE_ONESHOT false "e" []))]
    [2] (Some 2).

(** Thread 2 runs at priority 20; thread 3 is ready at the same priority,
    thread 1 at the worse priority 30. *)
Definition passed_over_kernel : Kernel :=
  mkKernel
    (list_to_map
       [(1, ObjThread (example_thread 2 30 WAITTYPE_NONE 0));
        (2, ObjThread (example_thread 1 20 WAITTYPE_NONE 0));
        (3, ObjThread (example_thread 2 20 WAITTYPE_NONE 0))])
    [1; 2; 3] (list_to_map [(20, [3]); (30, [1])]) (Some 2) [].





(** Wait-object members that read nothing through the pointers they are
    given. *)
Definition inert_WaitObject : WaitObjectOps :=
  {| AddWaitingThread := fun _ _ k => k;
     ReleaseAllWaitingThreads := fun _ k => (false, k);
     WaitCurrentThread_WaitSynchronization := fun _ _ _ k => Some k |}.

(** Decides a decidable statement on closed data by evaluation. *)
Ltac by_compute := apply (bool_decide_unpack _); vm_compute; exact I.

(** * Proofs *)

(** ** Records and the registry *)

Lemma set_status_same t : set_status (status t) t = t.
Proof. by destruct t. Qed.

Lemma Get_Thread_update_thread k t f h :
  Get_Thread (update_thread t f k) h
  = if decide (t = h) then f <$> Get_Thread k t else Get_Thread k h.
Proof.
  unfold Get_Thread, update_thread; simpl.
  case_decide as E.
  - subst. rewrite lookup_alter_eq.
    destruct (g_object_pool k !! h) as [[?|?]|]; done.
  - by rewrite lookup_alter_ne.
Qed.

Lemma Get_Event_update_thread k t f h :
  Get_Event (update_thread t f k) h = Get_Event k h.
Proof.
  unfold Get_Event, update_thread; simpl.
  destruct (decide (t = h)) as [->|E].
  - rewrite lookup_alter_eq. destruct (g_object_pool k !! h) as [[?|?]|]; done.
  - by rewrite lookup_alter_ne.
Qed.

Lemma Get_Event_update_event k e f h :
  Get_Event (update_event e f k) h
  = if decide (e = h) then f <$> Get_Event k e else Get_Event k h.
Proof.
  unfold Get_Event, update_event; simpl.
  case_decide as E.
  - subst. rewrite lookup_alter_eq.
    destruct (g_object_pool k !! h) as [[?|?]|]; done.
  - by rewrite lookup_alter_ne.
Qed.

Lemma Get_Thread_update_event k e f h :
  Get_Thread (update_event e f k) h = Get_Thread k h.
Proof.
  unfold Get_Thread, update_event; simpl.
  destruct (decide (e = h)) as [->|E].
  - rewrite lookup_alter_eq. destruct (g_object_pool k !! h) as [[?|?]|]; done.
  - by rewrite lookup_alter_ne.
Qed.

Lemma Get_Thread_set_ready_queue k q h :
  Get_Thread (set_ready_queue q k) h = Get_Thread k h.
Proof. done. Qed.

Lemma Get_Thread_log_msg k l h : Get_Thread (log_msg l k) h = Get_Thread k h.
Proof. done. Qed.

Lemma update_event_absent k e f :
  Get_Event k e = None -> update_event e f k = k.
Proof.
  unfold Get_Event, update_event. intros H. destruct k as [pool ? ? ? ?]; simpl in *.
  unfold set_pool; simpl. f_equal.
  apply map_eq. intros i. destruct (decide (e = i)) as [->|E].
  - rewrite lookup_alter_eq. destruct (pool !! i) as [[?|?]|]; done.
  - by rewrite lookup_alter_ne.
Qed.

(** ** The scheduler primitives, thread by thread *)

Section Primitives.

Context `{hdr : ThreadHeader}.

Lemma Get_Thread_ChangeReadyState k t ready h :
  Get_Thread (ChangeReadyState t ready k) h
  = if decide (t = h)
    then (fun th => if negb (IsReady th) && ready
                    then set_status THREADSTATUS_READY th else th)
           <$> Get_Thread k t
    else Get_Thread k h.
Proof.
  unfold ChangeReadyState.
  destruct (Get_Thread k t) as [th|] eqn:E; simpl.
  - destruct (IsReady th), ready; simpl;
      rewrite ?Get_Thread_update_thread, ?Get_Thread_set_ready_queue;
      try (destruct (IsRunning th));
      rewrite ?Get_Thread_set_ready_queue;
      case_decide; subst; rewrite ?E; done.
  - case_decide; subst; rewrite ?E; done.
Qed.

Lemma Get_Event_ChangeReadyState k t ready h :
  Get_Event (ChangeReadyState t ready k) h = Get_Event k h.
Proof.
  unfold ChangeReadyState.
  destruct (Get_Thread k t) as [th|]; [|done].
  destruct (IsReady th), ready; simpl; try done;
    destruct (IsRunning th); by rewrite Get_Event_update_thread.
Qed.

Lemma Get_Thread_ResumeThreadFromWait k w h :
  Get_Thread (ResumeThreadFromWait w k) h
  = if decide (w = h) then resumed <$> Get_Thread k w else Get_Thread k h.
Proof.
  unfold ResumeThreadFromWait.
  destruct (Get_Thread k w) as [th|] eqn:E; simpl.
  - unfold resumed.
    destruct (Z.land _ (Z.lor _ _) =? 0).
    + rewrite Get_Thread_ChangeReadyState, !Get_Thread_update_thread.
      case_decide; [|done]. rewrite decide_True by done. rewrite E. simpl.
      destruct (IsReady (set_status _ th)); done.
    + rewrite Get_Thread_update_thread. case_decide; by rewrite ?E.
  - case_decide; subst; by rewrite ?E.
Qed.

Lemma Get_Event_ResumeThreadFromWait k w h :
  Get_Event (ResumeThreadFromWait w k) h = Get_Event k h.
Proof.
  unfold ResumeThreadFromWait.
  destruct (Get_Thread k w) as [th|]; [|done].
  destruct (Z.land _ (Z.lor _ _) =? 0);
    by rewrite ?Get_Event_ChangeReadyState, Get_Event_update_thread.
Qed.

Lemma resumed_wait t :
  wait_type (resumed t) = wait_type t /\ wait_handle (resumed t) = wait_handle t
  /\ waiting_threads (resumed t) = waiting_threads t
  /\ current_priority (resumed t) = current_priority t.
Proof.
  unfold resumed. destruct (_ =? 0); [destruct (IsReady _)|]; done.
Qed.

Lemma VerifyWait_matches k h ty wh :
  VerifyWait k h ty wh
  = (fun t => bool_decide (wait_type t = ty) && bool_decide (wait_handle t = wh))
      <$> GetFast_Thread k h.
Proof.
  unfold VerifyWait, GetFast_Thread.
  destruct (Get_Thread k h) as [t|]; simpl; [|done].
  repeat case_bool_decide; simpl; congruence.
Qed.

Lemma VerifyWait_wait_matches k h ty wh t :
  Get_Thread k h = Some t -> VerifyWait k h ty wh = Some (wait_matches k ty wh h).
Proof.
  intros E. rewrite VerifyWait_matches. unfold GetFast_Thread, wait_matches.
  by rewrite E.
Qed.

End Primitives.

(** ** [ResetThread] *)

(** C3, as the code has it. [ResetThread] zeroes the register snapshot, puts
    [arg] in the first argument register, [entry_point] in the program counter
    (and in [reg_15]), [stack_top] in the stack pointer, the user mode [0x1F]
    in [cpsr] and 8 in [mode]; it sets [wait_type] to none and [wait_handle]
    to 0 and leaves every other field alone, except that [current_priority]
    becomes [initial_priority] exactly when the current value is numerically
    below [lowest_priority]. *)
Theorem ResetThread_spec (arg lowest_priority : Z) (t : Thread) :
  ResetThread arg lowest_priority t
  = mkThread
      (mkThreadContext
         (<[0%nat := arg]> (replicate (length (cpu_registers (context t))) 0))
         (stack_top t) (entry_point t) 0x1F (entry_point t) 8
         (replicate (length (ctx_rest (context t))) 0))
      (status t) (entry_point t) (stack_top t) (stack_size t)
      (initial_priority t)
      (if current_priority t <? lowest_priority
       then initial_priority t else current_priority t)
      (processor_id t) WAITTYPE_NONE 0 (waiting_threads t) (name t)
  /\ (current_priority t < lowest_priority ->
      current_priority (ResetThread arg lowest_priority t) = initial_priority t)
  /\ (lowest_priority <= current_priority t ->
      current_priority (ResetThread arg lowest_priority t) = current_priority t).
Proof.
  unfold ResetThread; simpl.
  destruct (Z.ltb_spec (current_priority t) lowest_priority); simpl;
    (split; [done|]); split; intros; first [done | lia].
Qed.

(** C3, as the claim words it, fails: a thread of priority 5 with initial
    priority 10 is reset to 10 under the floor 7, although 5 is not
    numerically higher than 7. *)
Lemma ResetThread_floor_counterexample :
  ~ (forall arg floor t,
       current_priority (ResetThread arg floor t)
       = if floor <? current_priority t
         then initial_priority t else current_priority t).
Proof.
  intros H.
  specialize (H 0 7
    (mkThread example_context 16 256 4096 1024 10 5 0 WAITTYPE_NONE 0 [] "t")).
  vm_compute in H. discriminate.
Qed.

(** ** Arbitration ignores the address *)

(** C10. Neither arbitration function reads its [address] argument: two calls
    that differ only in it give the same handle and the same state, and the
    test made on each thread is the comparison of its [wait_type] with
    [WAITTYPE_ARB] and of its [wait_handle] with the arbiter. *)
Theorem Arbitrate_address_irrelevant `{hdr : ThreadHeader}
    (arbiter address1 address2 : Z) (k : Kernel) :
  ArbitrateHighestPriorityThread arbiter address1 k
  = ArbitrateHighestPriorityThread arbiter address2 k
  /\ ArbitrateAllThreads arbiter address1 k
     = ArbitrateAllThreads arbiter address2 k
  /\ forall handle,
       VerifyWait k handle WAITTYPE_ARB arbiter
       = (fun t => bool_decide (wait_type t = WAITTYPE_ARB)
                   && bool_decide (wait_handle t = arbiter))
           <$> GetFast_Thread k handle.
Proof.
  split; [reflexivity|]. split; [reflexivity|].
  intros handle. apply VerifyWait_matches.
Qed.

(** ** The event calls *)

Section EventProofs.

Context `{ops : WaitObjectOps}.

(** C8. On a handle that names no event the three calls return the
    invalid-handle error and the state they were given. On a handle that
    names an event they return success; [ClearEvent] leaves the state with
    that event's [signaled] false, [SetEventSignaled] with the value given,
    and neither touches anything else: no thread, no waiter list, not the
    ready queue. *)
Theorem event_calls_spec (handle : Handle) (value : bool) (k : Kernel) :
  (Get_Event k handle = None ->
     SetEventSignaled handle value k = (InvalidHandle ErrorModule_Kernel, k)
     /\ SignalEvent handle k = (InvalidHandle ErrorModule_Kernel, k)
     /\ ClearEvent handle k = (InvalidHandle ErrorModule_Kernel, k))
  /\ (forall e, Get_Event k handle = Some e ->
        (SignalEvent handle k).1 = RESULT_SUCCESS
        /\ ClearEvent handle k
           = (RESULT_SUCCESS,
              set_pool (<[handle := ObjEvent (set_signaled false e)]>
                          (g_object_pool k)) k)
        /\ SetEventSignaled handle value k
           = (RESULT_SUCCESS,
              set_pool (<[handle := ObjEvent (set_signaled value e)]>
                          (g_object_pool k)) k)).
Proof.
  split.
  - intros E. unfold SetEventSignaled, SignalEvent, ClearEvent. by rewrite E.
  - intros e E. unfold SetEventSignaled, SignalEvent, ClearEvent. rewrite E.
    assert (P : g_object_pool k !! handle = Some (ObjEvent e)).
    { unfold Get_Event in E.
      destruct (g_object_pool k !! handle) as [[?|?]|]; congruence. }
    split; [by destruct (ReleaseAllWaitingThreads _ _)|].
    split; unfold update_event; do 2 f_equal;
      apply map_eq; intros i; destruct (decide (handle = i)) as [->|N];
      rewrite ?lookup_alter_eq, ?lookup_insert_eq, ?P,
        ?lookup_alter_ne, ?lookup_insert_ne; done.
Qed.

(** What [SignalEvent] needs of the release: it keeps the event in the
    registry with its [signaled] and [reset_type], and reports no wake-up
    when the event has no waiter. *)
Hypothesis release_keeps :
  forall k p e, Get_Event k p = Some e ->
    exists e', Get_Event (ReleaseAllWaitingThreads p k).2 p = Some e'
               /\ signaled e' = signaled e /\ reset_type e' = reset_type e.
Hypothesis release_no_waiter :
  forall k p e, Get_Event k p = Some e -> wo_waiting_threads e = [] ->
    (ReleaseAllWaitingThreads p k).1 = false.

(** C1. On the handle of an event, [SignalEvent] sets [signaled], releases
    the waiters and returns success; the state it leaves is the one the
    release left, with [signaled] put back to false exactly when the reset
    type is not sticky and the release reported a woken thread. So a
    one-shot event without waiters stays signaled, and a sticky event stays
    signaled whatever the release woke. *)
Theorem SignalEvent_spec (handle : Handle) (k : Kernel) (e : Event) :
  Get_Event k handle = Some e ->
  let released :=
    ReleaseAllWaitingThreads handle (update_event handle (set_signaled true) k) in
  exists k' e',
    SignalEvent handle k = (RESULT_SUCCESS, k')
    /\ Get_Event k' handle = Some e'
    /\ k' = (if bool_decide (reset_type e <> RESETTYPE_STICKY) && released.1
             then update_event handle (set_signaled false) released.2
             else released.2)
    /\ (signaled e' = false <->
        reset_type e <> RESETTYPE_STICKY /\ released.1 = true)
    /\ (wo_waiting_threads e = [] -> signaled e' = true)
    /\ (reset_type e = RESETTYPE_STICKY -> signaled e' = true).
Proof.
  intros E released.
  set (k1 := update_event handle (set_signaled true) k) in *.
  assert (E1 : Get_Event k1 handle = Some (set_signaled true e)).
  { unfold k1. rewrite Get_Event_update_event, decide_True by done.
    by rewrite E. }
  destruct (release_keeps _ _ _ E1) as (e2 & E2 & S2 & R2).
  fold released in E2. simpl in S2, R2.
  unfold SignalEvent. rewrite E. fold k1. fold released.
  destruct released as [awoken k2] eqn:ER. simpl in *. rewrite E2, R2.
  assert (NW : wo_waiting_threads e = [] -> awoken = false).
  { intros W. pose proof (release_no_waiter _ _ _ E1 W) as F.
    fold released in F. by rewrite ER in F. }
  destruct (bool_decide (reset_type e <> RESETTYPE_STICKY)) eqn:B, awoken; simpl.
  - eexists _, (set_signaled false e2). split; [done|]. split.
    { rewrite Get_Event_update_event, decide_True by done. by rewrite E2. }
    split; [done|]. apply bool_decide_eq_true in B. simpl.
    split; [done|]. split; [intros W; by specialize (NW W)|done].
  - exists k2, e2. split; [done|]. split; [done|]. split; [done|].
    rewrite S2. split; [split; [done|by intros [_ ?]]|done].
  - exists k2, e2. split; [done|]. split; [done|]. split; [done|].
    apply bool_decide_eq_false in B.
    rewrite S2. split; [split; [done|by intros [? _]]|done].
  - exists k2, e2. split; [done|]. split; [done|]. split; [done|].
    rewrite S2. split; [split; [done|by intros [_ ?]]|done].
Qed.

End EventProofs.

(** ** The ready queue *)

Section ReadyQueue.

Import ThreadQueueList.

Lemma lowest_None l : lowest l = None -> l = [].
Proof. by destruct l. Qed.

Lemma lowest_Some l m :
  lowest l = Some m -> m ∈ l /\ forall x, x ∈ l -> m <= x.
Proof.
  revert m. induction l as [|p l IH]; intros m; simpl; [done|].
  intros [= <-]. destruct (lowest l) as [m'|] eqn:E; simpl.
  - destruct (IH m' eq_refl) as [I L]. split.
    + destruct (Z.min_spec p m') as [[_ ->]|[_ ->]];
        [apply list_elem_of_here | by apply list_elem_of_further].
    + intros x [->|Hx]%elem_of_cons; [lia|]. specialize (L x Hx). lia.
  - apply lowest_None in E as ->. split; [apply list_elem_of_here|].
    intros x [->|Hx]%elem_of_cons; [lia|]. by apply elem_of_nil in Hx.
Qed.

Lemma elem_of_candidates ok (q : gmap Z (list Handle)) p :
  p ∈ candidates ok q <-> exists b, q !! p = Some b /\ ok p = true /\ b <> [].
Proof.
  unfold candidates. rewrite list_elem_of_fmap. split.
  - intros ([p' b] & -> & H). apply list_elem_of_filter in H as [[O N] H].
    apply elem_of_map_to_list in H. simpl in *. eauto.
  - intros (b & H & O & N). exists (p, b). split; [done|].
    apply list_elem_of_filter. split; [done|]. by apply elem_of_map_to_list.
Qed.

(** What a pop restricted by [ok] returns: either no bucket qualifies and
    the queue is as it was, or the head of the qualifying non-empty bucket
    of lowest priority value, which leaves the queue. *)
Lemma pop_lowest ok (q : gmap Z (list Handle)) :
  let r := match lowest (candidates ok q) with
           | Some p => pop_at p q
           | None => (0, q)
           end in
  (r = (0, q) /\ forall p b, q !! p = Some b -> ok p = true -> b = [])
  \/ exists p rest,
       ok p = true /\ q !! p = Some (r.1 :: rest) /\ r.2 = <[p := rest]> q
       /\ forall p' b, q !! p' = Some b -> ok p' = true -> b <> [] -> p <= p'.
Proof.
  destruct (lowest (candidates ok q)) as [p|] eqn:E; simpl.
  - right. apply lowest_Some in E as [I L].
    apply elem_of_candidates in I as (b & Hb & O & N).
    unfold pop_at, bucket. rewrite Hb. simpl.
    destruct b as [|h rest]; [done|]. exists p, rest. simpl.
    repeat split; try done.
    intros p' b' Hb' O' N'. apply L, elem_of_candidates. eauto.
  - left. split; [done|]. intros p b Hb O.
    apply lowest_None in E. destruct b as [|h b]; [done|].
    assert (I : p ∈ candidates ok q) by (apply elem_of_candidates; eauto).
    rewrite E in I. by apply elem_of_nil in I.
Qed.

End ReadyQueue.

(** ** [NextThread] *)



(** ** Arbitration *)

Section Arbitration.

Context `{hdr : ThreadHeader}.

(** The scan keeps the pair it started with when no waiting thread has a
    priority value at or below the one it carries; otherwise it ends on the
    last of the waiting threads of lowest priority value. *)
Lemma Arbitrate_scan_spec k arbiter l h0 p0 :
  (forall h, h ∈ l -> is_Some (Get_Thread k h)) ->
  let waits h := wait_matches k WAITTYPE_ARB arbiter h = true in
  exists r,
    Arbitrate_scan k arbiter l (h0, p0) = Some r
    /\ ((r = (h0, p0) /\ forall x, x ∈ l -> waits x -> p0 < priority_of k x)
        \/ exists l1 l2,
             l = l1 ++ r.1 :: l2 /\ waits r.1 /\ r.2 = priority_of k r.1
             /\ r.2 <= p0
             /\ (forall x, x ∈ l1 -> waits x -> r.2 <= priority_of k x)
             /\ (forall x, x ∈ l2 -> waits x -> r.2 < priority_of k x)).
Proof.
  intros A waits. revert h0 p0.
  induction l as [|h l IH]; intros h0 p0; simpl.
  { eexists. split; [done|]. left. split; [done|].
    intros x Hx. by apply elem_of_nil in Hx. }
  destruct (A h) as [t Ht]; [apply list_elem_of_here|].
  assert (A' : forall x, x ∈ l -> is_Some (Get_Thread k x))
    by (intros x Hx; by apply A, list_elem_of_further).
  specialize (IH A').
  rewrite (VerifyWait_wait_matches _ _ _ _ _ Ht). unfold GetFast_Thread.
  rewrite Ht.
  assert (P : current_priority t = priority_of k h)
    by (unfold priority_of; by rewrite Ht).
  destruct (wait_matches k WAITTYPE_ARB arbiter h) eqn:W; simpl.
  - rewrite P. destruct (Z.leb_spec (priority_of k h) p0) as [Le|Gt].
    + destruct (IH h (priority_of k h)) as (r & E & [[-> F]|D]).
      * exists (h, priority_of k h). split; [done|]. right.
        exists [], l. simpl. repeat split; try done.
        intros x Hx. by apply elem_of_nil in Hx.
      * destruct D as (l1 & l2 & -> & Wr & Pr & Le' & B & C).
        exists r. split; [done|]. right. exists (h :: l1), l2.
        repeat split; try done; [lia|].
        intros x [->|Hx]%elem_of_cons; [done|by apply B].
    + destruct (IH h0 p0) as (r & E & [[-> F]|D]).
      * eexists. split; [done|]. left. split; [done|].
        intros x [->|Hx]%elem_of_cons; [done|by apply F].
      * destruct D as (l1 & l2 & -> & Wr & Pr & Le' & B & C).
        exists r. split; [done|]. right. exists (h :: l1), l2.
        repeat split; try done.
        intros x [->|Hx]%elem_of_cons; [lia|by apply B].
  - destruct (IH h0 p0) as (r & E & [[-> F]|D]).
    + eexists. split; [done|]. left. split; [done|].
      intros x [->|Hx]%elem_of_cons; [unfold waits; congruence|by apply F].
    + destruct D as (l1 & l2 & -> & Wr & Pr & Le' & B & C).
      exists r. split; [done|]. right. exists (h :: l1), l2.
      repeat split; try done.
      intros x [->|Hx]%elem_of_cons; [unfold waits; congruence|by apply B].
Qed.

(** C2, as the code has it. When every registered handle names a thread and
    none is the handle 0, [ArbitrateHighestPriorityThread] returns. Among
    the registered threads whose wait is that of type arbitration on the
    arbiter, and whose priority value does not exceed [THREADPRIO_LOWEST],
    it picks the one of lowest priority value and, of several such, the
    LAST in registry order: every waiting thread before the pick has a
    priority value at least as high, every one after it a strictly higher
    one. It resumes the pick, changes no other thread and returns the
    pick's handle. With no such thread it returns 0 and the state as it
    was. *)
Theorem ArbitrateHighestPriorityThread_spec (arbiter address : Z) (k : Kernel) :
  (forall h, h ∈ g_thread_queue k -> is_Some (Get_Thread k h)) ->
  0 ∉ g_thread_queue k ->
  let waits h := wait_matches k WAITTYPE_ARB arbiter h = true in
  (ArbitrateHighestPriorityThread arbiter address k = Some (0, k)
   /\ forall x, x ∈ g_thread_queue k -> waits x ->
        THREADPRIO_LOWEST < priority_of k x)
  \/ exists h l1 l2,
       ArbitrateHighestPriorityThread arbiter address k
       = Some (h, ResumeThreadFromWait h k)
       /\ g_thread_queue k = l1 ++ h :: l2
       /\ waits h
       /\ priority_of k h <= THREADPRIO_LOWEST
       /\ (forall x, x ∈ l1 -> waits x -> priority_of k h <= priority_of k x)
       /\ (forall x, x ∈ l2 -> waits x -> priority_of k h < priority_of k x)
       /\ Get_Thread (ResumeThreadFromWait h k) h = resumed <$> Get_Thread k h
       /\ (forall h', h' <> h ->
             Get_Thread (ResumeThreadFromWait h k) h' = Get_Thread k h').
Proof.
  intros A Z0 waits.
  destruct (Arbitrate_scan_spec k arbiter (g_thread_queue k) 0
              THREADPRIO_LOWEST A) as (r & E & [[-> F]|D]).
  - left. unfold ArbitrateHighestPriorityThread. rewrite E. simpl. done.
  - right. destruct D as (l1 & l2 & Q & Wr & Pr & Le & B & C).
    destruct r as [h p]. simpl in *. subst p.
    exists h, l1, l2. unfold ArbitrateHighestPriorityThread. rewrite E.
    assert (N : (0 =? h) = false).
    { apply Z.eqb_neq. intros <-. apply Z0. rewrite Q. apply elem_of_app.
      right. apply list_elem_of_here. }
    cbn -[Z.eqb]. rewrite N. simpl.
    do 6 (split; [done|]). split.
    + rewrite Get_Thread_ResumeThreadFromWait. by rewrite decide_True.
    + intros h' N'. rewrite Get_Thread_ResumeThreadFromWait.
      by rewrite decide_False.
Qed.

End Arbitration.

(** C2, as the claim words it, fails: of two waiting threads of equal
    priority, registered as 1 and then 2, the code resumes and returns 2,
    where the first encountered is 1. *)
Lemma Arbitrate_tie_counterexample :
  g_thread_queue tie_kernel = [1; 2]
  /\ @VerifyWait tie_kernel 1 WAITTYPE_ARB 9 = Some true
  /\ @VerifyWait tie_kernel 2 WAITTYPE_ARB 9 = Some true
  /\ priority_of tie_kernel 1 = priority_of tie_kernel 2
  /\ claimed_arbitration 9 tie_kernel = 1
  /\ fst <$> @ArbitrateHighestPriorityThread example_header 9 0 tie_kernel = Some 2
  /\ ~ (forall (hdr : ThreadHeader) arbiter address k,
          (forall h, h ∈ g_thread_queue k -> is_Some (Get_Thread k h)) ->
          0 ∉ g_thread_queue k ->
          fst <$> ArbitrateHighestPriorityThread arbiter address k
          = Some (claimed_arbitration arbiter k)).
Proof.
  repeat split; try by vm_compute.
  intros H. specialize (H example_header 9 0 tie_kernel).
  assert (E : fst <$> @ArbitrateHighestPriorityThread example_header 9 0 tie_kernel = Some 1).
  { apply H.
    - intros h Hh. change (g_thread_queue tie_kernel) with [1; 2] in Hh.
      apply elem_of_cons in Hh as [->|Hh]; [vm_compute; eauto|].
      apply elem_of_cons in Hh as [->|Hh]; [vm_compute; eauto|].
      by apply elem_of_nil in Hh.
    - change (g_thread_queue tie_kernel) with [1; 2].
      intros Hh. repeat (apply elem_of_cons in Hh as [Hh|Hh]; [done|]).
      by apply elem_of_nil in Hh. }
  vm_compute in E. discriminate.
Qed.

(** ** The status flags *)

Lemma land_lnot_disjoint a b : Z.land a b = 0 -> Z.land a (Z.lnot b) = a.
Proof.
  intros H. apply Z.bits_inj'. intros n Hn.
  rewrite Z.land_spec, Z.lnot_spec by done.
  assert (T : Z.testbit (Z.land a b) n = false) by (rewrite H; apply Z.bits_0).
  rewrite Z.land_spec in T.
  destruct (Z.testbit a n), (Z.testbit b n); done.
Qed.

Lemma land_lnot_idemp s w :
  Z.land (Z.land s (Z.lnot w)) (Z.lnot w) = Z.land s (Z.lnot w).
Proof. by rewrite <- Z.land_assoc, Z.land_diag. Qed.

Lemma land_lnot_self s w : Z.land (Z.land s (Z.lnot w)) w = 0.
Proof.
  apply Z.bits_inj'. intros n Hn.
  rewrite !Z.land_spec, Z.lnot_spec, Z.bits_0 by done.
  destruct (Z.testbit s n), (Z.testbit w n); done.
Qed.

Section Flags.

Context `{hdr : ThreadHeader}.

Lemma header_ok_wf : header_ok = true -> flags_wf.
Proof.
  unfold header_ok, status_flags. simpl.
  rewrite !andb_true_iff, !Z.eqb_eq, !Z.ltb_lt, Z.leb_le.
  intros H. destruct_and!. constructor; done.
Qed.

Context (wf : flags_wf).

Lemma dormant_in_mask : Z.land THREADSTATUS_DORMANT wake_mask <> 0.
Proof.
  unfold wake_mask.
  rewrite !Z.land_lor_distr_r, Z.land_diag. intros H.
  apply Z.lor_eq_0_iff in H as [H _]. apply Z.lor_eq_0_iff in H as [_ H].
  pose proof (dormant_pos wf). lia.
Qed.

Lemma ready_out_of_mask : Z.land THREADSTATUS_READY wake_mask = 0.
Proof.
  unfold wake_mask. rewrite !Z.land_lor_distr_r.
  by rewrite (ready_waitsuspend wf), (ready_dormant wf), (ready_dead wf).
Qed.

Lemma dormant_keeps : Z.land THREADSTATUS_DORMANT (Z.lnot THREADSTATUS_WAIT)
                      = THREADSTATUS_DORMANT.
Proof.
  apply land_lnot_disjoint. rewrite Z.land_comm. apply (wait_dormant wf).
Qed.

Lemma ready_keeps : Z.land THREADSTATUS_READY (Z.lnot THREADSTATUS_WAIT)
                    = THREADSTATUS_READY.
Proof. apply land_lnot_disjoint, (ready_wait wf). Qed.

Lemma IsReady_READY t : IsReady (set_status THREADSTATUS_READY t) = true.
Proof.
  unfold IsReady. simpl. rewrite Z.land_diag.
  pose proof (ready_pos wf). by destruct (Z.eqb_spec THREADSTATUS_READY 0); [lia|].
Qed.

Lemma IsReady_DORMANT t : status t = THREADSTATUS_DORMANT -> IsReady t = false.
Proof.
  unfold IsReady. intros ->. rewrite Z.land_comm, (ready_dormant wf). done.
Qed.

Lemma IsRunning_DORMANT t : status t = THREADSTATUS_DORMANT -> IsRunning t = false.
Proof.
  unfold IsRunning. intros ->. rewrite Z.land_comm, (running_dormant wf). done.
Qed.

(** A dormant thread is not changed by a resume. *)
Lemma resumed_dormant t : status t = THREADSTATUS_DORMANT -> resumed t = t.
Proof.
  intros E. unfold resumed. rewrite E, dormant_keeps.
  fold wake_mask. destruct (Z.eqb_spec (Z.land THREADSTATUS_DORMANT wake_mask) 0)
    as [Z|_]; [by apply dormant_in_mask in Z|].
  rewrite <- E. apply set_status_same.
Qed.

(** Resuming twice is resuming once. *)
Lemma resumed_idemp t : resumed (resumed t) = resumed t.
Proof.
  set (s := Z.land (status t) (Z.lnot THREADSTATUS_WAIT)).
  assert (I : Z.land s (Z.lnot THREADSTATUS_WAIT) = s)
    by apply land_lnot_idemp.
  destruct (Z.land s wake_mask =? 0) eqn:M;
    [destruct (IsReady (set_status s t)) eqn:R|].
  - assert (E : resumed t = set_status s t).
    { unfold resumed. fold wake_mask s. by rewrite M, R. }
    rewrite E. unfold resumed. simpl. fold wake_mask. rewrite !I, M.
    unfold IsReady in *. simpl in *. by rewrite R.
  - assert (E : resumed t = set_status THREADSTATUS_READY t).
    { unfold resumed. fold wake_mask s. by rewrite M, R. }
    rewrite E. unfold resumed. simpl. fold wake_mask.
    rewrite ready_keeps, ready_out_of_mask. simpl.
    unfold IsReady. simpl. rewrite Z.land_diag.
    pose proof (ready_pos wf).
    by destruct (Z.eqb_spec THREADSTATUS_READY 0); [lia|].
  - assert (E : resumed t = set_status s t).
    { unfold resumed. fold wake_mask s. by rewrite M. }
    rewrite E. unfold resumed. simpl. fold wake_mask. by rewrite !I, M.
Qed.

End Flags.

(** ** [StopThread] *)

Section Stop.

Context `{hdr : ThreadHeader}.

Lemma same_waits_refl k : same_waits k k.
Proof. done. Qed.

Lemma same_waits_trans k1 k2 k3 :
  same_waits k1 k2 -> same_waits k2 k3 -> same_waits k1 k3.
Proof. intros A B h. by rewrite B, A. Qed.



Lemma same_waits_Resume k w : same_waits k (ResumeThreadFromWait w k).
Proof.
  intros h. rewrite Get_Thread_ResumeThreadFromWait. case_decide; [subst|done].
  destruct (Get_Thread k h) as [th|]; [simpl|done].
  by destruct (resumed_wait th) as (-> & -> & _).
Qed.

Lemma same_waits_matches k k' ty wh h :
  same_waits k k' -> wait_matches k' ty wh h = wait_matches k ty wh h.
Proof.
  intros S. specialize (S h). unfold wait_matches.
  destruct (Get_Thread k' h) as [t'|], (Get_Thread k h) as [t|];
    simpl in *; try done.
  injection S as -> ->. done.
Qed.

Lemma same_waits_is_Some k k' h :
  same_waits k k' -> is_Some (Get_Thread k h) -> is_Some (Get_Thread k' h).
Proof.
  intros S [t E]. specialize (S h). rewrite E in S.
  destruct (Get_Thread k' h); [eauto|done].
Qed.


Context (wf : flags_wf).

Lemma Get_Thread_foldl_resume ws k h :
  Get_Thread (foldl (fun k w => ResumeThreadFromWait w k) k ws) h
  = if decide (h ∈ ws) then resumed <$> Get_Thread k h else Get_Thread k h.
Proof.
  revert k. induction ws as [|w ws IH]; intros k; simpl.
  { done. }
  rewrite IH, Get_Thread_ResumeThreadFromWait.
  destruct (decide (w = h)) as [->|N].
  - rewrite (decide_True (P := h ∈ h :: ws)) by apply list_elem_of_here.
    case_decide; [|done].
    destruct (Get_Thread k h) as [t|]; [simpl|done].
    by rewrite (resumed_idemp wf).
  - case_decide as I.
    + rewrite decide_True by by apply list_elem_of_further. done.
    + rewrite decide_False; [done|].
      intros [->|?]%elem_of_cons; done.
Qed.







End Stop.



(** ** [CreateThread] *)

Lemma Get_Thread_insert k h th h' :
  Get_Thread (set_pool (<[h := ObjThread th]> (g_object_pool k)) k) h'
  = if decide (h = h') then Some th else Get_Thread k h'.
Proof.
  unfold Get_Thread. simpl. case_decide; [subst|].
  - by rewrite lookup_insert_eq.
  - by rewrite lookup_insert_ne.
Qed.

Lemma CLAMP_range x lo hi :
  lo <= hi ->
  lo <= CLAMP x lo hi <= hi /\ (lo <= x <= hi -> CLAMP x lo hi = x).
Proof.
  intros H. unfold CLAMP.
  destruct (Z.gtb_spec x hi), (Z.ltb_spec x lo); lia.
Qed.

(** C6, as the code has it. The wrapper fails with the handle [(u32)-1], and
    creates nothing, when the name is null, when the stack size converted to
    [u32] is below [0x200], or when the entry point is not mapped. Otherwise
    it succeeds, also for a priority out of range, which it clamps into
    [THREADPRIO_HIGHEST .. THREADPRIO_LOWEST] with a warning: the new thread
    is registered under the handle the registry hands out, reset, ready, and
    at the back of the ready bucket of its priority. *)
Theorem CreateThread_spec `{hdr : ThreadHeader} `{env : KernelEnv}
    (fresh : ThreadContext) (name' : option string)
    (entry_point' priority arg processor_id' stack_top' stack_size' : Z)
    (k : Kernel) :
  header_ok = true ->
  let call := CreateThread fresh name' entry_point' priority arg processor_id'
                stack_top' stack_size' k in
  let in_range := (THREADPRIO_HIGHEST <=? priority) && (priority <=? THREADPRIO_LOWEST) in
  let prio := CLAMP priority THREADPRIO_HIGHEST THREADPRIO_LOWEST in
  let k0 := if in_range then k else log_msg LOG_WARN k in
  (THREADPRIO_HIGHEST <= prio <= THREADPRIO_LOWEST
   /\ (in_range = true -> prio = priority))
  /\ (name' = None -> call = Some (to_u32 (-1), log_msg LOG_ERROR k))
  /\ (forall n, name' = Some n -> to_u32 stack_size' < 0x200 ->
        call = Some (to_u32 (-1), log_msg LOG_ERROR k))
  /\ (forall n, name' = Some n -> 0x200 <= to_u32 stack_size' ->
        Memory_GetPointer entry_point' = false ->
        call = Some (to_u32 (-1), log_msg LOG_ERROR k0))
  /\ (forall n, name' = Some n -> 0x200 <= to_u32 stack_size' ->
        Memory_GetPointer entry_point' = true ->
        let handle := ObjectPool_Create (g_object_pool k) in
        exists k',
          call = Some (handle, k')
          /\ Get_Thread k' handle
             = Some (mkThread
                       (mkThreadContext
                          (<[0%nat := arg]>
                             (replicate (length (cpu_registers fresh)) 0))
                          stack_top' entry_point' 0x1F entry_point' 8
                          (replicate (length (ctx_rest fresh)) 0))
                       THREADSTATUS_READY entry_point' stack_top'
                       (to_u32 stack_size') prio prio processor_id'
                       WAITTYPE_NONE 0 [] n)
          /\ (forall h, h <> handle ->
                g_object_pool k' !! h = g_object_pool k !! h)
          /\ g_thread_queue k' = g_thread_queue k ++ [handle]
          /\ g_thread_ready_queue k'
             = ThreadQueueList.push_back prio handle
                 (ThreadQueueList.prepare prio (g_thread_ready_queue k))
          /\ g_current_thread k' = g_current_thread k
          /\ klog k' = klog k0).
Proof.
  intros OK call in_range prio k0. apply header_ok_wf in OK as wf.
  destruct (CLAMP_range priority _ _ (prio_range wf)) as [Rg Id]. fold prio in Rg, Id.
  assert (Idr : in_range = true -> prio = priority).
  { unfold in_range. rewrite andb_true_iff, !Z.leb_le. intros []. by apply Id. }
  split; [done|].
  assert (Cl : (priority <? THREADPRIO_HIGHEST) || (priority >? THREADPRIO_LOWEST)
               = negb in_range).
  { unfold in_range.
    destruct (Z.ltb_spec priority THREADPRIO_HIGHEST),
      (Z.gtb_spec priority THREADPRIO_LOWEST),
      (Z.leb_spec THREADPRIO_HIGHEST priority),
      (Z.leb_spec priority THREADPRIO_LOWEST); simpl; lia. }
  assert (P : (if negb in_range then prio else priority) = prio).
  { destruct in_range; simpl; [by rewrite Idr|done]. }
  assert (K0 : (if negb in_range then log_msg LOG_WARN k else k) = k0).
  { unfold k0. by destruct in_range. }
  split; [by intros ->|].
  split.
  { intros n -> S. unfold call, CreateThread.
    destruct (Z.ltb_spec (to_u32 stack_size') 0x200); [done|lia]. }
  split.
  { intros n -> S M. unfold call, CreateThread.
    destruct (Z.ltb_spec (to_u32 stack_size') 0x200); [lia|].
    fold prio. rewrite Cl, K0, M. done. }
  intros n -> S M handle. unfold call, CreateThread.
  destruct (Z.ltb_spec (to_u32 stack_size') 0x200); [lia|].
  fold prio. rewrite Cl, K0, P, M. simpl.
  unfold CreateThread_Thread.
  assert (Rb : (THREADPRIO_HIGHEST <=? prio) && (prio <=? THREADPRIO_LOWEST) = true).
  { apply andb_true_iff. rewrite !Z.leb_le. lia. }
  rewrite Rb.
  assert (Hp : g_object_pool k0 = g_object_pool k) by (unfold k0; by destruct in_range).
  assert (Hq : g_thread_queue k0 = g_thread_queue k) by (unfold k0; by destruct in_range).
  assert (Hr : g_thread_ready_queue k0 = g_thread_ready_queue k)
    by (unfold k0; by destruct in_range).
  assert (Hc : g_current_thread k0 = g_current_thread k)
    by (unfold k0; by destruct in_range).
  rewrite Hp. fold handle.
  set (th0 := mkThread fresh THREADSTATUS_DORMANT entry_point' stack_top'
                (to_u32 stack_size') prio prio processor_id' WAITTYPE_NONE 0 [] n).
  set (ka := set_ready_queue _ (set_thread_queue _ (set_pool _ k0))).
  set (kb := update_thread handle (ResetThread arg 0) ka).
  assert (Ea : Get_Thread ka handle = Some th0).
  { unfold ka, Get_Thread. simpl. by rewrite lookup_insert_eq. }
  set (thr := mkThread
                (mkThreadContext
                   (<[0%nat := arg]> (replicate (length (cpu_registers fresh)) 0))
                   stack_top' entry_point' 0x1F entry_point' 8
                   (replicate (length (ctx_rest fresh)) 0))
                THREADSTATUS_DORMANT entry_point' stack_top'
                (to_u32 stack_size') prio prio processor_id' WAITTYPE_NONE 0 [] n).
  assert (Eb : Get_Thread kb handle = Some thr).
  { unfold kb. rewrite Get_Thread_update_thread, decide_True, Ea by done. simpl.
    f_equal. unfold ResetThread, thr. simpl. by destruct (prio <? 0). }
  assert (DR : (THREADSTATUS_DORMANT =? THREADSTATUS_READY) = false).
  { apply Z.eqb_neq. intros Q. pose proof (ready_dormant wf) as D.
    rewrite Q, Z.land_diag in D. pose proof (ready_pos wf). lia. }
  assert (RW : (THREADSTATUS_READY =? THREADSTATUS_WAIT) = false).
  { apply Z.eqb_neq. intros Q. pose proof (ready_wait wf) as D.
    rewrite Q, Z.land_diag in D. pose proof (wait_pos wf). lia. }
  assert (RR : negb (Z.land THREADSTATUS_READY THREADSTATUS_READY =? 0) = true).
  { rewrite Z.land_diag. pose proof (ready_pos wf).
    by destruct (Z.eqb_spec THREADSTATUS_READY 0); [lia|]. }
  eexists. split.
  { unfold CallThread. rewrite Eb. simpl. unfold ChangeThreadState. rewrite Eb.
    simpl. rewrite DR, RR, RW. unfold ChangeReadyState. rewrite Eb.
    rewrite (IsReady_DORMANT wf thr eq_refl), (IsRunning_DORMANT wf thr eq_refl).
    simpl. reflexivity. }
  split.
  { rewrite !Get_Thread_update_thread, !decide_True by done.
    rewrite Get_Thread_set_ready_queue, Eb. done. }
  split.
  { intros h N. simpl. rewrite !lookup_alter_ne by done.
    by rewrite lookup_insert_ne. }
  simpl. rewrite Hq, Hr, Hc. done.
Qed.

(** C6, as the claim words it, fails: the stack size is an [int], and the
    size -1 is below [0x200] but is accepted, because the test is made on its
    conversion to [u32]. *)
Lemma CreateThread_negative_stack_counterexample :
  ~ (forall (hdr : ThreadHeader) (env : KernelEnv) fresh name' entry_point'
       priority arg processor_id' stack_top' stack_size' k,
       header_ok = true ->
       - 2 ^ 31 <= stack_size' < 2 ^ 31 ->
       stack_size' < 0x200 ->
       fst <$> CreateThread fresh name' entry_point' priority arg processor_id'
                 stack_top' stack_size' k
       = Some (to_u32 (-1))).
Proof.
  intros H.
  specialize (H example_header example_env example_context (Some "t") 256 16 0
                0 4096 (-1) (example_kernel [] [] None)).
  assert (E : fst <$> @CreateThread example_header example_env example_context
                (Some "t") 256 16 0 0 4096 (-1) (example_kernel [] [] None)
              = Some (to_u32 (-1))) by (apply H; [done|lia|lia]).
  vm_compute in E. discriminate.
Qed.

(** ** Blocking the current thread *)

Section Blocking.

Context `{hdr : ThreadHeader} (wf : flags_wf).

Lemma blocked_not_ready s :
  Z.land (Z.lor THREADSTATUS_WAIT (Z.land s THREADSTATUS_SUSPEND))
    THREADSTATUS_READY = 0.
Proof.
  rewrite Z.land_lor_distr_l, <- Z.land_assoc.
  rewrite (Z.land_comm THREADSTATUS_WAIT), (ready_wait wf).
  rewrite (Z.land_comm THREADSTATUS_SUSPEND), (ready_suspend wf).
  by rewrite Z.land_0_r.
Qed.

Lemma blocked_waiting s :
  Z.land (Z.lor THREADSTATUS_WAIT (Z.land s THREADSTATUS_SUSPEND))
    THREADSTATUS_WAIT = THREADSTATUS_WAIT.
Proof.
  rewrite Z.land_lor_distr_l, Z.land_diag, <- Z.land_assoc.
  rewrite (Z.land_comm THREADSTATUS_SUSPEND), (wait_suspend wf).
  by rewrite Z.land_0_r, Z.lor_0_r.
Qed.

(** [WaitCurrentThread] with a wait type other than none: the current
    thread gets the wait fields and the status wait, with the suspend flag
    it had; it leaves the ready queue if it was ready; nothing else
    changes. *)
Lemma WaitCurrentThread_spec ty wh k c ct :
  g_current_thread k = Some c -> Get_Thread k c = Some ct ->
  ty <> WAITTYPE_NONE ->
  let blocked := Z.lor THREADSTATUS_WAIT (Z.land (status ct) THREADSTATUS_SUSPEND) in
  exists k',
    WaitCurrentThread ty wh k = Some k'
    /\ (forall h, Get_Thread k' h
                  = if decide (c = h)
                    then Some (set_status blocked
                                 (set_wait_handle wh (set_wait_type ty ct)))
                    else Get_Thread k h)
    /\ (forall h, Get_Event k' h = Get_Event k h)
    /\ g_thread_ready_queue k'
       = (if IsReady ct
          then ThreadQueueList.remove (current_priority ct) c
                 (g_thread_ready_queue k)
          else g_thread_ready_queue k)
    /\ g_thread_queue k' = g_thread_queue k
    /\ g_current_thread k' = g_current_thread k
    /\ klog k' = klog k.
Proof.
  intros C E N blocked. unfold WaitCurrentThread, GetCurrentThread.
  rewrite C. simpl. rewrite E. simpl. eexists. split; [done|].
  set (kb := update_thread c (set_wait_handle wh)
               (update_thread c (set_wait_type ty) k)).
  set (ct1 := set_wait_handle wh (set_wait_type ty ct)).
  assert (Eb : Get_Thread kb c = Some ct1).
  { unfold kb. rewrite !Get_Thread_update_thread, !decide_True by done.
    by rewrite E. }
  assert (Ob : forall h, c <> h -> Get_Thread kb h = Get_Thread k h).
  { intros h Nh. unfold kb. by rewrite !Get_Thread_update_thread, !decide_False. }
  assert (Vb : forall h, Get_Event kb h = Get_Event k h).
  { intros h. unfold kb. by rewrite !Get_Event_update_thread. }
  unfold ChangeThreadState. rewrite Eb. fold blocked.
  change (status ct1) with (status ct).
  destruct (Z.eqb_spec (status ct) blocked) as [Q|Q].
  - assert (R : IsReady ct = false).
    { unfold IsReady. rewrite Q. unfold blocked. by rewrite blocked_not_ready. }
    rewrite R. split; [|done].
    intros h. case_decide; [subst h|by apply Ob]. rewrite Eb. f_equal.
    rewrite <- Q. symmetry. apply (set_status_same ct1).
  - assert (NR : Z.land blocked THREADSTATUS_READY = 0)
      by apply blocked_not_ready.
    rewrite NR. simpl.
    set (kc := ChangeReadyState c false kb).
    set (kd := update_thread c (set_status blocked) kc).
    assert (Ec : Get_Thread kc c = Some ct1).
    { unfold kc. rewrite Get_Thread_ChangeReadyState, decide_True, Eb by done.
      simpl. by rewrite andb_false_r. }
    assert (Ed : Get_Thread kd c = Some (set_status blocked ct1)).
    { unfold kd. by rewrite Get_Thread_update_thread, decide_True, Ec. }
    assert (L : (if blocked =? THREADSTATUS_WAIT
                 then match Get_Thread kd c with
                      | Some th' => if bool_decide (wait_type th' = WAITTYPE_NONE)
                                    then log_msg LOG_ERROR kd else kd
                      | None => kd
                      end
                 else kd) = kd).
    { destruct (blocked =? THREADSTATUS_WAIT); [|done]. rewrite Ed. simpl.
      by rewrite bool_decide_eq_false_2. }
    rewrite L. split.
    { intros h. unfold kd. rewrite Get_Thread_update_thread.
      case_decide; [subst h; by rewrite Ec|].
      unfold kc. rewrite Get_Thread_ChangeReadyState, decide_False by done.
      by apply Ob. }
    split.
    { intros h. unfold kd, kc.
      by rewrite Get_Event_update_thread, Get_Event_ChangeReadyState. }
    unfold kd, kc, ChangeReadyState. rewrite Eb.
    change (IsReady ct1) with (IsReady ct).
    destruct (IsReady ct); done.
Qed.

End Blocking.

(** ** Waiting for the end of a thread *)

(** C9. On a thread whose status is exactly dormant,
    [Thread::WaitSynchronization] returns 0 and changes nothing: not the
    state, and not the value [*wait] held. On a thread of any other status,
    with a current thread, it returns 0 with [*wait] true; the caller is
    appended to the thread's waiter list unless it is there already, gets
    the wait type thread-end on the thread's handle and the status wait
    (keeping its suspend flag), and leaves the ready queue if it was ready;
    no other thread changes. *)
Theorem Thread_WaitSynchronization_spec `{hdr : ThreadHeader}
    (this : Handle) (wait : bool) (k : Kernel) (self : Thread) :
  header_ok = true ->
  Get_Thread k this = Some self ->
  (status self = THREADSTATUS_DORMANT ->
     Thread_WaitSynchronization this wait k = Some (0, wait, k))
  /\ (status self <> THREADSTATUS_DORMANT ->
      forall c ct, g_current_thread k = Some c -> Get_Thread k c = Some ct ->
        let waiters := if bool_decide (c ∈ waiting_threads self)
                       then waiting_threads self
                       else waiting_threads self ++ [c] in
        let blocked := Z.lor THREADSTATUS_WAIT
                         (Z.land (status ct) THREADSTATUS_SUSPEND) in
        let block t := set_status blocked
                         (set_wait_handle this
                            (set_wait_type WAITTYPE_THREADEND t)) in
        exists k' self' ct',
          Thread_WaitSynchronization this wait k = Some (0, true, k')
          /\ Get_Thread k' this = Some self'
          /\ waiting_threads self' = waiters
          /\ Get_Thread k' c = Some ct'
          /\ wait_type ct' = WAITTYPE_THREADEND
          /\ wait_handle ct' = this
          /\ status ct' = blocked
          /\ IsWaiting ct' = true
          /\ (forall h,
                Get_Thread k' h
                = (fun t =>
                     let t := if decide (h = this)
                              then set_waiting_threads waiters t else t in
                     if decide (h = c) then block t else t)
                    <$> Get_Thread k h)
          /\ g_thread_ready_queue k'
             = (if IsReady ct
                then ThreadQueueList.remove (current_priority ct) c
                       (g_thread_ready_queue k)
                else g_thread_ready_queue k)).
Proof.
  intros OK E. apply header_ok_wf in OK as wf. split.
  - intros D. unfold Thread_WaitSynchronization. rewrite E. simpl.
    by destruct (Z.eqb_spec (status self) THREADSTATUS_DORMANT).
  - intros D c ct C Ec waiters blocked block.
    unfold Thread_WaitSynchronization. rewrite E. simpl.
    destruct (Z.eqb_spec (status self) THREADSTATUS_DORMANT); [done|]. simpl.
    unfold GetCurrentThreadHandle, GetCurrentThread, GetFast_Thread.
    rewrite C. simpl. rewrite Ec. simpl.
    set (ka := if bool_decide (c ∈ waiting_threads self) then k
               else update_thread this
                      (fun t => set_waiting_threads (waiting_threads t ++ [c]) t) k).
    assert (Ta : forall h, Get_Thread ka h
                 = (fun t => if decide (h = this)
                             then set_waiting_threads waiters t else t)
                     <$> Get_Thread k h).
    { intros h. unfold ka, waiters. case_bool_decide.
      - case_decide; [subst h|by destruct (Get_Thread k h)].
        rewrite E. simpl. by destruct self.
      - rewrite Get_Thread_update_thread.
        destruct (decide (this = h)) as [<-|Nh].
        + destruct (decide (this = this)); [|done]. by rewrite E.
        + destruct (decide (h = this)) as [->|_]; [done|].
          by destruct (Get_Thread k h). }
    assert (Ca : g_current_thread ka = Some c).
    { unfold ka. by case_bool_decide. }
    assert (Qa : g_thread_ready_queue ka = g_thread_ready_queue k).
    { unfold ka. by case_bool_decide. }
    pose proof (Ta c) as Eca. rewrite Ec in Eca. simpl in Eca.
    destruct (WaitCurrentThread_spec wf WAITTYPE_THREADEND this ka c _ Ca Eca)
      as (k' & -> & T & _ & Q & _); [done|]. simpl.
    set (ca := if decide (c = this) then set_waiting_threads waiters ct else ct) in *.
    assert (Sa : status ca = status ct) by (unfold ca; by case_decide).
    assert (Pa : current_priority ca = current_priority ct)
      by (unfold ca; by case_decide).
    assert (Ra : IsReady ca = IsReady ct) by (unfold IsReady; by rewrite Sa).
    rewrite Sa in T. fold blocked in T.
    assert (Th : forall h,
               Get_Thread k' h
               = (fun t =>
                    let t := if decide (h = this)
                             then set_waiting_threads waiters t else t in
                    if decide (h = c) then block t else t)
                   <$> Get_Thread k h).
    { intros h. rewrite T. case_decide as Hc.
      - subst h. rewrite Ec. simpl.
        destruct (decide (c = c)); [reflexivity|done].
      - rewrite Ta. destruct (Get_Thread k h); [simpl|done].
        destruct (decide (h = c)); [congruence|reflexivity]. }
    eexists k', _, _. split; [done|].
    split; [rewrite Th, E; simpl; destruct (decide (this = this));
            [reflexivity|done]|].
    split; [by case_decide|].
    split; [rewrite Th, Ec; simpl; destruct (decide (c = c));
            [reflexivity|done]|].
    split; [done|]. split; [done|]. split; [done|].
    split.
    { unfold IsWaiting. simpl. unfold blocked. rewrite (blocked_waiting wf).
      pose proof (wait_pos wf). by destruct (Z.eqb_spec THREADSTATUS_WAIT 0); [lia|]. }
    split; [done|]. by rewrite Q, Ra, Pa, Qa.
Qed.

(** ** Waiting on an event *)

(** C7. On an event whose [signaled] is true, [Event::WaitSynchronization]
    returns "no wait" and the state it was given, whatever the wait-object
    members do; so a thread that waits on a sticky event signalled earlier,
    without waiters, does not block. On an event whose [signaled] is false,
    with a current thread and the wait-object protocol of the specification,
    it returns "wait": the caller is in the event's waiter list (appended
    unless there already), has the wait type event on this event and the
    status wait, and has left the ready queue if it was ready; no other
    thread and no other event changes. *)
Theorem Event_WaitSynchronization_spec `{hdr : ThreadHeader}
    (this : Handle) (index : Z) (k : Kernel) (e : Event) :
  header_ok = true ->
  Get_Event k this = Some e ->
  (signaled e = true ->
     forall ops : WaitObjectOps,
       Event_WaitSynchronization this index k = Some (RESULT_SUCCESS, false, k))
  /\ (signaled e = false ->
      forall c ct, g_current_thread k = Some c -> Get_Thread k c = Some ct ->
        let waiters := if bool_decide (c ∈ wo_waiting_threads e)
                       then wo_waiting_threads e
                       else wo_waiting_threads e ++ [c] in
        let blocked := Z.lor THREADSTATUS_WAIT
                         (Z.land (status ct) THREADSTATUS_SUSPEND) in
        let ct' := set_status blocked
                     (set_wait_handle this (set_wait_type WAITTYPE_EVENT ct)) in
        exists k',
          Event_WaitSynchronization (ops := spec_WaitObject) this index k
          = Some (RESULT_SUCCESS, true, k')
          /\ Get_Event k' this = Some (set_wo_waiting_threads waiters e)
          /\ c ∈ waiters
          /\ Get_Thread k' c = Some ct'
          /\ IsWaiting ct' = true
          /\ (forall h, h <> c -> Get_Thread k' h = Get_Thread k h)
          /\ (forall h, h <> this -> Get_Event k' h = Get_Event k h)
          /\ g_thread_ready_queue k'
             = (if IsReady ct
                then ThreadQueueList.remove (current_priority ct) c
                       (g_thread_ready_queue k)
                else g_thread_ready_queue k)).
Proof.
  intros OK E. apply header_ok_wf in OK as wf. split.
  - intros S ops. unfold Event_WaitSynchronization. rewrite E. simpl.
    by rewrite S.
  - intros S c ct C Ec waiters blocked ct'.
    unfold Event_WaitSynchronization, GetCurrentThread. rewrite E. simpl.
    rewrite S. simpl.
    rewrite C. simpl. unfold spec_WaitCurrentThread_WaitSynchronization.
    set (ka := spec_AddWaitingThread this c k).
    assert (Ta : forall h, Get_Thread ka h = Get_Thread k h).
    { intros h. unfold ka, spec_AddWaitingThread.
      by rewrite Get_Thread_update_event. }
    assert (Va : forall h, Get_Event ka h
                 = if decide (this = h)
                   then Some (set_wo_waiting_threads waiters e)
                   else Get_Event k h).
    { intros h. unfold ka, spec_AddWaitingThread.
      rewrite Get_Event_update_event. case_decide; [|done]. rewrite E. simpl.
      unfold waiters. case_bool_decide; [by destruct e|done]. }
    assert (Ca : g_current_thread ka = Some c) by done.
    assert (Eca : Get_Thread ka c = Some ct) by by rewrite Ta.
    destruct (WaitCurrentThread_spec wf WAITTYPE_EVENT this ka c ct Ca Eca)
      as (k' & -> & T & V & Q & _); [done|]. simpl.
    exists k'. split; [done|].
    split; [by rewrite V, Va, decide_True|].
    split.
    { unfold waiters. case_bool_decide; [done|].
      apply elem_of_app. right. apply list_elem_of_here. }
    split; [by rewrite T, decide_True|].
    split.
    { unfold IsWaiting, ct'. simpl. unfold blocked. rewrite (blocked_waiting wf).
      pose proof (wait_pos wf). by destruct (Z.eqb_spec THREADSTATUS_WAIT 0); [lia|]. }
    split; [intros h N; by rewrite T, decide_False, Ta|].
    split; [intros h N; by rewrite V, Va, decide_False|].
    done.
Qed.

(** ** The wait-object protocol of the specification meets what [SignalEvent]
    asks of it *)

Section SpecRelease.

Context `{hdr : ThreadHeader}.

Lemma Get_Event_spec_release_each this ws k h :
  Get_Event (spec_release_each this ws k).2 h = Get_Event k h.
Proof.
  revert k. induction ws as [|w ws IH]; intros k; simpl; [done|].
  destruct (spec_release_one this w k) as [woke k1] eqn:E1.
  specialize (IH k1).
  destruct (spec_release_each this ws k1) as [any k2]. simpl in *.
  rewrite IH. unfold spec_release_one in E1.
  destruct (VerifyWait k w WAITTYPE_EVENT this) as [[|]|];
    injection E1 as <- <-; by rewrite ?Get_Event_ResumeThreadFromWait.
Qed.

Lemma spec_release_keeps k p e :
  Get_Event k p = Some e ->
  exists e',
    Get_Event (ReleaseAllWaitingThreads (WaitObjectOps := spec_WaitObject) p k).2 p
    = Some e'
    /\ signaled e' = signaled e /\ reset_type e' = reset_type e.
Proof.
  intros E. simpl. unfold spec_ReleaseAllWaitingThreads. rewrite E.
  pose proof (Get_Event_spec_release_each p (wo_waiting_threads e) k p) as G.
  destruct (spec_release_each p (wo_waiting_threads e) k) as [any k2].
  simpl in *. exists (set_wo_waiting_threads [] e).
  rewrite Get_Event_update_event, decide_True, G, E by done. done.
Qed.

Lemma spec_release_no_waiter k p e :
  Get_Event k p = Some e -> wo_waiting_threads e = [] ->
  (ReleaseAllWaitingThreads (WaitObjectOps := spec_WaitObject) p k).1 = false.
Proof.
  intros E W. simpl. unfold spec_ReleaseAllWaitingThreads. by rewrite E, W.
Qed.

End SpecRelease.

(** ** Instances *)

Lemma SignalEvent_spec_witness :
  Get_Event event_kernel 5 = Some event_5
  /\ exists k' e',
       SignalEvent (ops := spec_WaitObject (hdr := example_header)) 5 event_kernel
       = (RESULT_SUCCESS, k')
       /\ Get_Event k' 5 = Some e' /\ signaled e' = false.
Proof.
  split; [reflexivity|].
  destruct (SignalEvent_spec (ops := spec_WaitObject (hdr := example_header))
              spec_release_keeps spec_release_no_waiter 5 event_kernel event_5
              eq_refl) as (k' & e' & R & G & _ & [_ S] & _).
  exists k', e'. split; [exact R|]. split; [exact G|].
  apply S. split; [discriminate|]. vm_compute. reflexivity.
Defined.

Lemma ArbitrateHighestPriorityThread_spec_witness :
  (forall h, h ∈ g_thread_queue tie_kernel -> is_Some (Get_Thread tie_kernel h))
  /\ (0 ∉ g_thread_queue tie_kernel)
  /\ exists k',
       ArbitrateHighestPriorityThread (hdr := example_header) 9 0 tie_kernel
       = Some (2, k').
Proof.
  assert (A : forall h, h ∈ g_thread_queue tie_kernel ->
                        is_Some (Get_Thread tie_kernel h)).
  { intros h Hh. change (g_thread_queue tie_kernel) with [1; 2] in Hh.
    apply elem_of_cons in Hh as [->|Hh]; [vm_compute; eauto|].
    apply elem_of_cons in Hh as [->|Hh]; [vm_compute; eauto|].
    by apply elem_of_nil in Hh. }
  assert (Z0 : 0 ∉ g_thread_queue tie_kernel).
  { change (g_thread_queue tie_kernel) with [1; 2].
    intros Hh. repeat (apply elem_of_cons in Hh as [Hh|Hh]; [done|]).
    by apply elem_of_nil in Hh. }
  split; [exact A|]. split; [exact Z0|].
  destruct (ArbitrateHighestPriorityThread_spec (hdr := example_header) 9 0
              tie_kernel A Z0) as [[R _]|(h & l1 & l2 & R & _)].
  - vm_compute in R. discriminate.
  - eexists. vm_compute. reflexivity.
Defined.



Lemma CreateThread_spec_witness :
  header_ok (hdr := example_header) = true
  /\ exists k' t,
       CreateThread (hdr := example_header) (env := example_env) example_context
         (Some "t") 256 100 7 0 4096 16384 (example_kernel [] [] None)
       = Some (1, k')
       /\ Get_Thread k' 1 = Some t
       /\ status t = 2 /\ current_priority t = 63
       /\ pc (context t) = 256
       /\ klog k' = [LOG_WARN].
Proof.
  split; [reflexivity|].
  destruct (CreateThread_spec (hdr := example_header) (env := example_env)
              example_context (Some "t") 256 100 7 0 4096 16384
              (example_kernel [] [] None) eq_refl)
    as (_ & _ & _ & _ & S).
  destruct (S "t" eq_refl) as (k' & R & T & _ & _ & _ & _ & L);
    [vm_compute; discriminate|reflexivity|].
  exists k'. eexists. split; [exact R|]. split; [exact T|].
  repeat split. exact L.
Defined.

Lemma Event_WaitSynchronization_spec_witness :
  header_ok (hdr := example_header) = true
  /\ Get_Event event_kernel 5 = Some event_5
  /\ exists k',
       Event_WaitSynchronization
         (ops := spec_WaitObject (hdr := example_header)) 5 0 event_kernel
       = Some (RESULT_SUCCESS, true, k')
       /\ (wo_waiting_threads <$> Get_Event k' 5) = Some [1; 2]
       /\ (wait_type <$> Get_Thread k' 2) = Some WAITTYPE_EVENT
       /\ (wait_handle <$> Get_Thread k' 2) = Some 5
       /\ (status <$> Get_Thread k' 2) = Some 4.
Proof.
  split; [reflexivity|]. split; [reflexivity|].
  destruct (Event_WaitSynchronization_spec (hdr := example_header) 5 0
              event_kernel event_5 eq_refl eq_refl) as [_ B].
  destruct (B eq_refl 2 (example_thread 1 20 WAITTYPE_NONE 0) eq_refl eq_refl)
    as (k' & R & V & _ & T & _).
  exists k'. split; [exact R|]. rewrite V, T. repeat split.
Defined.

Lemma Thread_WaitSynchronization_spec_witness :
  header_ok (hdr := example_header) = true
  /\ Get_Thread ready_kernel 1 = Some (example_thread 2 10 WAITTYPE_NONE 0)
  /\ exists k',
       Thread_WaitSynchronization (hdr := example_header) 1 false ready_kernel
       = Some (0, true, k')
       /\ (waiting_threads <$> Get_Thread k' 1) = Some [2]
       /\ (wait_type <$> Get_Thread k' 2) = Some WAITTYPE_THREADEND
       /\ (wait_handle <$> Get_Thread k' 2) = Some 1
       /\ (status <$> Get_Thread k' 2) = Some 4.
Proof.
  split; [reflexivity|]. split; [reflexivity|].
  destruct (Thread_WaitSynchronization_spec (hdr := example_header) 1 false
              ready_kernel (example_thread 2 10 WAITTYPE_NONE 0) eq_refl eq_refl)
    as [_ B].
  destruct (B ltac:(vm_compute; discriminate) 2
              (example_thread 1 20 WAITTYPE_NONE 0) eq_refl eq_refl)
    as (k' & self' & ct' & R & S & W & C & WT & WH & ST & _).
  exists k'. split; [exact R|]. rewrite S, C. simpl.
  rewrite W, WT, WH, ST. repeat split.
Defined.

Lemma event_calls_spec_witness :
  SetEventSignaled 1 true event_kernel
  = (InvalidHandle ErrorModule_Kernel, event_kernel)
  /\ (signaled <$> Get_Event (SetEventSignaled 5 true event_kernel).2 5)
     = Some true
  /\ (ClearEvent 5 event_kernel).1 = RESULT_SUCCESS.
Proof.
  destruct (event_calls_spec (ops := spec_WaitObject (hdr := example_header))
              1 true event_kernel) as [B _].
  destruct (event_calls_spec (ops := spec_WaitObject (hdr := example_header))
              5 true event_kernel) as [_ G].
  destruct (B eq_refl) as (S & _). destruct (G event_5 eq_refl) as (_ & C & V).
  split; [exact S|]. rewrite V, C. split; reflexivity.
Defined.

(** ** The scenarios of the specification, run *)

(** Of three threads waiting with the priorities 5, 1 and 3, the arbitration
    of the highest priority wakes the one of priority 1 alone. *)
Example arbitration_scenario_highest :
  (fun r => (r.1, statuses r.2))
    <$> ArbitrateHighestPriorityThread (hdr := example_header) 9 0
          arbitration_kernel
  = Some (2, [Some 4; Some 2; Some 4]).
Proof. vm_compute. reflexivity. Qed.

(** The arbitration of all threads then wakes the other two. *)
Example arbitration_scenario_all :
  statuses
    <$> (ArbitrateHighestPriorityThread (hdr := example_header) 9 0
           arbitration_kernel
         ≫= fun r => ArbitrateAllThreads (hdr := example_header) 9 0 r.2)
  = Some [Some 2; Some 2; Some 2].
Proof. vm_compute. reflexivity. Qed.

(** A one-shot event with one waiter ends not signaled, the waiter ready; the
    same event without waiters, and a sticky event with the waiter, end
    signaled. *)
Example signal_scenarios :
  let ops := spec_WaitObject (hdr := example_header) in
  let run e :=
    let k := example_kernel
               [(1, ObjThread (example_thread 4 10 WAITTYPE_EVENT 5));
                (5, ObjEvent e)] [1] None in
    let r := SignalEvent 5 k in
    (r.1, signaled <$> Get_Event r.2 5, statuses r.2) in
  run (mkEvent RESETTYPE_ONESHOT RESETTYPE_ONESHOT false "e" [1])
  = (RESULT_SUCCESS, Some false, [Some 2])
  /\ run (mkEvent RESETTYPE_ONESHOT RESETTYPE_ONESHOT false "e" [])
     = (RESULT_SUCCESS, Some true, [Some 4])
  /\ run (mkEvent RESETTYPE_STICKY RESETTYPE_STICKY false "e" [1])
     = (RESULT_SUCCESS, Some true, [Some 2]).
Proof. vm_compute. repeat split. Qed.

(** A thread created and stopped at once is dormant and out of the ready
    queue. *)
Example create_then_stop :
  (CreateThread (hdr := example_header) (env := example_env) example_context
     (Some "t") 256 16 0 0 4096 16384 (example_kernel [] [] None)
   ≫= fun r => StopThread (hdr := example_header) r.1 r.2)
  ≫= (fun k => Some (statuses k, g_thread_ready_queue k !! 16))
  = Some ([Some 16], Some []).
Proof. vm_compute. reflexivity. Qed.

(** [Event::WaitSynchronization] hands the current-thread pointer on
    without reading through it. Without a current thread it returns "wait"
    when the members do not follow the pointer, and fails with the protocol
    of the specification, where [WaitCurrentThread] follows it. *)
Example wait_without_current_thread :
  Event_WaitSynchronization (ops := inert_WaitObject) 5 0
    (set_current_thread None quiet_event_kernel)
  = Some (RESULT_SUCCESS, true, set_current_thread None quiet_event_kernel)
  /\ Event_WaitSynchronization
       (ops := spec_WaitObject (hdr := example_header)) 5 0
       (set_current_thread None quiet_event_kernel)
     = None.
Proof. split; vm_compute; reflexivity. Qed.

(** * More of the scheduler *)

(** ** More on the status flags *)

Section MoreFlags.

Context `{hdr : ThreadHeader}.

(** The facts on the running flag that [header_ok] gives beyond the ones
    above. *)
Lemma header_ok_running :
  header_ok = true ->
  Z.land THREADSTATUS_RUNNING THREADSTATUS_WAIT = 0
  /\ Z.land THREADSTATUS_RUNNING THREADSTATUS_SUSPEND = 0.
Proof.
  unfold header_ok, status_flags. simpl.
  rewrite !andb_true_iff, !Z.eqb_eq. intros H. destruct_and!. done.
Qed.

Context (wf : flags_wf).

Lemma IsReady_clear_wait t :
  IsReady (set_status (Z.land (status t) (Z.lnot THREADSTATUS_WAIT)) t) = IsReady t.
Proof.
  unfold IsReady. simpl.
  by rewrite <- Z.land_assoc, (Z.land_comm (Z.lnot _)), (ready_keeps wf).
Qed.

Lemma IsRunning_READY t : IsRunning (set_status THREADSTATUS_READY t) = false.
Proof.
  unfold IsRunning. simpl. by rewrite Z.land_comm, (running_ready wf).
Qed.

Lemma READY_ne_0 : (THREADSTATUS_READY =? 0) = false.
Proof. pose proof (ready_pos wf). apply Z.eqb_neq. lia. Qed.

End MoreFlags.

(** ** The ready queue holds ready threads *)

Section QueueOk.

Context `{hdr : ThreadHeader}.

Lemma entry_ok_spec k p h :
  entry_ok k p h = true
  <-> exists t, Get_Thread k h = Some t /\ IsReady t = true
                /\ current_priority t = p.
Proof.
  unfold entry_ok. destruct (Get_Thread k h) as [t|]; split.
  - rewrite andb_true_iff, Z.eqb_eq. intros []. eauto.
  - intros (t' & [= <-] & R & P). by rewrite R, P, Z.eqb_refl.
  - done.
  - by intros (? & ? & _).
Qed.

Lemma queue_ok_spec k :
  queue_ok k
  <-> forall p b, g_thread_ready_queue k !! p = Some b ->
        NoDup b /\ forall h, h ∈ b -> entry_ok k p h = true.
Proof.
  unfold queue_ok, map_Forall. split; intros H p b Hb;
    destruct (H p b Hb) as [N F]; (split; [done|]).
  - by apply Forall_forall.
  - by apply Forall_forall.
Qed.

Lemma entry_ok_update_thread k t f p h :
  entry_ok (update_thread t f k) p h
  = if decide (t = h)
    then from_option (fun th => IsReady (f th) && (current_priority (f th) =? p))
           false (Get_Thread k t)
    else entry_ok k p h.
Proof.
  unfold entry_ok. rewrite Get_Thread_update_thread.
  case_decide; [subst|done]. by destruct (Get_Thread k h).
Qed.

(** A queued handle names a ready thread and sits in the bucket of its
    priority. *)
Lemma queued_entry k h :
  queue_ok k -> queued (g_thread_ready_queue k) h ->
  exists t b, Get_Thread k h = Some t /\ IsReady t = true
              /\ g_thread_ready_queue k !! current_priority t = Some b /\ h ∈ b.
Proof.
  intros Q (p & b & Hb & I). pose proof (proj1 (queue_ok_spec _) Q) as Q'; clear Q; rename Q' into Q.
  destruct (Q p b Hb) as [_ F]. pose proof (F h I) as E0.
  apply entry_ok_spec in E0 as (t & E & R & <-). by exists t, b.
Qed.

Lemma not_ready_not_queued k h t :
  queue_ok k -> Get_Thread k h = Some t -> IsReady t = false ->
  ~ queued (g_thread_ready_queue k) h.
Proof.
  intros Q E R Hq. destruct (queued_entry k h Q Hq) as (t' & b & E' & R' & _).
  congruence.
Qed.

Lemma no_thread_not_queued k h :
  queue_ok k -> Get_Thread k h = None -> ~ queued (g_thread_ready_queue k) h.
Proof.
  intros Q E Hq. destruct (queued_entry k h Q Hq) as (t' & b & E' & _).
  congruence.
Qed.

(** The queue and the threads it names decide [queue_ok]. *)
Lemma queue_ok_transfer k k' :
  queue_ok k ->
  g_thread_ready_queue k' = g_thread_ready_queue k ->
  (forall p h, queued (g_thread_ready_queue k) h -> entry_ok k p h = true ->
               entry_ok k' p h = true) ->
  queue_ok k'.
Proof.
  intros Q Eq T. apply queue_ok_spec. rewrite Eq. intros p b Hb.
  pose proof (proj1 (queue_ok_spec _) Q) as Q'; clear Q; rename Q' into Q. destruct (Q p b Hb) as [N F]. split; [done|].
  intros h I. apply T; [by exists p, b|by apply F].
Qed.

Lemma queue_ok_update_keep k t f :
  (forall th, IsReady th = true ->
              IsReady (f th) = true /\ current_priority (f th) = current_priority th) ->
  queue_ok k -> queue_ok (update_thread t f k).
Proof.
  intros K Q. apply (queue_ok_transfer k); [done|done|].
  intros p h _ E. rewrite entry_ok_update_thread. case_decide; [subst|done].
  apply entry_ok_spec in E as (th & -> & R & <-). simpl.
  destruct (K th R) as [-> ->]. by rewrite Z.eqb_refl.
Qed.

Lemma queue_ok_update_unqueued k t f :
  ~ queued (g_thread_ready_queue k) t ->
  queue_ok k -> queue_ok (update_thread t f k).
Proof.
  intros U Q. apply (queue_ok_transfer k); [done|done|].
  intros p h Hq E. rewrite entry_ok_update_thread.
  case_decide; [by subst|done].
Qed.

Lemma queue_ok_log k l : queue_ok k -> queue_ok (log_msg l k).
Proof. done. Qed.

Lemma queue_ok_set_current k c : queue_ok k -> queue_ok (set_current_thread c k).
Proof. done. Qed.

Lemma queue_ok_remove k p h :
  queue_ok k ->
  queue_ok (set_ready_queue
              (ThreadQueueList.remove p h (g_thread_ready_queue k)) k).
Proof.
  intros Q. apply queue_ok_spec. intros p' b' Hb'. simpl in Hb'.
  pose proof (proj1 (queue_ok_spec _) Q) as Q'; clear Q; rename Q' into Q. unfold ThreadQueueList.remove in Hb'.
  destruct (decide (p = p')) as [<-|N].
  - rewrite lookup_alter_eq in Hb'.
    destruct (g_thread_ready_queue k !! p) as [b|] eqn:Hb; [|done].
    injection Hb' as <-. destruct (Q p b Hb) as [Nd F]. split.
    + by apply NoDup_filter.
    + intros h' [_ I]%list_elem_of_filter. by apply F.
  - rewrite lookup_alter_ne in Hb' by done. by apply Q.
Qed.

Lemma remove_unqueues k h t :
  queue_ok k -> Get_Thread k h = Some t ->
  ~ queued (ThreadQueueList.remove (current_priority t) h
              (g_thread_ready_queue k)) h.
Proof.
  intros Q E (p & b & Hb & I). unfold ThreadQueueList.remove in Hb.
  destruct (decide (current_priority t = p)) as [<-|N].
  - rewrite lookup_alter_eq in Hb.
    destruct (g_thread_ready_queue k !! current_priority t) as [b0|]; [|done].
    injection Hb as <-. by apply list_elem_of_filter in I as [? _].
  - rewrite lookup_alter_ne in Hb by done.
    pose proof (proj1 (queue_ok_spec _) Q) as Q'; clear Q; rename Q' into Q. destruct (Q p b Hb) as [_ F].
    apply F, entry_ok_spec in I as (t' & E' & _ & P). congruence.
Qed.

Lemma queued_remove p h (q : gmap Z (list Handle)) h' :
  queued (ThreadQueueList.remove p h q) h' -> queued q h'.
Proof.
  intros (p' & b & Hb & I). unfold ThreadQueueList.remove in Hb.
  destruct (decide (p = p')) as [<-|N].
  - rewrite lookup_alter_eq in Hb. destruct (q !! p) as [b0|] eqn:E; [|done].
    injection Hb as <-. apply list_elem_of_filter in I as [_ I]. by exists p, b0.
  - rewrite lookup_alter_ne in Hb by done. by exists p', b.
Qed.

Lemma queue_ok_prepare k p :
  queue_ok k ->
  queue_ok (set_ready_queue
              (ThreadQueueList.prepare p (g_thread_ready_queue k)) k).
Proof.
  intros Q. apply queue_ok_spec. intros p' b' Hb'. simpl in Hb'.
  pose proof (proj1 (queue_ok_spec _) Q) as Q'; clear Q; rename Q' into Q. unfold ThreadQueueList.prepare in Hb'.
  destruct (g_thread_ready_queue k !! p) eqn:E; [by apply Q|].
  destruct (decide (p = p')) as [<-|N].
  - rewrite lookup_insert_eq in Hb'. injection Hb' as <-.
    split; [constructor|]. intros h I. by apply elem_of_nil in I.
  - rewrite lookup_insert_ne in Hb' by done. by apply Q.
Qed.

Lemma queued_prepare p (q : gmap Z (list Handle)) h :
  queued (ThreadQueueList.prepare p q) h <-> queued q h.
Proof.
  unfold ThreadQueueList.prepare. destruct (q !! p) eqn:E; [done|]. split.
  - intros (p' & b & Hb & I). destruct (decide (p = p')) as [<-|N].
    + rewrite lookup_insert_eq in Hb. injection Hb as <-.
      by apply elem_of_nil in I.
    + rewrite lookup_insert_ne in Hb by done. by exists p', b.
  - intros (p' & b & Hb & I). exists p', b. split; [|done].
    rewrite lookup_insert_ne; [done|]. intros <-. congruence.
Qed.

(** Putting a thread that is not queued at either end of the bucket of its
    priority, and making it ready. *)
Lemma queue_ok_push (front : bool) k h t s :
  queue_ok k -> Get_Thread k h = Some t ->
  ~ queued (g_thread_ready_queue k) h ->
  IsReady (set_status s t) = true ->
  queue_ok
    (update_thread h (set_status s)
       (set_ready_queue
          ((if front then ThreadQueueList.push_front
            else ThreadQueueList.push_back)
             (current_priority t) h (g_thread_ready_queue k)) k)).
Proof.
  intros Q E U R. apply queue_ok_spec. intros p b Hb. simpl in Hb.
  pose proof (proj1 (queue_ok_spec _) Q) as Q'; clear Q; rename Q' into Q.
  assert (Old : forall p' b' h', g_thread_ready_queue k !! p' = Some b' ->
                  h' ∈ b' ->
                  h' <> h
                  /\ entry_ok
                       (update_thread h (set_status s)
                          (set_ready_queue
                             ((if front then ThreadQueueList.push_front
                               else ThreadQueueList.push_back)
                                (current_priority t) h (g_thread_ready_queue k))
                             k)) p' h' = true).
  { intros p' b' h' Hb' I'.
    assert (h' <> h) by (intros ->; apply U; by exists p', b').
    split; [done|]. rewrite entry_ok_update_thread, decide_False by done.
    destruct (Q p' b' Hb') as [_ F]. by apply F. }
  assert (New : entry_ok
                  (update_thread h (set_status s)
                     (set_ready_queue
                        ((if front then ThreadQueueList.push_front
                          else ThreadQueueList.push_back)
                           (current_priority t) h (g_thread_ready_queue k)) k))
                  (current_priority t) h = true).
  { rewrite entry_ok_update_thread, decide_True by done.
    change (Get_Thread (set_ready_queue _ k) h) with (Get_Thread k h).
    rewrite E. simpl. simpl in R. by rewrite R, Z.eqb_refl. }
  assert (B : NoDup (ThreadQueueList.bucket (g_thread_ready_queue k)
                       (current_priority t))
              /\ (h ∉ ThreadQueueList.bucket (g_thread_ready_queue k)
                        (current_priority t))
              /\ forall h', h' ∈ ThreadQueueList.bucket (g_thread_ready_queue k)
                                   (current_priority t) ->
                   exists b', g_thread_ready_queue k !! current_priority t = Some b'
                              /\ h' ∈ b').
  { unfold ThreadQueueList.bucket.
    destruct (g_thread_ready_queue k !! current_priority t) as [b0|] eqn:E0;
      simpl.
    - destruct (Q _ _ E0) as [N _]. split; [done|]. split.
      + intros I. apply U. by exists (current_priority t), b0.
      + intros h' I. eauto.
    - split; [constructor|]. split; [apply not_elem_of_nil|].
      intros h' I. by apply elem_of_nil in I. }
  destruct B as (Nd & Ni & Bk).
  destruct (decide (current_priority t = p)) as [<-|N].
  - destruct front; unfold ThreadQueueList.push_front, ThreadQueueList.push_back in Hb;
      rewrite lookup_insert_eq in Hb; injection Hb as <-.
    + split; [by constructor|].
      intros h' [->|I]%elem_of_cons; [done|].
      destruct (Bk h' I) as (b' & Hb' & I'). by apply (Old _ _ _ Hb' I').
    + split.
      * apply NoDup_app. split; [done|]. split; [|apply NoDup_singleton].
        intros x Ix ->%list_elem_of_singleton. done.
      * intros h' [I| ->%list_elem_of_singleton]%elem_of_app; [|done].
        destruct (Bk h' I) as (b' & Hb' & I'). by apply (Old _ _ _ Hb' I').
  - assert (Hb' : g_thread_ready_queue k !! p = Some b).
    { destruct front;
        unfold ThreadQueueList.push_front, ThreadQueueList.push_back in Hb;
        by rewrite lookup_insert_ne in Hb. }
    destruct (Q p b Hb') as [Nb _]. split; [done|].
    intros h' I. by apply (Old _ _ _ Hb' I).
Qed.

Context (wf : flags_wf).

Lemma queue_ok_ChangeReadyState k t ready :
  queue_ok k -> queue_ok (ChangeReadyState t ready k).
Proof.
  intros Q. unfold ChangeReadyState.
  destruct (Get_Thread k t) as [th|] eqn:E; [|done].
  destruct (IsReady th) eqn:R.
  - destruct ready; simpl; [done|]. by apply queue_ok_remove.
  - destruct ready; [|done].
    pose proof (not_ready_not_queued k t th Q E R) as U.
    destruct (IsRunning th).
    + by apply (queue_ok_push true k t th _ Q E U), (IsReady_READY wf).
    + by apply (queue_ok_push false k t th _ Q E U), (IsReady_READY wf).
Qed.

(** After [ChangeReadyState(t, false)] the thread is in no bucket. *)
Lemma ChangeReadyState_false_unqueues k t :
  queue_ok k ->
  ~ queued (g_thread_ready_queue (ChangeReadyState t false k)) t.
Proof.
  intros Q. unfold ChangeReadyState.
  destruct (Get_Thread k t) as [th|] eqn:E; [|by apply no_thread_not_queued].
  destruct (IsReady th) eqn:R; simpl.
  - by apply remove_unqueues.
  - by apply (not_ready_not_queued k t th).
Qed.

Lemma queue_ok_ResumeThreadFromWait k h :
  queue_ok k -> queue_ok (ResumeThreadFromWait h k).
Proof.
  intros Q. unfold ResumeThreadFromWait.
  destruct (Get_Thread k h) as [th|] eqn:E; [|done].
  assert (Q1 : queue_ok (update_thread h
                 (set_status (Z.land (status th) (Z.lnot THREADSTATUS_WAIT))) k)).
  { apply (queue_ok_transfer k); [done|done|].
    intros p h' _ E'. rewrite entry_ok_update_thread.
    case_decide; [subst h'|done]. rewrite E. simpl.
    apply entry_ok_spec in E' as (t' & Et & R & <-).
    rewrite E in Et. injection Et as <-.
    by rewrite (IsReady_clear_wait wf), R, Z.eqb_refl. }
  destruct (_ =? 0); [by apply queue_ok_ChangeReadyState|done].
Qed.

End QueueOk.

(** ** One running thread, and the registry *)

Section OneRunning.

Context `{hdr : ThreadHeader}.

Lemma one_running_spec k :
  one_running k
  <-> forall h t, Get_Thread k h = Some t -> IsRunning t = true ->
        g_current_thread k = Some h /\ IsReady t = false.
Proof.
  unfold one_running, map_Forall, running_ok, Get_Thread. split.
  - intros H h t E R.
    destruct (g_object_pool k !! h) as [[t'|e]|] eqn:P; try done.
    injection E as ->. specialize (H h _ P). simpl in H. rewrite R in H.
    simpl in H. apply andb_true_iff in H as [C N].
    apply bool_decide_eq_true in C. by apply negb_true_iff in N.
  - intros H h [t|e] P; [|done]. specialize (H h t). rewrite P in H.
    destruct (IsRunning t); [|done]. destruct (H eq_refl eq_refl) as [-> ->].
    simpl. by rewrite bool_decide_eq_true_2.
Qed.

Lemma one_running_update k t f :
  (forall th, IsRunning (f th) = true ->
              IsRunning th = true /\ IsReady (f th) = IsReady th) ->
  one_running k -> one_running (update_thread t f k).
Proof.
  intros K O. apply one_running_spec. intros h t' E R.
  pose proof (proj1 (one_running_spec k) O) as O'.
  rewrite Get_Thread_update_thread in E. case_decide; [subst|by apply O'].
  destruct (Get_Thread k h) as [th|] eqn:Eh; [|done]. injection E as <-.
  destruct (K th R) as [R' ->]. by apply O'.
Qed.

Lemma one_running_set_ready_queue k q :
  one_running k -> one_running (set_ready_queue q k).
Proof. done. Qed.

Lemma one_running_log k l : one_running k -> one_running (log_msg l k).
Proof. done. Qed.

Lemma registered_update k t f : registered k -> registered (update_thread t f k).
Proof.
  unfold registered. simpl. intros R. eapply Forall_impl; [exact R|].
  intros h [th E]. simpl.
  rewrite Get_Thread_update_thread. case_decide; [subst|by eexists].
  rewrite E. by eexists.
Qed.

Lemma registered_elem k h :
  registered k -> h ∈ g_thread_queue k -> is_Some (Get_Thread k h).
Proof. unfold registered. rewrite Forall_forall. auto. Qed.

Context (ok : header_ok = true).

Lemma IsRunning_clear_wait t :
  IsRunning (set_status (Z.land (status t) (Z.lnot THREADSTATUS_WAIT)) t)
  = IsRunning t.
Proof.
  destruct (header_ok_running ok) as [RW _].
  unfold IsRunning. simpl.
  by rewrite <- Z.land_assoc, (Z.land_comm (Z.lnot _)),
    (land_lnot_disjoint _ _ RW).
Qed.

Lemma IsRunning_blocked s :
  Z.land (Z.lor THREADSTATUS_WAIT (Z.land s THREADSTATUS_SUSPEND))
    THREADSTATUS_RUNNING = 0.
Proof.
  destruct (header_ok_running ok) as [RW RS].
  rewrite Z.land_lor_distr_l, <- Z.land_assoc.
  rewrite (Z.land_comm THREADSTATUS_WAIT), RW.
  rewrite (Z.land_comm THREADSTATUS_SUSPEND), RS.
  by rewrite Z.land_0_r.
Qed.

Lemma one_running_ChangeReadyState k t ready :
  one_running k -> one_running (ChangeReadyState t ready k).
Proof.
  pose proof (header_ok_wf ok) as wf.
  intros O. unfold ChangeReadyState.
  destruct (Get_Thread k t) as [th|]; [|done].
  destruct (IsReady th), ready; simpl; try done.
  apply one_running_update; [|by destruct (IsRunning th)].
  intros th' R. by rewrite (IsRunning_READY wf) in R.
Qed.

Lemma registered_ChangeReadyState k t ready :
  registered k -> registered (ChangeReadyState t ready k).
Proof.
  intros O. unfold ChangeReadyState.
  destruct (Get_Thread k t) as [th|]; [|done].
  destruct (IsReady th), ready; simpl; try done.
  apply registered_update. by destruct (IsRunning th).
Qed.

Lemma one_running_ResumeThreadFromWait k h :
  one_running k -> one_running (ResumeThreadFromWait h k).
Proof.
  pose proof (header_ok_wf ok) as wf.
  intros O. unfold ResumeThreadFromWait.
  destruct (Get_Thread k h) as [th|] eqn:E; [|done].
  assert (O1 : one_running (update_thread h
                 (set_status (Z.land (status th) (Z.lnot THREADSTATUS_WAIT))) k)).
  { apply one_running_spec. intros h' t' E' R.
    pose proof (proj1 (one_running_spec k) O) as O'.
    rewrite Get_Thread_update_thread in E'. case_decide; [subst h'|by apply O'].
    rewrite E in E'. injection E' as <-.
    rewrite IsRunning_clear_wait in R. rewrite (IsReady_clear_wait wf).
    by apply O'. }
  destruct (_ =? 0); [by apply one_running_ChangeReadyState|done].
Qed.

Lemma registered_ResumeThreadFromWait k h :
  registered k -> registered (ResumeThreadFromWait h k).
Proof.
  intros O. unfold ResumeThreadFromWait.
  destruct (Get_Thread k h) as [th|] eqn:E; [|done].
  destruct (_ =? 0);
    [apply registered_ChangeReadyState|]; by apply registered_update.
Qed.

End OneRunning.

(** ** Waking threads *)

(** X1. Resuming a thread keeps the scheduler's invariants: the ready queue
    still holds, without repetition, handles of ready threads in the bucket
    of their priority, only the current thread can have the running flag,
    and every registered handle still names a thread. *)
Theorem ResumeThreadFromWait_keeps `{hdr : ThreadHeader} (handle : Handle)
    (k : Kernel) :
  header_ok = true -> sched_ok k -> sched_ok (ResumeThreadFromWait handle k).
Proof.
  intros ok (Q & O & R). pose proof (header_ok_wf ok) as wf.
  split; [by apply queue_ok_ResumeThreadFromWait|].
  split; [by apply one_running_ResumeThreadFromWait|].
  by apply registered_ResumeThreadFromWait.
Qed.

Lemma update_thread_id k h f :
  (forall t, Get_Thread k h = Some t -> f t = t) -> update_thread h f k = k.
Proof.
  intros H. unfold update_thread. destruct k as [pool tq rq cur lg]. simpl in *.
  unfold set_pool. simpl. f_equal. apply map_eq. intros i.
  destruct (decide (h = i)) as [<-|N]; [|by rewrite lookup_alter_ne].
  rewrite lookup_alter_eq. unfold Get_Thread in H. simpl in H.
  destruct (pool !! h) as [[t|e]|]; simpl; try done. by rewrite H.
Qed.

Section ResumeTwice.

Context `{hdr : ThreadHeader} (wf : flags_wf).

Lemma resumed_fix t :
  Z.land (status (resumed t)) (Z.lnot THREADSTATUS_WAIT) = status (resumed t)
  /\ (Z.land (status (resumed t)) wake_mask = 0 -> IsReady (resumed t) = true)
  /\ Z.land (status (resumed t)) THREADSTATUS_WAIT = 0.
Proof.
  unfold resumed. fold wake_mask.
  set (s := Z.land (status t) (Z.lnot THREADSTATUS_WAIT)).
  destruct (Z.eqb_spec (Z.land s wake_mask) 0) as [M|M];
    [destruct (IsReady (set_status s t)) eqn:R|]; simpl.
  - split; [apply land_lnot_idemp|]. split; [done|apply land_lnot_self].
  - split; [apply (ready_keeps wf)|]. split; [|apply (ready_wait wf)].
    intros _. apply (IsReady_READY wf).
  - split; [apply land_lnot_idemp|]. split; [done|apply land_lnot_self].
Qed.

End ResumeTwice.

(** X2. Resuming the same thread a second time changes nothing: not its
    status, and not the ready queue, where the thread is not entered twice. *)
Theorem ResumeThreadFromWait_idempotent `{hdr : ThreadHeader} (handle : Handle)
    (k : Kernel) :
  header_ok = true ->
  ResumeThreadFromWait handle (ResumeThreadFromWait handle k)
  = ResumeThreadFromWait handle k.
Proof.
  intros ok. pose proof (header_ok_wf ok) as wf.
  set (r := ResumeThreadFromWait handle k).
  assert (E : Get_Thread r handle = resumed <$> Get_Thread k handle).
  { unfold r. by rewrite Get_Thread_ResumeThreadFromWait, decide_True. }
  unfold ResumeThreadFromWait at 1. fold r. rewrite E.
  destruct (Get_Thread k handle) as [t|]; [simpl|done].
  destruct (resumed_fix wf t) as (F & M & _). rewrite F.
  assert (U : update_thread handle (set_status (status (resumed t))) r = r).
  { apply update_thread_id. intros t' E'. rewrite E in E'. simpl in E'.
    injection E' as <-. apply set_status_same. }
  rewrite U. fold wake_mask.
  destruct (Z.eqb_spec (Z.land (status (resumed t)) wake_mask) 0) as [Z|Z];
    [|done].
  unfold ChangeReadyState. rewrite E. simpl. by rewrite (M Z).
Qed.

(** ** Changing the state of a thread *)

Section ChangeState.

Context `{hdr : ThreadHeader} (ok : header_ok = true).

Lemma queue_ok_ChangeThreadState k t new_status :
  queue_ok k -> queue_ok (ChangeThreadState t new_status k).
Proof.
  pose proof (header_ok_wf ok) as wf.
  intros Q. unfold ChangeThreadState. destruct t as [t|]; [|done].
  destruct (Get_Thread k t) as [th|] eqn:E; [|done].
  destruct (status th =? new_status); [done|].
  set (ready := negb (Z.land new_status THREADSTATUS_READY =? 0)).
  assert (Q2 : queue_ok (update_thread t (set_status new_status)
                           (ChangeReadyState t ready k))).
  { destruct ready eqn:R.
    - apply queue_ok_update_keep; [|by apply queue_ok_ChangeReadyState].
      intros th' _. split; [|done]. unfold IsReady. simpl. apply R.
    - apply queue_ok_update_unqueued; [|by apply queue_ok_ChangeReadyState].
      by apply ChangeReadyState_false_unqueues. }
  destruct (new_status =? THREADSTATUS_WAIT); [|done].
  match goal with
  | |- context [match ?x with Some _ => _ | None => _ end] =>
      destruct x as [th'|]; [|done]
  end.
  by case_bool_decide.
Qed.

Lemma one_running_ChangeThreadState k t new_status :
  Z.land new_status THREADSTATUS_RUNNING = 0 ->
  one_running k -> one_running (ChangeThreadState t new_status k).
Proof.
  intros NR O. unfold ChangeThreadState. destruct t as [t|]; [|done].
  destruct (Get_Thread k t) as [th|] eqn:E; [|done].
  destruct (status th =? new_status); [done|].
  assert (O2 : one_running (update_thread t (set_status new_status)
                 (ChangeReadyState t
                    (negb (Z.land new_status THREADSTATUS_READY =? 0)) k))).
  { apply one_running_update; [|by apply one_running_ChangeReadyState].
    intros th' R. unfold IsRunning in R. simpl in R. by rewrite NR in R. }
  destruct (new_status =? THREADSTATUS_WAIT); [|done].
  match goal with
  | |- context [match ?x with Some _ => _ | None => _ end] =>
      destruct x as [th'|]; [|done]
  end.
  by case_bool_decide.
Qed.

Lemma registered_ChangeThreadState k t new_status :
  registered k -> registered (ChangeThreadState t new_status k).
Proof.
  intros O. unfold ChangeThreadState. destruct t as [t|]; [|done].
  destruct (Get_Thread k t) as [th|] eqn:E; [|done].
  destruct (status th =? new_status); [done|].
  assert (O2 : registered (update_thread t (set_status new_status)
                 (ChangeReadyState t
                    (negb (Z.land new_status THREADSTATUS_READY =? 0)) k))).
  { by apply registered_update, registered_ChangeReadyState. }
  destruct (new_status =? THREADSTATUS_WAIT); [|done].
  match goal with
  | |- context [match ?x with Some _ => _ | None => _ end] =>
      destruct x as [th'|]; [|done]
  end.
  by case_bool_decide.
Qed.

Lemma sched_ok_ChangeThreadState k t new_status :
  Z.land new_status THREADSTATUS_RUNNING = 0 ->
  sched_ok k -> sched_ok (ChangeThreadState t new_status k).
Proof.
  intros NR (Q & O & R). split; [by apply queue_ok_ChangeThreadState|].
  split; [by apply one_running_ChangeThreadState|].
  by apply registered_ChangeThreadState.
Qed.

Lemma sched_ok_update_waits k t f :
  (forall th, status (f th) = status th
              /\ current_priority (f th) = current_priority th) ->
  sched_ok k -> sched_ok (update_thread t f k).
Proof.
  intros K (Q & O & R). split; [|split].
  - apply queue_ok_update_keep; [|done]. intros th Rd.
    destruct (K th) as [S P]. unfold IsReady. by rewrite S.
  - apply one_running_update; [|done]. intros th Rn.
    destruct (K th) as [S P]. unfold IsRunning, IsReady in *.
    by rewrite S in *.
  - by apply registered_update.
Qed.

End ChangeState.

Lemma Get_Thread_ChangeThreadState `{hdr : ThreadHeader} k t new_status h :
  Get_Thread (ChangeThreadState (Some t) new_status k) h
  = if decide (t = h) then set_status new_status <$> Get_Thread k t
    else Get_Thread k h.
Proof.
  unfold ChangeThreadState.
  destruct (Get_Thread k t) as [th|] eqn:E.
  - destruct (Z.eqb_spec (status th) new_status) as [S|S].
    + case_decide; [subst h|done]. rewrite E. simpl. f_equal.
      rewrite <- S. symmetry. apply set_status_same.
    + assert (G : Get_Thread
                    (update_thread t (set_status new_status)
                       (ChangeReadyState t
                          (negb (Z.land new_status THREADSTATUS_READY =? 0)) k))
                    h
                  = if decide (t = h) then set_status new_status <$> Get_Thread k t
                    else Get_Thread k h).
      { rewrite Get_Thread_update_thread. case_decide; [subst h|].
        - rewrite Get_Thread_ChangeReadyState, decide_True, E by done. simpl.
          by destruct (IsReady th),
            (negb (Z.land new_status THREADSTATUS_READY =? 0)).
        - by rewrite Get_Thread_ChangeReadyState, decide_False. }
      rewrite E in G.
      destruct (new_status =? THREADSTATUS_WAIT); [|exact G].
      match goal with
      | |- context [match ?x with Some _ => _ | None => _ end] =>
          destruct x as [th'|]; [|exact G]
      end.
      case_bool_decide; exact G.
  - case_decide; [subst h|done]. by rewrite E.
Qed.

(** ** Picking the next thread *)

Section Next.

Context `{hdr : ThreadHeader}.

(** What [NextThread] returns was the head of a bucket, and that bucket
    alone has changed. *)
Lemma NextThread_pops k n :
  (NextThread k).1 = Some n ->
  exists p rest,
    g_thread_ready_queue k !! p = Some (n :: rest)
    /\ (NextThread k).2
       = set_ready_queue (<[p := rest]> (g_thread_ready_queue k)) k.
Proof.
  unfold NextThread.
  set (sel := match GetCurrentThread k ≫= Get_Thread k with
              | Some c =>
                  if IsRunning c
                  then ThreadQueueList.pop_first_better (current_priority c)
                         (g_thread_ready_queue k)
                  else ThreadQueueList.pop_first (g_thread_ready_queue k)
              | None => ThreadQueueList.pop_first (g_thread_ready_queue k)
              end).
  assert (S : (sel = (0, g_thread_ready_queue k))
              \/ exists p rest,
                   g_thread_ready_queue k !! p = Some (sel.1 :: rest)
                   /\ sel.2 = <[p := rest]> (g_thread_ready_queue k)).
  { unfold sel, ThreadQueueList.pop_first_better, ThreadQueueList.pop_first.
    destruct (GetCurrentThread k ≫= Get_Thread k) as [c|];
      [destruct (IsRunning c)|];
      match goal with
      | |- context [ThreadQueueList.candidates ?ok ?q] =>
          destruct (pop_lowest ok q) as [[-> _]|(p & rest & _ & Hp & Hq & _)]
      end; try (by left); right; by exists p, rest. }
  destruct sel as [next q']. simpl in *.
  destruct S as [[= -> ->]|(p & rest & Hp & ->)]; [by simpl|].
  destruct (next =? 0); [done|]. simpl.
  destruct (GetFast_Thread _ next); [|done]. simpl. intros [= <-].
  by exists p, rest.
Qed.

Lemma NextThread_frame k :
  exists q,
    (NextThread k).2 = set_ready_queue q k
    /\ (q = g_thread_ready_queue k
        \/ exists p h rest,
             g_thread_ready_queue k !! p = Some (h :: rest)
             /\ q = <[p := rest]> (g_thread_ready_queue k)).
Proof.
  unfold NextThread.
  set (sel := match GetCurrentThread k ≫= Get_Thread k with
              | Some c =>
                  if IsRunning c
                  then ThreadQueueList.pop_first_better (current_priority c)
                         (g_thread_ready_queue k)
                  else ThreadQueueList.pop_first (g_thread_ready_queue k)
              | None => ThreadQueueList.pop_first (g_thread_ready_queue k)
              end).
  assert (S : (sel.2 = g_thread_ready_queue k)
              \/ exists p h rest,
                   g_thread_ready_queue k !! p = Some (h :: rest)
                   /\ sel.2 = <[p := rest]> (g_thread_ready_queue k)).
  { unfold sel, ThreadQueueList.pop_first_better, ThreadQueueList.pop_first.
    destruct (GetCurrentThread k ≫= Get_Thread k) as [c|];
      [destruct (IsRunning c)|];
      match goal with
      | |- context [ThreadQueueList.candidates ?ok ?q] =>
          destruct (pop_lowest ok q) as [[-> _]|(p & rest & _ & Hp & Hq & _)]
      end; try (by left); right; by eexists p, _, rest. }
  destruct sel as [next q']. simpl in *. exists q'. split; [|done].
  destruct (next =? 0); [done|]. by destruct (GetFast_Thread _ next).
Qed.

Lemma queue_ok_pop k p h rest :
  queue_ok k -> g_thread_ready_queue k !! p = Some (h :: rest) ->
  queue_ok (set_ready_queue (<[p := rest]> (g_thread_ready_queue k)) k)
  /\ ~ queued (<[p := rest]> (g_thread_ready_queue k)) h.
Proof.
  intros Q Hp. pose proof (proj1 (queue_ok_spec _) Q) as Q'.
  destruct (Q' p _ Hp) as [Nd F]. apply NoDup_cons in Nd as [Ni Nd]. split.
  - apply queue_ok_spec. intros p' b Hb. simpl in Hb.
    destruct (decide (p = p')) as [<-|N].
    + rewrite lookup_insert_eq in Hb. injection Hb as <-. split; [done|].
      intros h' I. apply F. by apply list_elem_of_further.
    + rewrite lookup_insert_ne in Hb by done. by apply Q'.
  - intros (p' & b & Hb & I). destruct (decide (p = p')) as [<-|N].
    + rewrite lookup_insert_eq in Hb. by injection Hb as <-.
    + rewrite lookup_insert_ne in Hb by done.
      destruct (Q' p' b Hb) as [_ F'].
      pose proof (F h (list_elem_of_here _ _)) as E1.
      pose proof (F' h I) as E2.
      apply entry_ok_spec in E1 as (t1 & G1 & _ & P1).
      apply entry_ok_spec in E2 as (t2 & G2 & _ & P2). congruence.
Qed.

End Next.

(** X3. [NextThread] keeps the scheduler's invariants, and the thread it
    returns was in the ready queue, is ready and not running, and is in no
    bucket afterwards. *)
Theorem NextThread_keeps `{hdr : ThreadHeader} (k : Kernel) :
  sched_ok k ->
  sched_ok (NextThread k).2
  /\ forall n, (NextThread k).1 = Some n ->
       queued (g_thread_ready_queue k) n
       /\ ~ queued (g_thread_ready_queue (NextThread k).2) n
       /\ exists t, Get_Thread k n = Some t /\ IsReady t = true
                    /\ IsRunning t = false.
Proof.
  intros (Q & O & R). split.
  - destruct (NextThread_frame k) as (q & -> & [->|(p & h & rest & Hp & ->)]).
    + by destruct k.
    + split; [|done]. by apply (queue_ok_pop k p h rest).
  - intros n Hn. destruct (NextThread_pops k n Hn) as (p & rest & Hp & ->).
    assert (Hq : queued (g_thread_ready_queue k) n).
    { exists p, (n :: rest). split; [done|]. apply list_elem_of_here. }
    split; [done|]. split; [by apply (queue_ok_pop k p n rest)|].
    destruct (queued_entry k n Q Hq) as (t & b & E & Rd & _).
    exists t. split; [done|]. split; [done|].
    destruct (IsRunning t) eqn:Rn; [|done].
    destruct (proj1 (one_running_spec k) O n t E Rn) as [_ F]. congruence.
Qed.

(** ** Blocking, calling, stopping and arbitrating *)

(** X4. When the current thread blocks itself, whatever the wait type, the
    scheduler's invariants are kept; the thread is left waiting, neither
    ready nor running, in no bucket of the ready queue, and [NextThread]
    does not return it. *)
Theorem WaitCurrentThread_blocks `{hdr : ThreadHeader} (ty : WaitType)
    (wh : Handle) (k : Kernel) (c : Handle) (ct : Thread) :
  header_ok = true -> sched_ok k ->
  g_current_thread k = Some c -> Get_Thread k c = Some ct ->
  exists k' ct',
    WaitCurrentThread ty wh k = Some k'
    /\ sched_ok k'
    /\ Get_Thread k' c = Some ct'
    /\ IsWaiting ct' = true /\ IsReady ct' = false /\ IsRunning ct' = false
    /\ ~ queued (g_thread_ready_queue k') c
    /\ (NextThread k').1 <> Some c.
Proof.
  intros ok S C E. pose proof (header_ok_wf ok) as wf.
  unfold WaitCurrentThread, GetCurrentThread. rewrite C. simpl. rewrite E. simpl.
  set (kb := update_thread c (set_wait_handle wh)
               (update_thread c (set_wait_type ty) k)).
  set (blocked := Z.lor THREADSTATUS_WAIT (Z.land (status ct) THREADSTATUS_SUSPEND)).
  assert (Sb : sched_ok kb).
  { unfold kb. by do 2 (apply sched_ok_update_waits; [done|]). }
  assert (S' : sched_ok (ChangeThreadState (Some c) blocked kb)).
  { apply sched_ok_ChangeThreadState; [done|apply (IsRunning_blocked ok)|done]. }
  assert (Eb : Get_Thread kb c = Some (set_wait_handle wh (set_wait_type ty ct))).
  { unfold kb. rewrite !Get_Thread_update_thread, !decide_True by done.
    by rewrite E. }
  exists (ChangeThreadState (Some c) blocked kb),
    (set_status blocked (set_wait_handle wh (set_wait_type ty ct))).
  split; [reflexivity|]. split; [done|]. split.
  { rewrite Get_Thread_ChangeThreadState, decide_True, Eb by done. done. }
  assert (Rd : IsReady (set_status blocked
                          (set_wait_handle wh (set_wait_type ty ct))) = false).
  { unfold IsReady. simpl. unfold blocked. by rewrite (blocked_not_ready wf). }
  assert (U : ~ queued (g_thread_ready_queue
                          (ChangeThreadState (Some c) blocked kb)) c).
  { destruct S' as (Q' & _). eapply not_ready_not_queued; [done| |exact Rd].
    rewrite Get_Thread_ChangeThreadState, decide_True, Eb by done. done. }
  split.
  { unfold IsWaiting. simpl. unfold blocked. rewrite (blocked_waiting wf).
    pose proof (wait_pos wf).
    by destruct (Z.eqb_spec THREADSTATUS_WAIT 0); [lia|]. }
  split; [done|]. split.
  { unfold IsRunning. simpl. unfold blocked. by rewrite (IsRunning_blocked ok). }
  split; [done|].
  intros Hn. destruct (NextThread_pops _ _ Hn) as (p & rest & Hp & _).
  apply U. exists p, (c :: rest). split; [done|]. apply list_elem_of_here.
Qed.

(** X5. [CallThread] on a thread makes it ready with no wait type, keeps the
    scheduler's invariants and touches no other thread. A thread that was
    not ready is entered in the bucket of its priority, at the back, or at
    the front if it was running; a thread that was ready already is not
    entered again. *)
Theorem CallThread_spec `{hdr : ThreadHeader} (t : Handle) (k : Kernel)
    (th : Thread) :
  header_ok = true -> sched_ok k -> Get_Thread k t = Some th ->
  sched_ok (CallThread t k)
  /\ Get_Thread (CallThread t k) t
     = Some (set_status THREADSTATUS_READY (set_wait_type WAITTYPE_NONE th))
  /\ (forall h, h <> t -> Get_Thread (CallThread t k) h = Get_Thread k h)
  /\ g_thread_ready_queue (CallThread t k)
     = (if IsReady th then g_thread_ready_queue k
        else (if IsRunning th then ThreadQueueList.push_front
              else ThreadQueueList.push_back)
               (current_priority th) t (g_thread_ready_queue k)).
Proof.
  intros ok S E. pose proof (header_ok_wf ok) as wf.
  unfold CallThread. rewrite E.
  set (ka := if bool_decide (wait_type th <> WAITTYPE_NONE)
             then update_thread t (set_wait_type WAITTYPE_NONE) k else k).
  assert (Ea : Get_Thread ka t = Some (set_wait_type WAITTYPE_NONE th)).
  { unfold ka. case_bool_decide as W.
    - by rewrite Get_Thread_update_thread, decide_True, E.
    - rewrite E. f_equal.
      assert (W' : wait_type th = WAITTYPE_NONE).
      { destruct (decide (wait_type th = WAITTYPE_NONE)); [done|by destruct W]. }
      destruct th. simpl in *. by subst. }
  assert (Oa : forall h, h <> t -> Get_Thread ka h = Get_Thread k h).
  { intros h N. unfold ka. case_bool_decide; [|done].
    by rewrite Get_Thread_update_thread, decide_False. }
  assert (Qa : g_thread_ready_queue ka = g_thread_ready_queue k).
  { unfold ka. by case_bool_decide. }
  assert (Sa : sched_ok ka).
  { unfold ka. case_bool_decide; [|done]. by apply sched_ok_update_waits. }
  split.
  { apply sched_ok_ChangeThreadState; [done| |done].
    rewrite Z.land_comm. apply (running_ready wf). }
  split; [by rewrite Get_Thread_ChangeThreadState, decide_True, Ea|].
  split.
  { intros h N. rewrite Get_Thread_ChangeThreadState, decide_False by done.
    by apply Oa. }
  unfold ChangeThreadState. rewrite Ea.
  change (status (set_wait_type WAITTYPE_NONE th)) with (status th).
  destruct (Z.eqb_spec (status th) THREADSTATUS_READY) as [St|St].
  - assert (R : IsReady th = true).
    { unfold IsReady. rewrite St, Z.land_diag. by rewrite (READY_ne_0 wf). }
    by rewrite R.
  - rewrite Z.land_diag, (READY_ne_0 wf). simpl.
    assert (RW : (THREADSTATUS_READY =? THREADSTATUS_WAIT) = false).
    { apply Z.eqb_neq. intros Q. pose proof (ready_wait wf) as D.
      rewrite Q, Z.land_diag in D. pose proof (wait_pos wf). lia. }
    rewrite RW. simpl. unfold ChangeReadyState. rewrite Ea.
    change (IsReady (set_wait_type WAITTYPE_NONE th)) with (IsReady th).
    change (IsRunning (set_wait_type WAITTYPE_NONE th)) with (IsRunning th).
    destruct (IsReady th); simpl; [done|].
    destruct (IsRunning th); simpl; by rewrite Qa.
Qed.

Section StopAndArbitrate.

Context `{hdr : ThreadHeader} (ok : header_ok = true).

Lemma sched_ok_ChangeReadyState k t ready :
  sched_ok k -> sched_ok (ChangeReadyState t ready k).
Proof.
  pose proof (header_ok_wf ok) as wf. intros (Q & O & R).
  split; [by apply queue_ok_ChangeReadyState|].
  split; [by apply one_running_ChangeReadyState|].
  by apply registered_ChangeReadyState.
Qed.

Lemma sched_ok_Resume h k : sched_ok k -> sched_ok (ResumeThreadFromWait h k).
Proof.
  pose proof (header_ok_wf ok) as wf. intros (Q & O & R).
  split; [by apply queue_ok_ResumeThreadFromWait|].
  split; [by apply one_running_ResumeThreadFromWait|].
  by apply registered_ResumeThreadFromWait.
Qed.

(** What every resume keeps, the loop of [StopThread] keeps. *)
Lemma StopThread_wake_keeps (P : Kernel -> Prop) handle ws k k' :
  (forall w k, P k -> P (ResumeThreadFromWait w k)) ->
  StopThread_wake handle ws k = Some k' -> P k -> P k'.
Proof.
  intros HP. revert k. induction ws as [|w ws IH]; intros k; simpl.
  { by intros [= <-]. }
  destruct (VerifyWait k w WAITTYPE_THREADEND handle) as [v|]; [|done].
  intros E Pk. apply (IH _ E). destruct v; [by apply HP|done].
Qed.

Lemma ArbitrateAll_loop_keeps (P : Kernel -> Prop) arbiter l k k' :
  (forall w k, P k -> P (ResumeThreadFromWait w k)) ->
  ArbitrateAll_loop arbiter l k = Some k' -> P k -> P k'.
Proof.
  intros HP. revert k. induction l as [|w l IH]; intros k; simpl.
  { by intros [= <-]. }
  destruct (VerifyWait k w WAITTYPE_ARB arbiter) as [v|]; [|done].
  intros E Pk. apply (IH _ E). destruct v; [by apply HP|done].
Qed.

End StopAndArbitrate.

(** X6. When [StopThread] returns, the scheduler's invariants are kept, the
    stopped thread is dormant and [NextThread] does not return it. *)
Theorem StopThread_keeps `{hdr : ThreadHeader} (handle : Handle) (k k' : Kernel) :
  header_ok = true -> sched_ok k -> StopThread handle k = Some k' ->
  sched_ok k'
  /\ (status <$> Get_Thread k' handle) = Some THREADSTATUS_DORMANT
  /\ (NextThread k').1 <> Some handle.
Proof.
  intros ok S. pose proof (header_ok_wf ok) as wf.
  unfold StopThread, GetFast_Thread.
  destruct (Get_Thread k handle) as [t|] eqn:E; [simpl|done].
  set (k1 := ChangeReadyState handle false k).
  set (k2 := update_thread handle (set_status THREADSTATUS_DORMANT) k1).
  destruct (StopThread_wake handle (waiting_threads t) k2) as [k3|] eqn:W;
    [simpl|done].
  intros [= <-].
  assert (S1 : sched_ok k1) by by apply sched_ok_ChangeReadyState.
  assert (S2 : sched_ok k2).
  { destruct S1 as (Q1 & O1 & R1). split; [|split].
    - apply queue_ok_update_unqueued; [|done].
      destruct S as (Q & _). by apply ChangeReadyState_false_unqueues.
    - apply one_running_update; [|done]. intros th R.
      by rewrite (IsRunning_DORMANT wf (set_status THREADSTATUS_DORMANT th)) in R.
    - by apply registered_update. }
  assert (S3 : sched_ok k3).
  { apply (StopThread_wake_keeps sched_ok _ _ _ _ (sched_ok_Resume ok) W S2). }
  assert (D2 : exists t2, Get_Thread k2 handle = Some t2
                          /\ status t2 = THREADSTATUS_DORMANT).
  { exists (set_status THREADSTATUS_DORMANT t). split; [|done]. unfold k2, k1.
    rewrite Get_Thread_update_thread, decide_True by done.
    rewrite Get_Thread_ChangeReadyState, decide_True, E by done. simpl.
    by rewrite andb_false_r. }
  assert (D3 : exists t3, Get_Thread k3 handle = Some t3
                          /\ status t3 = THREADSTATUS_DORMANT).
  { refine (StopThread_wake_keeps
              (fun k => exists t', Get_Thread k handle = Some t'
                                   /\ status t' = THREADSTATUS_DORMANT)
              _ _ _ _ _ W D2).
    intros w k0 (t' & E' & D'). exists t'. split; [|done].
    rewrite Get_Thread_ResumeThreadFromWait. case_decide; [subst|done].
    rewrite E'. simpl. by rewrite (resumed_dormant wf). }
  destruct D3 as (t3 & E3 & St3).
  set (k4 := update_thread handle (set_wait_handle 0)
               (update_thread handle (set_wait_type WAITTYPE_NONE)
                  (update_thread handle (set_waiting_threads []) k3))).
  assert (S4 : sched_ok k4).
  { unfold k4. by do 3 (apply sched_ok_update_waits; [done|]). }
  assert (E4 : Get_Thread k4 handle
               = Some (set_wait_handle 0
                         (set_wait_type WAITTYPE_NONE
                            (set_waiting_threads [] t3)))).
  { unfold k4. rewrite !Get_Thread_update_thread, !decide_True by done.
    by rewrite E3. }
  split; [done|]. split; [by rewrite E4; simpl; rewrite St3|].
  intros Hn. destruct (NextThread_pops _ _ Hn) as (p & rest & Hp & _).
  destruct S4 as (Q4 & _).
  eapply (not_ready_not_queued k4 handle); [done|exact E4| |].
  - by apply (IsReady_DORMANT wf).
  - exists p, (handle :: rest). split; [done|]. apply list_elem_of_here.
Qed.

Section ArbitrationMore.

Context `{hdr : ThreadHeader}.

Lemma ArbitrateAll_loop_fold k0 arbiter l k :
  same_waits k0 k ->
  (forall w, w ∈ l -> is_Some (Get_Thread k0 w)) ->
  ArbitrateAll_loop arbiter l k
  = Some (foldl (fun k w => ResumeThreadFromWait w k) k
            (filter (fun w => wait_matches k0 WAITTYPE_ARB arbiter w = true) l)).
Proof.
  revert k. induction l as [|w l IH]; intros k S A; simpl; [done|].
  destruct (same_waits_is_Some _ _ w S) as [t E];
    [apply A, list_elem_of_here|].
  rewrite (VerifyWait_wait_matches _ _ _ _ _ E), (same_waits_matches _ _ _ _ _ S).
  rewrite filter_cons.
  destruct (wait_matches k0 WAITTYPE_ARB arbiter w) eqn:M.
  - rewrite decide_True by done. simpl. apply IH.
    + eapply same_waits_trans; [done|apply same_waits_Resume].
    + intros x Hx. by apply A, list_elem_of_further.
  - rewrite decide_False by done. apply IH; [done|].
    intros x Hx. by apply A, list_elem_of_further.
Qed.

(** The scan ends on the pair it began with or on a thread of the list
    whose wait is on the arbiter. *)
Lemma Arbitrate_scan_pick k arbiter l best r :
  Arbitrate_scan k arbiter l best = Some r ->
  r = best
  \/ (r.1 ∈ l /\ wait_matches k WAITTYPE_ARB arbiter r.1 = true).
Proof.
  revert best. induction l as [|h l IH]; intros best; simpl.
  { intros [= <-]. by left. }
  destruct (VerifyWait k h WAITTYPE_ARB arbiter) as [v|] eqn:V; [|done].
  assert (M : v = true -> wait_matches k WAITTYPE_ARB arbiter h = true).
  { intros ->. rewrite VerifyWait_matches in V. unfold GetFast_Thread in V.
    unfold wait_matches. destruct (Get_Thread k h); simpl in *; congruence. }
  destruct v; simpl.
  - destruct (GetFast_Thread k h) as [t|]; [|done].
    destruct (current_priority t <=? best.2); intros E;
      destruct (IH _ E) as [->|[I W]].
    + right. split; [apply list_elem_of_here|by apply M].
    + right. split; [by apply list_elem_of_further|done].
    + by left.
    + right. split; [by apply list_elem_of_further|done].
  - intros E. destruct (IH _ E) as [->|[I W]]; [by left|].
    right. split; [by apply list_elem_of_further|done].
Qed.

End ArbitrationMore.

(** X7. On a registry whose handles name threads, [ArbitrateAllThreads]
    returns; it resumes, in registry order, exactly the threads whose wait
    is of type arbitration on the arbiter. None of them is left with the
    wait flag, no other thread changes, and the scheduler's invariants are
    kept. *)
Theorem ArbitrateAllThreads_spec `{hdr : ThreadHeader} (arbiter address : Z)
    (k : Kernel) :
  header_ok = true -> registered k ->
  let woken :=
    filter (fun h => wait_matches k WAITTYPE_ARB arbiter h = true)
      (g_thread_queue k) in
  exists k',
    ArbitrateAllThreads arbiter address k = Some k'
    /\ k' = foldl (fun k w => ResumeThreadFromWait w k) k woken
    /\ (forall h, h ∈ woken -> Get_Thread k' h = resumed <$> Get_Thread k h)
    /\ (forall h, h ∉ woken -> Get_Thread k' h = Get_Thread k h)
    /\ (forall h t', h ∈ woken -> Get_Thread k' h = Some t' ->
          IsWaiting t' = false)
    /\ (sched_ok k -> sched_ok k').
Proof.
  intros ok R woken. pose proof (header_ok_wf ok) as wf.
  assert (A : forall w, w ∈ g_thread_queue k -> is_Some (Get_Thread k w)).
  { intros w. by apply registered_elem. }
  pose proof (ArbitrateAll_loop_fold k arbiter (g_thread_queue k) k
                (same_waits_refl k) A) as F.
  fold woken in F. eexists. split; [exact F|]. split; [done|].
  assert (T : forall h, h ∈ woken ->
                Get_Thread (foldl (fun k w => ResumeThreadFromWait w k) k woken) h
                = resumed <$> Get_Thread k h).
  { intros h I. by rewrite (Get_Thread_foldl_resume wf), decide_True. }
  split; [done|]. split.
  { intros h I. by rewrite (Get_Thread_foldl_resume wf), decide_False. }
  split.
  { intros h t' I E. rewrite (T h I) in E.
    destruct (Get_Thread k h) as [t|]; [|done]. injection E as <-.
    destruct (resumed_fix wf t) as (_ & _ & Z). unfold IsWaiting.
    by rewrite Z. }
  intros S. eapply (ArbitrateAll_loop_keeps sched_ok); [|exact F|done].
  intros w k0. by apply sched_ok_Resume.
Qed.

(** X8. Whatever [ArbitrateHighestPriorityThread] returns, the scheduler's
    invariants are kept. With the handle 0 the state is as it was; any
    other handle returned is registered, its thread waited on the arbiter,
    and it is left without the wait flag. *)
Theorem ArbitrateHighestPriorityThread_keeps `{hdr : ThreadHeader}
    (arbiter address : Z) (k k' : Kernel) (h : Handle) :
  header_ok = true -> sched_ok k ->
  ArbitrateHighestPriorityThread arbiter address k = Some (h, k') ->
  sched_ok k'
  /\ (h = 0 -> k' = k)
  /\ (h <> 0 ->
      h ∈ g_thread_queue k
      /\ wait_matches k WAITTYPE_ARB arbiter h = true
      /\ exists t', Get_Thread k' h = Some t' /\ IsWaiting t' = false).
Proof.
  intros ok S. pose proof (header_ok_wf ok) as wf.
  unfold ArbitrateHighestPriorityThread.
  destruct (Arbitrate_scan k arbiter (g_thread_queue k) (0, THREADPRIO_LOWEST))
    as [r|] eqn:E; [|done].
  cbn -[Z.eqb]. destruct (Z.eqb_spec 0 r.1) as [Z|Z]; simpl; intros [= <- <-].
  - split; [done|]. split; [done|]. congruence.
  - split; [by apply sched_ok_Resume|]. split; [congruence|]. intros _.
    destruct (Arbitrate_scan_pick _ _ _ _ _ E) as [->|[I W]]; [done|].
    split; [done|]. split; [done|].
    rewrite Get_Thread_ResumeThreadFromWait, decide_True by done.
    unfold wait_matches in W. destruct (Get_Thread k r.1) as [t|]; [|done].
    exists (resumed t). split; [done|].
    destruct (resumed_fix wf t) as (_ & _ & Zw). unfold IsWaiting.
    by rewrite Zw.
Qed.

(** ** Priorities *)

Section Priority.

Context `{hdr : ThreadHeader}.

(** The status [SetThreadPriority] leaves: a running thread yields. *)
Lemma CLAMP_id x lo hi :
  (x <? lo) || (x >? hi) = false -> CLAMP x lo hi = x.
Proof.
  intros [A B]%orb_false_iff. unfold CLAMP. by rewrite B, A.
Qed.

(** [SetThreadPriority], once the thread is found, step by step. [thread]
    is where the pointer leads, [handle] what the queue is called with. *)
Lemma SetThreadPriority_unfold handle priority k thread th :
  (if handle =? 0 then GetCurrentThread k
   else (GetFast_Thread k handle ≫= fun _ => Some handle)) = Some thread ->
  Get_Thread k thread = Some th ->
  let prio := CLAMP priority THREADPRIO_HIGHEST THREADPRIO_LOWEST in
  let k1 := if (priority <? THREADPRIO_HIGHEST) || (priority >? THREADPRIO_LOWEST)
            then log_msg LOG_WARN k else k in
  let kA := update_thread thread (set_current_priority prio)
              (set_ready_queue
                 (ThreadQueueList.prepare prio
                    (ThreadQueueList.remove (current_priority th) handle
                       (g_thread_ready_queue k))) k1) in
  let yield := set_status
                 (Z.lor (Z.land (status th) (Z.lnot THREADSTATUS_RUNNING))
                    THREADSTATUS_READY) in
  let kB := if IsRunning th then update_thread thread yield kA else kA in
  let th' := (if IsRunning th then yield else id) (set_current_priority prio th) in
  SetThreadPriority handle priority k
  = Some (0, if IsReady th'
             then set_ready_queue
                    (ThreadQueueList.push_back prio handle
                       (g_thread_ready_queue kB)) kB
             else kB).
Proof.
  intros R G prio k1 kA yield kB th'.
  assert (GB : Get_Thread kB thread = Some th').
  { unfold kB, th'. destruct (IsRunning th).
    - rewrite Get_Thread_update_thread, decide_True by done. unfold kA.
      rewrite Get_Thread_update_thread, decide_True by done.
      rewrite Get_Thread_set_ready_queue. unfold k1.
      destruct (_ || _); rewrite ?Get_Thread_log_msg, G; done.
    - unfold kA.
      rewrite Get_Thread_update_thread, decide_True by done.
      rewrite Get_Thread_set_ready_queue. unfold k1.
      destruct (_ || _); rewrite ?Get_Thread_log_msg, G; done. }
  assert (P : current_priority th' = prio).
  { unfold th'. by destruct (IsRunning th). }
  unfold SetThreadPriority.
  rewrite R. cbn [mbind option_bind]. rewrite G. cbn [mbind option_bind].
  destruct ((priority <? THREADPRIO_HIGHEST) || (priority >? THREADPRIO_LOWEST))
    eqn:C.
  - transitivity
      (Get_Thread kB thread
       ≫= fun t : Thread =>
            Some (0, if IsReady t
                     then set_ready_queue
                            (ThreadQueueList.push_back (current_priority t)
                               handle (g_thread_ready_queue kB)) kB
                     else kB)); [reflexivity|].
    rewrite GB. cbn [mbind option_bind]. by rewrite P.
  - assert (E : priority = prio) by (symmetry; by apply CLAMP_id).
    clearbody prio. subst priority.
    transitivity
      (Get_Thread kB thread
       ≫= fun t : Thread =>
            Some (0, if IsReady t
                     then set_ready_queue
                            (ThreadQueueList.push_back (current_priority t)
                               handle (g_thread_ready_queue kB)) kB
                     else kB)); [reflexivity|].
    rewrite GB. cbn [mbind option_bind]. by rewrite P.
Qed.

End Priority.

Section PriorityKeeps.

Context `{hdr : ThreadHeader} (wf : flags_wf).

Lemma IsReady_yield s t :
  IsReady
    (set_status (Z.lor (Z.land s (Z.lnot THREADSTATUS_RUNNING)) THREADSTATUS_READY) t)
  = true.
Proof.
  unfold IsReady. simpl. rewrite Z.land_lor_distr_l, Z.land_diag.
  apply negb_true_iff, Z.eqb_neq. intros [_ E]%Z.lor_eq_0_iff.
  pose proof (ready_pos wf). lia.
Qed.

Lemma IsRunning_yield s t :
  IsRunning
    (set_status (Z.lor (Z.land s (Z.lnot THREADSTATUS_RUNNING)) THREADSTATUS_READY) t)
  = false.
Proof.
  unfold IsRunning. simpl.
  by rewrite Z.land_lor_distr_l, land_lnot_self, (Z.land_comm THREADSTATUS_READY),
    (running_ready wf).
Qed.

(** Where a handle that is in no bucket lands when it is pushed. *)
Lemma push_back_lookup p h (q : gmap Z (list Handle)) :
  ~ queued q h ->
  exists b, ThreadQueueList.push_back p h q !! p = Some (b ++ [h]) /\ h ∉ b.
Proof.
  intros N. exists (ThreadQueueList.bucket q p). split.
  - unfold ThreadQueueList.push_back. by rewrite lookup_insert_eq.
  - unfold ThreadQueueList.bucket. destruct (q !! p) as [b|] eqn:E; simpl.
    + intros I. apply N. by exists p, b.
    + apply not_elem_of_nil.
Qed.

End PriorityKeeps.

(** X9. [SetThreadPriority] on a handle other than 0 that names a thread
    returns 0 and keeps the scheduler's invariants. The thread gets the
    priority clamped into the valid range, which [GetThreadPriority] then
    reports; a running thread loses the running flag and becomes ready. No
    other thread changes. A thread that was ready or running ends at the
    back of the bucket of its new priority, any other thread in no bucket. *)
Theorem SetThreadPriority_spec `{hdr : ThreadHeader} (handle : Handle)
    (priority : Z) (k : Kernel) (th : Thread) :
  header_ok = true -> sched_ok k -> handle <> 0 ->
  Get_Thread k handle = Some th ->
  let prio := CLAMP priority THREADPRIO_HIGHEST THREADPRIO_LOWEST in
  let th' :=
    (if IsRunning th
     then set_status
            (Z.lor (Z.land (status th) (Z.lnot THREADSTATUS_RUNNING))
               THREADSTATUS_READY)
     else id) (set_current_priority prio th) in
  exists k',
    SetThreadPriority handle priority k = Some (0, k')
    /\ sched_ok k'
    /\ THREADPRIO_HIGHEST <= prio <= THREADPRIO_LOWEST
    /\ Get_Thread k' handle = Some th'
    /\ (forall h, h <> handle -> Get_Thread k' h = Get_Thread k h)
    /\ GetThreadPriority handle k' = Some (to_u32 prio)
    /\ (if IsReady th || IsRunning th
        then exists b,
               g_thread_ready_queue k' !! prio = Some (b ++ [handle])
               /\ handle ∉ b
        else ~ queued (g_thread_ready_queue k') handle).
Proof.
  intros ok (Q & O & Rg) N G prio th'. pose proof (header_ok_wf ok) as wf.
  assert (R : (if handle =? 0 then GetCurrentThread k
               else (GetFast_Thread k handle ≫= fun _ => Some handle))
              = Some handle).
  { rewrite (proj2 (Z.eqb_neq _ _) N). unfold GetFast_Thread. by rewrite G. }
  pose proof (SetThreadPriority_unfold handle priority k handle th R G) as U.
  cbv zeta in U. fold prio in U. fold th' in U.
  set (k1 := if (priority <? THREADPRIO_HIGHEST) || (priority >? THREADPRIO_LOWEST)
             then log_msg LOG_WARN k else k) in U.
  assert (Q1 : queue_ok k1) by (unfold k1; destruct (_ || _); done).
  assert (O1 : one_running k1) by (unfold k1; destruct (_ || _); done).
  assert (R1 : registered k1) by (unfold k1; destruct (_ || _); done).
  assert (G1 : forall h, Get_Thread k1 h = Get_Thread k h)
    by (unfold k1; destruct (_ || _); done).
  replace (g_thread_ready_queue k) with (g_thread_ready_queue k1) in U
    by (unfold k1; by destruct (_ || _)).
  clearbody k1.
  set (K2 := set_ready_queue
               (ThreadQueueList.remove (current_priority th) handle
                  (g_thread_ready_queue k1)) k1).
  assert (Q2 : queue_ok K2) by by apply queue_ok_remove.
  assert (N2 : ~ queued (g_thread_ready_queue K2) handle).
  { apply remove_unqueues; [done|]. by rewrite G1. }
  set (K3 := set_ready_queue
               (ThreadQueueList.prepare prio (g_thread_ready_queue K2)) K2).
  assert (Q3 : queue_ok K3) by by apply queue_ok_prepare.
  assert (N3 : ~ queued (g_thread_ready_queue K3) handle).
  { intros I. by apply queued_prepare in I. }
  set (kA := update_thread handle (set_current_priority prio) K3).
  assert (QA : queue_ok kA) by by apply queue_ok_update_unqueued.
  assert (OA : one_running kA).
  { apply one_running_update; [done|]. by apply one_running_set_ready_queue. }
  assert (RA : registered kA) by by apply registered_update.
  change (update_thread handle (set_current_priority prio) _) with kA in U.
  set (kB := if IsRunning th then update_thread handle _ kA else kA) in U.
  assert (QB : queue_ok kB).
  { unfold kB. destruct (IsRunning th); [|done].
    by apply queue_ok_update_unqueued. }
  assert (OB : one_running kB).
  { unfold kB. destruct (IsRunning th); [|done].
    apply one_running_update; [|done]. intros t.
    by rewrite (IsRunning_yield wf). }
  assert (RB : registered kB).
  { unfold kB. destruct (IsRunning th); [|done]. by apply registered_update. }
  assert (NB : ~ queued (g_thread_ready_queue kB) handle).
  { unfold kB. by destruct (IsRunning th). }
  assert (GB : forall h, Get_Thread kB h
                         = if decide (handle = h) then Some th'
                           else Get_Thread k h).
  { assert (GA : forall h, Get_Thread kA h
                           = if decide (handle = h)
                             then Some (set_current_priority prio th)
                             else Get_Thread k h).
    { intros h. unfold kA. rewrite Get_Thread_update_thread.
      change (Get_Thread K3) with (Get_Thread k1). rewrite !G1, G.
      by case_decide. }
    intros h. unfold kB, th'. destruct (IsRunning th); [|apply GA].
    rewrite Get_Thread_update_thread, !GA.
    case_decide; [|done]. by rewrite decide_True. }
  assert (P : current_priority th' = prio).
  { unfold th'. by destruct (IsRunning th). }
  assert (Y : IsReady th' = IsReady th || IsRunning th).
  { unfold th'. destruct (IsRunning th).
    - by rewrite (IsReady_yield wf), orb_true_r.
    - by rewrite orb_false_r. }
  eexists. split; [exact U|]. rewrite Y.
  pose proof (CLAMP_range priority _ _ (prio_range wf)) as [CR _].
  destruct (IsReady th || IsRunning th) eqn:E.
  - assert (GK : forall h,
               Get_Thread
                 (set_ready_queue
                    (ThreadQueueList.push_back prio handle
                       (g_thread_ready_queue kB)) kB) h
               = if decide (handle = h) then Some th' else Get_Thread k h)
      by apply GB.
    split; [|split; [done|split; [|split; [|split]]]].
    + split; [|split].
      * pose proof (queue_ok_push false kB handle th' (status th') QB) as QP.
        rewrite P, update_thread_id in QP.
        -- apply QP; [by rewrite GB, decide_True|done|].
           by rewrite set_status_same, Y.
        -- intros t Ht. rewrite GK, decide_True in Ht by done.
           injection Ht as <-. apply set_status_same.
      * by apply one_running_set_ready_queue.
      * done.
    + by rewrite GK, decide_True.
    + intros h Hh. rewrite GK, decide_False; done.
    + unfold GetThreadPriority, GetFast_Thread.
      rewrite GK, decide_True by done. simpl. by rewrite P.
    + by apply push_back_lookup.
  - split; [done|]. split; [done|]. split; [by rewrite GB, decide_True|].
    split; [intros h Hh; rewrite GB, decide_False; done|]. split; [|done].
    unfold GetThreadPriority, GetFast_Thread.
    rewrite GB, decide_True by done. simpl. by rewrite P.
Qed.

Lemma queued_push_back_other p h (q : gmap Z (list Handle)) h' :
  h' <> h -> queued (ThreadQueueList.push_back p h q) h' -> queued q h'.
Proof.
  intros D (p' & b & E & I). unfold ThreadQueueList.push_back in E.
  destruct (decide (p = p')) as [<-|Np].
  - rewrite lookup_insert_eq in E. injection E as <-.
    apply elem_of_app in I as [I|I%list_elem_of_singleton]; [|done].
    unfold ThreadQueueList.bucket in I.
    destruct (q !! p) as [b|] eqn:Eb; simpl in I.
    + by exists p, b.
    + by apply elem_of_nil in I.
  - rewrite lookup_insert_ne in E by done. by exists p', b.
Qed.

(** X10. [SetThreadPriority] with the handle 0 changes the current thread,
    but calls the ready queue with the handle 0 itself. A running current
    thread comes out ready, with the clamped priority and without the
    running flag, and yet in no bucket of the ready queue: it is the handle
    0 that stands at the back of the bucket of that priority. *)
Theorem SetThreadPriority_current `{hdr : ThreadHeader} (priority : Z)
    (k : Kernel) (c : Handle) (th : Thread) :
  header_ok = true -> sched_ok k ->
  g_current_thread k = Some c -> c <> 0 ->
  Get_Thread k c = Some th -> IsRunning th = true ->
  let prio := CLAMP priority THREADPRIO_HIGHEST THREADPRIO_LOWEST in
  exists k' th',
    SetThreadPriority 0 priority k = Some (0, k')
    /\ Get_Thread k' c = Some th'
    /\ current_priority th' = prio
    /\ IsReady th' = true /\ IsRunning th' = false
    /\ ~ queued (g_thread_ready_queue k') c
    /\ exists b, g_thread_ready_queue k' !! prio = Some (b ++ [0]).
Proof.
  intros ok (Q & O & Rg) C N G Run prio. pose proof (header_ok_wf ok) as wf.
  assert (R : (if 0 =? 0 then GetCurrentThread k
               else (GetFast_Thread k 0 ≫= fun _ => Some 0)) = Some c)
    by done.
  pose proof (SetThreadPriority_unfold 0 priority k c th R G) as U.
  cbv zeta in U. fold prio in U. rewrite Run in U.
  rewrite (IsReady_yield wf) in U.
  assert (NQ : ~ queued (g_thread_ready_queue k) c).
  { apply (not_ready_not_queued k c th); [done..|].
    by apply (proj1 (one_running_spec k) O c th). }
  eexists. eexists. split; [exact U|].
  split.
  { change (Get_Thread (set_ready_queue ?q ?x) c) with (Get_Thread x c).
    rewrite !Get_Thread_update_thread, !decide_True by done.
    rewrite Get_Thread_set_ready_queue.
    destruct (_ || _); rewrite ?Get_Thread_log_msg, G; done. }
  split; [done|]. split; [apply (IsReady_yield wf)|].
  split; [apply (IsRunning_yield wf)|]. split.
  - intros I. apply NQ. simpl in I.
    apply queued_push_back_other in I; [|done].
    apply queued_prepare in I. by apply queued_remove in I.
  - simpl. unfold ThreadQueueList.push_back. rewrite lookup_insert_eq. eauto.
Qed.

(** ** Context switches *)

Section Switch.

Context `{hdr : ThreadHeader} (ok : header_ok = true).

Lemma IsRunning_run s t :
  IsRunning
    (set_status
       (Z.land (Z.lor s THREADSTATUS_RUNNING) (Z.lnot THREADSTATUS_READY)) t)
  = true.
Proof.
  pose proof (header_ok_wf ok) as wf.
  unfold IsRunning. simpl.
  rewrite <- Z.land_assoc, (Z.land_comm (Z.lnot _)),
    (land_lnot_disjoint _ _ (running_ready wf)), Z.land_lor_distr_l, Z.land_diag.
  apply negb_true_iff, Z.eqb_neq. intros [_ E]%Z.lor_eq_0_iff.
  pose proof (running_pos wf). lia.
Qed.

Lemma IsReady_run s t :
  IsReady
    (set_status
       (Z.land (Z.lor s THREADSTATUS_RUNNING) (Z.lnot THREADSTATUS_READY)) t)
  = false.
Proof. unfold IsReady. simpl. by rewrite land_lnot_self. Qed.

(** The first half of [SwitchContext]: the context of the current thread
    is saved, and the thread made ready if it ran. Afterwards no thread
    runs. *)
Lemma switch_save k c tc ctx :
  sched_ok k -> g_current_thread k = Some c -> Get_Thread k c = Some tc ->
  let k0 := update_thread c (set_context ctx) k in
  let k1 := if IsRunning tc then ChangeReadyState c true k0 else k0 in
  sched_ok k1
  /\ g_current_thread k1 = Some c
  /\ g_thread_queue k1 = g_thread_queue k
  /\ (forall h, Get_Thread k1 h
                = if decide (c = h)
                  then Some ((if IsRunning tc
                              then set_status THREADSTATUS_READY else id)
                               (set_context ctx tc))
                  else Get_Thread k h)
  /\ (forall h t', Get_Thread k1 h = Some t' -> IsRunning t' = false)
  /\ g_thread_ready_queue k1
     = if IsRunning tc
       then ThreadQueueList.push_front (current_priority tc) c
              (g_thread_ready_queue k)
       else g_thread_ready_queue k.
Proof.
  intros S C G k0 k1. pose proof (header_ok_wf ok) as wf.
  pose proof S as (Q & O & R).
  pose proof (proj1 (one_running_spec k) O) as O'.
  assert (S0 : sched_ok k0) by (by apply sched_ok_update_waits).
  assert (G0 : forall h, Get_Thread k0 h
                         = if decide (c = h) then Some (set_context ctx tc)
                           else Get_Thread k h).
  { intros h. unfold k0. rewrite Get_Thread_update_thread, G.
    by case_decide. }
  assert (T : forall h, Get_Thread k1 h
                = if decide (c = h)
                  then Some ((if IsRunning tc
                              then set_status THREADSTATUS_READY else id)
                               (set_context ctx tc))
                  else Get_Thread k h).
  { intros h. unfold k1. destruct (IsRunning tc) eqn:Run; [|apply G0].
    rewrite Get_Thread_ChangeReadyState. case_decide; [subst h|by rewrite G0, decide_False].
    rewrite G0, decide_True by done. simpl.
    destruct (O' c tc G Run) as [_ NR].
    change (IsReady (set_context ctx tc)) with (IsReady tc). by rewrite NR. }
  split; [|split; [|split; [|split; [done|split]]]].
  - unfold k1. destruct (IsRunning tc); [|done].
    by apply sched_ok_ChangeReadyState.
  - unfold k1. destruct (IsRunning tc); [|done].
    unfold ChangeReadyState. destruct (Get_Thread k0 c); [|done].
    by repeat case_match.
  - unfold k1. destruct (IsRunning tc); [|done].
    unfold ChangeReadyState. destruct (Get_Thread k0 c); [|done].
    by repeat case_match.
  - intros h t'. rewrite T. case_decide as D.
    + intros [= <-]. destruct (IsRunning tc) eqn:Run.
      * apply (IsRunning_READY wf).
      * done.
    + intros E. destruct (IsRunning t') eqn:Run; [|done].
      destruct (O' h t' E Run) as [C' _]. congruence.
  - unfold k1. destruct (IsRunning tc) eqn:Run; [|done].
    destruct (O' c tc G Run) as [_ NR].
    unfold ChangeReadyState. rewrite G0, decide_True by done.
    change (IsReady (set_context ctx tc)) with (IsReady tc).
    change (IsRunning (set_context ctx tc)) with (IsRunning tc).
    by rewrite NR, Run.
Qed.

(** The second half: the thread [t] is made the current thread and set
    running. *)
Lemma switch_load k1 t t1 :
  queue_ok k1 -> registered k1 ->
  (forall h t', Get_Thread k1 h = Some t' -> IsRunning t' = false) ->
  Get_Thread k1 t = Some t1 ->
  let k3 := ChangeReadyState t false (set_current_thread (Some t) k1) in
  let k5 := update_thread t (set_wait_type WAITTYPE_NONE)
              (update_thread t
                 (set_status
                    (Z.land (Z.lor (status t1) THREADSTATUS_RUNNING)
                       (Z.lnot THREADSTATUS_READY))) k3) in
  let tt' := set_wait_type WAITTYPE_NONE
               (set_status
                  (Z.land (Z.lor (status t1) THREADSTATUS_RUNNING)
                     (Z.lnot THREADSTATUS_READY)) t1) in
  Get_Thread k3 t = Some t1
  /\ sched_ok k5
  /\ g_current_thread k5 = Some t
  /\ (forall h, Get_Thread k5 h
                = if decide (t = h) then Some tt' else Get_Thread k1 h)
  /\ ~ queued (g_thread_ready_queue k5) t
  /\ g_thread_ready_queue k5
     = if IsReady t1
       then ThreadQueueList.remove (current_priority t1) t
              (g_thread_ready_queue k1)
       else g_thread_ready_queue k1.
Proof.
  intros Q R NR G k3 k5 tt'. pose proof (header_ok_wf ok) as wf.
  assert (G3 : forall h, Get_Thread k3 h = Get_Thread k1 h).
  { intros h. unfold k3. rewrite Get_Thread_ChangeReadyState.
    change (Get_Thread (set_current_thread (Some t) k1)) with (Get_Thread k1).
    case_decide; [subst|done]. rewrite G. simpl.
    by rewrite andb_false_r. }
  assert (Q3 : queue_ok k3).
  { apply queue_ok_ChangeReadyState; [done|]. by apply queue_ok_set_current. }
  assert (N3 : ~ queued (g_thread_ready_queue k3) t).
  { apply ChangeReadyState_false_unqueues. by apply queue_ok_set_current. }
  assert (C3 : g_current_thread k3 = Some t).
  { unfold k3, ChangeReadyState.
    destruct (Get_Thread _ t); [|done]. by repeat case_match. }
  assert (T3 : g_thread_queue k3 = g_thread_queue k1).
  { unfold k3, ChangeReadyState.
    destruct (Get_Thread _ t); [|done]. by repeat case_match. }
  assert (G5 : forall h, Get_Thread k5 h
                = if decide (t = h) then Some tt' else Get_Thread k1 h).
  { intros h. unfold k5. rewrite !Get_Thread_update_thread.
    case_decide; [subst|by rewrite G3].
    rewrite decide_True, G3, G by done. done. }
  split; [by rewrite G3|]. split; [|split; [done|split; [done|split; [done|]]]].
  - split; [|split].
    + apply queue_ok_update_keep; [by intros th|].
      by apply queue_ok_update_unqueued.
    + apply one_running_spec. intros h t' E Run.
      rewrite G5 in E. case_decide as D.
      * subst h. injection E as <-. split; [done|].
        apply IsReady_run.
      * by rewrite (NR h t' E) in Run.
    + apply registered_update, registered_update.
      unfold registered in *. rewrite T3.
      eapply Forall_impl; [exact R|]. intros h. simpl. by rewrite G3.
  - change (g_thread_ready_queue k5) with (g_thread_ready_queue k3).
    unfold k3, ChangeReadyState.
    change (Get_Thread (set_current_thread (Some t) k1)) with (Get_Thread k1).
    rewrite G. by destruct (IsReady t1).
Qed.

End Switch.

(** What [SwitchContext] does on a thread, in full. *)
Lemma SwitchContext_run `{hdr : ThreadHeader} `{core : ArmCore} (t : Handle)
    (m : Machine) (tt : Thread) :
  header_ok = true -> sched_ok (kernel m) ->
  Get_Thread (kernel m) t = Some tt ->
  (forall c, g_current_thread (kernel m) = Some c ->
             is_Some (Get_Thread (kernel m) c)) ->
  exists (m' : Machine) (tt' : Thread),
       SwitchContext (Some t) m = Some m'
       /\ sched_ok (kernel m')
       /\ g_current_thread (kernel m') = Some t
       /\ Get_Thread (kernel m') t = Some tt'
       /\ IsRunning tt' = true /\ IsReady tt' = false
       /\ wait_type tt' = WAITTYPE_NONE
       /\ g_app_core m' = core_LoadContext (context tt') (g_app_core m)
       /\ g_reschedule m' = g_reschedule m /\ switches m' = switches m
       /\ ~ queued (g_thread_ready_queue (kernel m')) t
       /\ (forall h, h <> t -> g_current_thread (kernel m) <> Some h ->
             Get_Thread (kernel m') h = Get_Thread (kernel m) h)
       /\ (forall c tc,
             g_current_thread (kernel m) = Some c -> c <> t ->
             Get_Thread (kernel m) c = Some tc ->
             Get_Thread (kernel m') c
             = Some ((if IsRunning tc
                      then set_status THREADSTATUS_READY else id)
                       (set_context
                          (core_SaveContext (g_app_core m) (context tc)) tc))
             /\ (IsRunning tc = true ->
                 exists b,
                   g_thread_ready_queue (kernel m') !! current_priority tc
                   = Some (c :: b))).
Proof.
  intros ok S G H. pose proof (header_ok_wf ok) as wf.
  assert (P1 : exists k1,
    match GetCurrentThread (kernel m) with
    | Some c =>
        Get_Thread (kernel m) c ≫= fun th =>
          Some (set_kernel
                  (if IsRunning th
                   then ChangeReadyState c true
                          (update_thread c
                             (set_context
                                (core_SaveContext (g_app_core m) (context th)))
                             (kernel m))
                   else update_thread c
                          (set_context
                             (core_SaveContext (g_app_core m) (context th)))
                          (kernel m)) m)
    | None => Some m
    end = Some (set_kernel k1 m)
    /\ queue_ok k1 /\ registered k1
    /\ (forall h t', Get_Thread k1 h = Some t' -> IsRunning t' = false)
    /\ (forall h, g_current_thread (kernel m) <> Some h ->
          Get_Thread k1 h = Get_Thread (kernel m) h)
    /\ (forall c tc,
          g_current_thread (kernel m) = Some c ->
          Get_Thread (kernel m) c = Some tc ->
          Get_Thread k1 c
          = Some ((if IsRunning tc
                   then set_status THREADSTATUS_READY else id)
                    (set_context
                       (core_SaveContext (g_app_core m) (context tc)) tc))
          /\ (IsRunning tc = true ->
              g_thread_ready_queue k1
              = ThreadQueueList.push_front (current_priority tc) c
                  (g_thread_ready_queue (kernel m))))).
  { unfold GetCurrentThread.
    destruct (g_current_thread (kernel m)) as [c|] eqn:C.
    - destruct (H c eq_refl) as [tc Gc]. rewrite Gc. cbn [mbind option_bind].
      destruct (switch_save ok (kernel m) c tc
                  (core_SaveContext (g_app_core m) (context tc)) S C Gc)
        as ((Q1 & O1 & R1) & C1 & T1 & G1 & NR1 & E1).
      cbv zeta in *. eexists. split; [reflexivity|].
      split; [done|]. split; [done|]. split; [done|]. split.
      + intros h D. rewrite G1, decide_False; [done|congruence].
      + intros c' tc' [= <-] Gc'. rewrite Gc in Gc'. injection Gc' as <-.
        split; [by rewrite G1, decide_True|].
        intros Run. by rewrite E1, Run.
    - exists (kernel m). destruct S as (Q & O & R).
      split; [by destruct m|]. split; [done|]. split; [done|]. split.
      + intros h t' E. destruct (IsRunning t') eqn:Run; [|done].
        destruct (proj1 (one_running_spec _) O h t' E Run) as [C' _].
        congruence.
      + split; [done|]. intros c tc. done. }
  destruct P1 as (k1 & E1 & Q1 & R1 & NR1 & F1 & Cur1).
  assert (exists t1, Get_Thread k1 t = Some t1) as [t1 Gt].
  { destruct (decide (g_current_thread (kernel m) = Some t)) as [C|C].
    - destruct (Cur1 t tt C G) as [-> _]. eauto.
    - rewrite (F1 t C). eauto. }
  destruct (switch_load ok k1 t t1 Q1 R1 NR1 Gt)
    as (G3 & S5 & C5 & G5 & N5 & E5).
  cbv zeta in *.
  unfold SwitchContext. rewrite E1. cbn [mbind option_bind].
  unfold SetCurrentThread. cbn [mbind option_bind].
  change (kernel (set_kernel k1 m)) with k1.
  rewrite Gt. cbn [mbind option_bind]. rewrite G3. cbn [mbind option_bind].
  rewrite G5, decide_True by done. cbn [mbind option_bind].
  eexists. eexists. split; [reflexivity|].
  cbn [kernel g_app_core g_reschedule switches].
  split; [done|]. split; [done|].
  split; [by rewrite G5, decide_True|].
  split; [apply (IsRunning_run ok)|]. split; [apply IsReady_run|].
  split; [done|]. split; [done|]. split; [done|]. split; [done|].
  split; [done|]. split.
  - intros h D C. rewrite G5, decide_False by done. by apply F1.
  - intros c tc C D Gc. destruct (Cur1 c tc C Gc) as [Gc1 Qc]. split.
    + by rewrite G5, decide_False.
    + intros Run. rewrite E5, (Qc Run).
      assert (L : ThreadQueueList.push_front (current_priority tc) c
                    (g_thread_ready_queue (kernel m)) !! current_priority tc
                  = Some (c :: ThreadQueueList.bucket
                                 (g_thread_ready_queue (kernel m))
                                 (current_priority tc))).
      { unfold ThreadQueueList.push_front. by rewrite lookup_insert_eq. }
      destruct (IsReady t1); [|eauto].
      unfold ThreadQueueList.remove.
      destruct (decide (current_priority t1 = current_priority tc)) as [->|Np].
      * rewrite lookup_alter_eq, L. simpl.
        rewrite filter_cons, decide_True by done. eauto.
      * rewrite lookup_alter_ne by done. eauto.
Qed.

(** X11. [SwitchContext] on the null pointer dereferences it. On a thread
    [t], with the scheduler's invariants and a current pointer that is null
    or leads to a thread, it returns and keeps the invariants: [t] becomes
    the current thread, running and not ready, waiting on nothing and in no
    bucket, and the core is loaded with its context. The thread that was
    current has the core's context saved and, if it ran, is made ready at
    the front of the bucket of its priority. No other thread changes, nor
    does the rescheduling flag. *)
Theorem SwitchContext_spec `{hdr : ThreadHeader} `{core : ArmCore} (t : Handle)
    (m : Machine) (tt : Thread) :
  header_ok = true -> sched_ok (kernel m) ->
  Get_Thread (kernel m) t = Some tt ->
  (forall c, g_current_thread (kernel m) = Some c ->
             is_Some (Get_Thread (kernel m) c)) ->
  SwitchContext None m = None
  /\ exists (m' : Machine) (tt' : Thread),
       SwitchContext (Some t) m = Some m'
       /\ sched_ok (kernel m')
       /\ g_current_thread (kernel m') = Some t
       /\ Get_Thread (kernel m') t = Some tt'
       /\ IsRunning tt' = true /\ IsReady tt' = false
       /\ wait_type tt' = WAITTYPE_NONE
       /\ g_app_core m' = core_LoadContext (context tt') (g_app_core m)
       /\ g_reschedule m' = g_reschedule m /\ switches m' = switches m
       /\ ~ queued (g_thread_ready_queue (kernel m')) t
       /\ (forall h, h <> t -> g_current_thread (kernel m) <> Some h ->
             Get_Thread (kernel m') h = Get_Thread (kernel m) h)
       /\ (forall c tc,
             g_current_thread (kernel m) = Some c -> c <> t ->
             Get_Thread (kernel m) c = Some tc ->
             Get_Thread (kernel m') c
             = Some ((if IsRunning tc
                      then set_status THREADSTATUS_READY else id)
                       (set_context
                          (core_SaveContext (g_app_core m) (context tc)) tc))
             /\ (IsRunning tc = true ->
                 exists b,
                   g_thread_ready_queue (kernel m') !! current_priority tc
                   = Some (c :: b))).
Proof.
  intros ok S G H. split.
  - unfold SwitchContext, GetCurrentThread.
    destruct (g_current_thread (kernel m)) as [c|]; [|done].
    by destruct (Get_Thread (kernel m) c).
  - by apply (SwitchContext_run t m tt).
Qed.

(** ** Rescheduling *)

Section Resched.

Context `{hdr : ThreadHeader}.

Lemma sched_ok_NextThread k : sched_ok k -> sched_ok (NextThread k).2.
Proof.
  intros (Q & O & R).
  destruct (NextThread_frame k) as (q & -> & [->|(p & h & rest & Hp & ->)]).
  - by destruct k.
  - split; [|done]. by apply (queue_ok_pop k p h rest).
Qed.

Lemma Get_Thread_NextThread k h :
  Get_Thread (NextThread k).2 h = Get_Thread k h.
Proof. by destruct (NextThread_frame k) as (q & -> & _). Qed.

Lemma current_NextThread k :
  g_current_thread (NextThread k).2 = g_current_thread k.
Proof. by destruct (NextThread_frame k) as (q & -> & _). Qed.

Lemma NextThread_thread k n :
  queue_ok k -> (NextThread k).1 = Some n ->
  exists t, Get_Thread k n = Some t /\ IsReady t = true.
Proof.
  intros Q Hn. destruct (NextThread_pops k n Hn) as (p & rest & Hp & _).
  assert (Hq : queued (g_thread_ready_queue k) n).
  { exists p, (n :: rest). split; [done|]. apply list_elem_of_here. }
  destruct (queued_entry k n Q Hq) as (t & b & E & Rd & _). eauto.
Qed.

Lemma current_ChangeReadyState t ready k :
  g_current_thread (ChangeReadyState t ready k) = g_current_thread k.
Proof.
  unfold ChangeReadyState. destruct (Get_Thread k t); [|done].
  by repeat case_match.
Qed.

Lemma current_ResumeThreadFromWait h k :
  g_current_thread (ResumeThreadFromWait h k) = g_current_thread k.
Proof.
  unfold ResumeThreadFromWait. destruct (Get_Thread k h); [|done].
  destruct (_ =? 0); [|done]. by rewrite current_ChangeReadyState.
Qed.

End Resched.

(** When every bucket that [NextThread] may pick from is empty,
    [Reschedule] clears the rescheduling flag and changes nothing else. The
    buckets it may pick from are those of a priority value strictly below
    that of the current thread when that thread runs, and all buckets
    otherwise. *)
Lemma Reschedule_no_candidate `{hdr : ThreadHeader} `{core : ArmCore}
    (m : Machine) :
  (forall p b,
     g_thread_ready_queue (kernel m) !! p = Some b ->
     match g_current_thread (kernel m) ≫= Get_Thread (kernel m) with
     | Some tc => IsRunning tc = true -> p < current_priority tc
     | None => True
     end ->
     b = []) ->
  Reschedule m = Some (mkMachine (kernel m) (g_app_core m) false (switches m)).
Proof.
  intros H.
  assert (N : NextThread (kernel m) = (None, kernel m)).
  { unfold NextThread, GetCurrentThread,
      ThreadQueueList.pop_first_better, ThreadQueueList.pop_first.
    destruct (g_current_thread (kernel m) ≫= Get_Thread (kernel m)) as [tc|];
      [destruct (IsRunning tc)|];
      match goal with
      | |- context [ThreadQueueList.candidates ?ok ?q] =>
          destruct (pop_lowest ok q) as [[-> _]|(p & rest & Ok & Hp & _)]
      end;
      try (simpl; by destruct (kernel m));
      exfalso.
    all: match type of Hp with
         | _ !! _ = Some (?x :: _) =>
             assert (E : x :: rest = []);
             [apply (H p); [exact Hp|]|discriminate E]
         end.
    - intros _. by apply Z.ltb_lt.
    - done.
    - done. }
  unfold Reschedule. by rewrite N.
Qed.

(** X12. A running thread is not preempted by its equals or by worse. With
    buckets that hold ready threads of their own priority, a current thread
    that runs, and no queued thread of a priority value below that of the
    current thread, [Reschedule] clears the rescheduling flag and changes
    nothing else: every queued thread stays where it is. *)
Theorem Reschedule_idle `{hdr : ThreadHeader} `{core : ArmCore} (m : Machine)
    (c : Handle) (tc : Thread) :
  queue_ok (kernel m) ->
  g_current_thread (kernel m) = Some c ->
  Get_Thread (kernel m) c = Some tc -> IsRunning tc = true ->
  (forall h th,
     queued (g_thread_ready_queue (kernel m)) h ->
     Get_Thread (kernel m) h = Some th ->
     current_priority tc <= current_priority th) ->
  Reschedule m = Some (mkMachine (kernel m) (g_app_core m) false (switches m)).
Proof.
  intros Q C G Run H. apply Reschedule_no_candidate.
  intros p b Hb. rewrite C. cbn [mbind option_bind]. rewrite G. intros Lt.
  specialize (Lt Run). destruct b as [|h b]; [done|]. exfalso.
  pose proof (map_Forall_lookup_1 _ _ _ _ Q Hb) as [_ F].
  apply Forall_cons in F as [En _]. unfold entry_ok in En.
  destruct (Get_Thread (kernel m) h) as [th|] eqn:Gh; [|done].
  apply andb_true_iff in En as [_ Pe]. apply Z.eqb_eq in Pe.
  assert (L : current_priority tc <= current_priority th).
  { apply (H h th); [|done]. exists p, (h :: b). split; [done|].
    apply list_elem_of_here. }
  lia.
Qed.

(** X13. With the scheduler's invariants, a current thread [c] and a thread
    [n] found by [NextThread], [Reschedule] returns and keeps the
    invariants: it clears the rescheduling flag, reports the switch from
    [c] to [n], makes [n] the running current thread and loads the core
    with its context. When [n] is another thread than [c], [c] has the
    core's context saved, is made ready if it ran, and is resumed at once
    if it waited for the vertical blank, so that it does not keep the wait
    flag. *)
Theorem Reschedule_switches `{hdr : ThreadHeader} `{core : ArmCore}
    (m : Machine) (c n : Handle) (tc : Thread) :
  header_ok = true -> sched_ok (kernel m) ->
  g_current_thread (kernel m) = Some c -> Get_Thread (kernel m) c = Some tc ->
  (NextThread (kernel m)).1 = Some n ->
  exists (m' : Machine) (tn' : Thread),
    Reschedule m = Some m'
    /\ sched_ok (kernel m')
    /\ g_current_thread (kernel m') = Some n
    /\ g_reschedule m' = false
    /\ switches m' = (c, n) :: switches m
    /\ Get_Thread (kernel m') n = Some tn'
    /\ IsRunning tn' = true /\ IsReady tn' = false
    /\ g_app_core m' = core_LoadContext (context tn') (g_app_core m)
    /\ (n <> c ->
        let saved :=
          (if IsRunning tc then set_status THREADSTATUS_READY else id)
            (set_context (core_SaveContext (g_app_core m) (context tc)) tc) in
        Get_Thread (kernel m') c
        = Some (if bool_decide (wait_type tc = WAITTYPE_VBLANK)
                then resumed saved else saved)
        /\ (wait_type tc = WAITTYPE_VBLANK ->
            IsWaiting (resumed saved) = false)).
Proof.
  intros ok S C Gc Hn. pose proof (header_ok_wf ok) as wf.
  pose proof (sched_ok_NextThread _ S) as S1.
  pose proof (Get_Thread_NextThread (kernel m)) as G1.
  pose proof (current_NextThread (kernel m)) as C1.
  destruct (NextThread_thread _ n (proj1 S) Hn) as (tn & Gn & Rn).
  unfold Reschedule, GetCurrentThread.
  destruct (NextThread (kernel m)) as [next k1]. simpl in *. subst next.
  rewrite C. cbn [mbind option_bind kernel]. rewrite G1, Gc.
  cbn [mbind option_bind kernel g_app_core g_reschedule switches].
  set (m1 := mkMachine k1 (g_app_core m) false ((c, n) :: switches m)).
  destruct (SwitchContext_run n m1 tn ok S1) as
    (m2 & tn' & E2 & S2 & C2 & G2 & Run2 & Rd2 & W2 & Cpu2 & Fl2 & Sw2 & N2
     & F2 & P2).
  { simpl. by rewrite G1. }
  { simpl. intros c' Hc'. rewrite G1. rewrite C1, C in Hc'.
    injection Hc' as <-. eauto. }
  rewrite E2. cbn [mbind option_bind].
  destruct (decide (n = c)) as [->|D].
  - rewrite G2. cbn [mbind option_bind]. rewrite W2.
    rewrite bool_decide_eq_false_2 by done.
    exists m2, tn'. do 9 (split; [done|]). done.
  - destruct (P2 c tc) as [Gc2 _]; [by rewrite <- C|done|by rewrite G1|].
    simpl in Gc2. rewrite Gc2. cbn [mbind option_bind].
    assert (W : wait_type
                  ((if IsRunning tc then set_status THREADSTATUS_READY else id)
                     (set_context
                        (core_SaveContext (g_app_core m) (context tc)) tc))
                = wait_type tc) by (by destruct (IsRunning tc)).
    rewrite W. case_bool_decide as V.
    + eexists. exists tn'. split; [reflexivity|].
      cbn [kernel g_app_core g_reschedule switches set_kernel].
      split; [by apply sched_ok_Resume|].
      split; [by rewrite current_ResumeThreadFromWait|].
      split; [done|]. split; [done|].
      split; [by rewrite Get_Thread_ResumeThreadFromWait, decide_False|].
      split; [done|]. split; [done|]. split; [done|]. intros _.
      split.
      * by rewrite Get_Thread_ResumeThreadFromWait, decide_True, Gc2.
      * intros _. unfold IsWaiting.
        match goal with
        | |- context [resumed ?x] =>
            destruct (resumed_fix wf x) as (_ & _ & ->)
        end. done.
    + exists m2, tn'. do 9 (split; [done|]). intros _.
      split; [done|]. intros V'. by destruct V.
Qed.

(** X14. With a thread to switch to but no current thread, [Reschedule]
    follows the null pointer: it does not return. *)
Theorem Reschedule_without_current `{hdr : ThreadHeader} `{core : ArmCore}
    (m : Machine) (n : Handle) :
  g_current_thread (kernel m) = None ->
  (NextThread (kernel m)).1 = Some n ->
  Reschedule m = None.
Proof.
  intros C Hn. unfold Reschedule, GetCurrentThread.
  destruct (NextThread (kernel m)) as [next k1]. simpl in Hn. subst next.
  by rewrite C.
Qed.

(** ** Creation *)

Section Create.

Context `{hdr : ThreadHeader} (ok : header_ok = true).

Lemma sched_ok_log k l : sched_ok k -> sched_ok (log_msg l k).
Proof. done. Qed.

Lemma sched_ok_CallThread t k : sched_ok k -> sched_ok (CallThread t k).
Proof.
  intros S. pose proof (header_ok_wf ok) as wf. unfold CallThread.
  apply sched_ok_ChangeThreadState;
    [done|rewrite Z.land_comm; apply (running_ready wf)|].
  destruct (Get_Thread k t); [|done].
  case_bool_decide; [|done]. by apply sched_ok_update_waits.
Qed.

Lemma status_ResetThread arg lowest t :
  status (ResetThread arg lowest t) = status t.
Proof. unfold ResetThread. simpl. by destruct (_ <? _). Qed.

(** A dormant thread entered under a free handle keeps the invariants. *)
Lemma sched_ok_register k handle th q :
  sched_ok k -> g_object_pool k !! handle = None ->
  status th = THREADSTATUS_DORMANT ->
  sched_ok
    (set_ready_queue (ThreadQueueList.prepare q (g_thread_ready_queue k))
       (set_thread_queue (g_thread_queue k ++ [handle])
          (set_pool (<[handle := ObjThread th]> (g_object_pool k)) k))).
Proof.
  intros (Q & O & R) F D. pose proof (header_ok_wf ok) as wf.
  set (ka := set_thread_queue (g_thread_queue k ++ [handle])
               (set_pool (<[handle := ObjThread th]> (g_object_pool k)) k)).
  assert (N : Get_Thread k handle = None) by (unfold Get_Thread; by rewrite F).
  assert (G : forall h, Get_Thread ka h
                        = if decide (handle = h) then Some th
                          else Get_Thread k h).
  { intros h. apply (Get_Thread_insert k handle th h). }
  assert (Qa : queue_ok ka).
  { apply (queue_ok_transfer k); [done|done|].
    intros p h Hq E. apply entry_ok_spec in E as (t & Et & Rd & P).
    apply entry_ok_spec. exists t. rewrite G, decide_False; [done|].
    intros <-. congruence. }
  split; [by apply (queue_ok_prepare ka)|]. split.
  - apply one_running_spec. intros h t. simpl.
    change (Get_Thread _ h) with (Get_Thread ka h). rewrite G.
    case_decide.
    + intros [= <-]. unfold IsRunning. rewrite D, Z.land_comm.
      by rewrite (running_dormant wf).
    + apply (proj1 (one_running_spec k) O).
  - unfold registered. simpl. apply Forall_app. split.
    + eapply Forall_impl; [exact R|]. intros h [t E]. simpl.
      change (Get_Thread _ h) with (Get_Thread ka h). rewrite G.
      case_decide; eauto.
    + apply Forall_singleton.
      change (Get_Thread _ handle) with (Get_Thread ka handle).
      rewrite G, decide_True by done. eauto.
Qed.

End Create.

(** X15. When the registry hands out a free handle, [CreateThread] returns
    for every argument: the range assertion of the inner function cannot
    fail, since the wrapper clamps the priority first. It keeps the
    scheduler's invariants and the current thread, and every thread that
    existed is as it was. *)
Theorem CreateThread_keeps `{hdr : ThreadHeader} `{env : KernelEnv}
    (fresh : ThreadContext) (name' : option string)
    (entry_point' priority arg processor_id' stack_top' stack_size' : Z)
    (k : Kernel) :
  header_ok = true -> sched_ok k ->
  g_object_pool k !! ObjectPool_Create (g_object_pool k) = None ->
  exists h k',
    CreateThread fresh name' entry_point' priority arg processor_id'
      stack_top' stack_size' k = Some (h, k')
    /\ sched_ok k'
    /\ forall x t, Get_Thread k x = Some t -> Get_Thread k' x = Some t.
Proof.
  intros ok S F. pose proof (header_ok_wf ok) as wf. unfold CreateThread.
  destruct name' as [n|]; [|by eauto 10].
  destruct (_ <? 0x200); [by eauto 10|].
  set (k0 := if (priority <? THREADPRIO_HIGHEST) || (priority >? THREADPRIO_LOWEST)
             then log_msg LOG_WARN k else k).
  assert (S0 : sched_ok k0) by (unfold k0; by destruct (_ || _)).
  assert (G0 : forall x, Get_Thread k0 x = Get_Thread k x)
    by (unfold k0; by destruct (_ || _)).
  assert (P0 : g_object_pool k0 = g_object_pool k)
    by (unfold k0; by destruct (_ || _)).
  set (prio := if (priority <? THREADPRIO_HIGHEST) || (priority >? THREADPRIO_LOWEST)
               then CLAMP priority THREADPRIO_HIGHEST THREADPRIO_LOWEST
               else priority).
  assert (Rg : (THREADPRIO_HIGHEST <=? prio) && (prio <=? THREADPRIO_LOWEST)
               = true).
  { unfold prio. apply andb_true_iff. rewrite !Z.leb_le.
    destruct (_ || _) eqn:C.
    - apply CLAMP_range, (prio_range wf).
    - apply orb_false_iff in C as [A B].
      apply Z.ltb_ge in A. rewrite Z.gtb_ltb in B. apply Z.ltb_ge in B. lia. }
  clearbody k0 prio.
  destruct (negb _).
  { exists (to_u32 (-1)), (log_msg LOG_ERROR k0). split; [done|].
    split; [done|]. intros x t. by rewrite <- G0. }
  unfold CreateThread_Thread. rewrite Rg. cbv zeta.
  assert (F0 : g_object_pool k0 !! ObjectPool_Create (g_object_pool k0) = None)
    by (by rewrite P0).
  clear P0.
  match goal with
  | |- context [update_thread ?h ?f ?ka] =>
      assert (Sa : sched_ok ka);
      [|assert (Ga : forall x, Get_Thread ka x
                               = if decide (h = x) then Some
             (mkThread fresh THREADSTATUS_DORMANT entry_point' stack_top'
                (to_u32 stack_size') prio prio processor_id' WAITTYPE_NONE 0
                [] n) else Get_Thread k0 x);
        [|assert (Na : ~ queued (g_thread_ready_queue ka) h)]]
  end.
  { by apply (sched_ok_register ok k0 (ObjectPool_Create (g_object_pool k0)) _
                prio). }
  { intros x. apply (Get_Thread_insert k0). }
  { eapply not_ready_not_queued; [apply Sa| |].
    - by rewrite Ga, decide_True.
    - unfold IsReady. simpl. by rewrite Z.land_comm, (ready_dormant wf). }
  eexists. eexists. split; [reflexivity|]. split.
  - apply (sched_ok_CallThread ok). destruct Sa as (Qa & Oa & Ra).
    split; [by apply queue_ok_update_unqueued|]. split.
    + apply one_running_update; [|done]. intros th.
      unfold IsRunning, IsReady. by rewrite !status_ResetThread.
    + by apply registered_update.
  - intros x t E. rewrite <- G0 in E.
    assert (D : ObjectPool_Create (g_object_pool k0) <> x).
    { intros <-. unfold Get_Thread in E. by rewrite F0 in E. }
    unfold CallThread.
    rewrite Get_Thread_ChangeThreadState, decide_False by done.
    match goal with
    | |- context [match ?o with Some _ => _ | None => _ end] =>
        destruct o as [th|]
    end; [case_bool_decide|];
      rewrite ?Get_Thread_update_thread, ?decide_False by done;
      rewrite Ga, decide_False by done; done.
Qed.

(** ** The main thread *)

Section Main.

Context `{hdr : ThreadHeader} (ok : header_ok = true).

(** The current thread, if it runs, is made ready: afterwards no thread
    runs. *)
Lemma yield_current k :
  sched_ok k ->
  (forall c, g_current_thread k = Some c -> is_Some (Get_Thread k c)) ->
  exists k1,
    match GetCurrentThread k with
    | Some c =>
        Get_Thread k c ≫= fun th =>
          Some (if IsRunning th then ChangeReadyState c true k else k)
    | None => Some k
    end = Some k1
    /\ sched_ok k1
    /\ (forall h t', Get_Thread k1 h = Some t' -> IsRunning t' = false)
    /\ (forall h, g_current_thread k <> Some h ->
          Get_Thread k1 h = Get_Thread k h)
    /\ g_thread_queue k1 = g_thread_queue k.
Proof.
  intros S H. unfold GetCurrentThread.
  destruct (g_current_thread k) as [c|] eqn:C.
  - destruct (H c eq_refl) as [tc Gc]. rewrite Gc. cbn [mbind option_bind].
    destruct (switch_save ok k c tc (context tc) S C Gc)
      as (S1 & C1 & T1 & G1 & NR1 & E1).
    cbv zeta in *.
    assert (U : update_thread c (set_context (context tc)) k = k).
    { apply update_thread_id. intros t Et. rewrite Gc in Et.
      injection Et as <-. by destruct tc. }
    rewrite U in *.
    eexists. split; [reflexivity|]. split; [done|]. split; [done|].
    split; [|done]. intros h D. rewrite G1, decide_False; [done|congruence].
  - exists k. split; [done|]. split; [done|]. split; [|done].
    intros h t' E. destruct (IsRunning t') eqn:Run; [|done].
    destruct S as (_ & O & _).
    destruct (proj1 (one_running_spec _) O h t' E Run) as [C' _]. congruence.
Qed.

End Main.

(** X16. [SetupMainThread] calls the inner [CreateThread] with the priority
    as given: out of the valid range it trips the assertion. In range, with
    the scheduler's invariants, a free handle from the registry and a
    current pointer that is null or leads to a thread, it returns the new
    handle and keeps the invariants: the new thread is registered, is the
    current thread, has the status running and nothing else, starts at the
    core's program counter with the stack at the end of the scratchpad, and
    the core is loaded with its context. Every thread that existed is as it
    was, save a running current thread, which is no longer running. *)
Theorem SetupMainThread_spec `{hdr : ThreadHeader} `{env : KernelEnv}
    `{core : ArmCore} `{mc : MainThreadConsts} (fresh : ThreadContext)
    (priority stack_size' : Z) (m : Machine) :
  header_ok = true -> sched_ok (kernel m) ->
  g_object_pool (kernel m) !! ObjectPool_Create (g_object_pool (kernel m))
  = None ->
  (forall c, g_current_thread (kernel m) = Some c ->
             is_Some (Get_Thread (kernel m) c)) ->
  (~ THREADPRIO_HIGHEST <= priority <= THREADPRIO_LOWEST ->
   SetupMainThread fresh priority stack_size' m = None)
  /\ (THREADPRIO_HIGHEST <= priority <= THREADPRIO_LOWEST ->
      let handle := ObjectPool_Create (g_object_pool (kernel m)) in
      exists (m' : Machine) (th' : Thread),
        SetupMainThread fresh priority stack_size' m = Some (handle, m')
        /\ sched_ok (kernel m')
        /\ g_current_thread (kernel m') = Some handle
        /\ handle ∈ g_thread_queue (kernel m')
        /\ Get_Thread (kernel m') handle = Some th'
        /\ status th' = THREADSTATUS_RUNNING
        /\ current_priority th' = priority
        /\ pc (context th') = core_GetPC (g_app_core m)
        /\ sp (context th') = SCRATCHPAD_VADDR_END
        /\ g_app_core m' = core_LoadContext (context th') (g_app_core m)
        /\ (forall h t, Get_Thread (kernel m) h = Some t ->
              exists t', Get_Thread (kernel m') h = Some t'
                         /\ IsRunning t' = false
                         /\ (IsRunning t = false -> t' = t))).
Proof.
  intros ok S F H. pose proof (header_ok_wf ok) as wf. split.
  { intros N. unfold SetupMainThread, CreateThread_Thread.
    destruct (Z.leb_spec THREADPRIO_HIGHEST priority),
      (Z.leb_spec priority THREADPRIO_LOWEST); simpl; try done.
    destruct N. lia. }
  intros Rg handle.
  assert (Rb : (THREADPRIO_HIGHEST <=? priority) && (priority <=? THREADPRIO_LOWEST)
               = true).
  { apply andb_true_iff. rewrite !Z.leb_le. lia. }
  unfold SetupMainThread, CreateThread_Thread. rewrite Rb. cbv zeta.
  fold handle.
  set (th0 := mkThread fresh THREADSTATUS_DORMANT (core_GetPC (g_app_core m))
                SCRATCHPAD_VADDR_END (to_u32 stack_size') priority priority
                THREADPROCESSORID_0 WAITTYPE_NONE 0 [] "main").
  set (k := kernel m) in *.
  set (ka := set_ready_queue _ _).
  assert (Sa : sched_ok ka)
    by (by apply (sched_ok_register ok k handle th0 priority)).
  assert (Ga : forall x, Get_Thread ka x
                         = if decide (handle = x) then Some th0
                           else Get_Thread k x)
    by (intros x; apply (Get_Thread_insert k)).
  set (kb := update_thread handle (ResetThread 0 0) ka).
  assert (Gb : forall x, Get_Thread kb x
                         = if decide (handle = x)
                           then Some (ResetThread 0 0 th0)
                           else Get_Thread k x).
  { intros x. unfold kb. rewrite Get_Thread_update_thread, !Ga.
    case_decide; [|done]. by rewrite decide_True. }
  assert (Na : ~ queued (g_thread_ready_queue ka) handle).
  { eapply not_ready_not_queued; [apply Sa| |].
    - by rewrite Ga, decide_True.
    - unfold IsReady. simpl. by rewrite Z.land_comm, (ready_dormant wf). }
  assert (Sb : sched_ok kb).
  { destruct Sa as (Qa & Oa & Ra).
    split; [by apply queue_ok_update_unqueued|]. split.
    - apply one_running_update; [|done]. intros th.
      unfold IsRunning, IsReady. by rewrite !status_ResetThread.
    - by apply registered_update. }
  assert (Fh : Get_Thread k handle = None)
    by (unfold Get_Thread, handle; by rewrite F).
  assert (Hb : forall c, g_current_thread kb = Some c ->
                         is_Some (Get_Thread kb c)).
  { intros c Hc. rewrite Gb. case_decide; [eauto|]. by apply H. }
  destruct (yield_current ok kb Sb Hb) as (kc & Ec & Sc & NRc & Gc & Tc).
  assert (Ec' :
    match GetCurrentThread kb with
    | Some c =>
        Get_Thread kb c ≫= fun th =>
          Some (if IsRunning th then ChangeReadyState c true kb else kb)
    | None => Some kb
    end = Some kc) by exact Ec.
  rewrite Ec'. cbn [mbind option_bind].
  assert (Gh : Get_Thread kc handle = Some (ResetThread 0 0 th0)).
  { rewrite Gc, Gb, decide_True; [done..|].
    intros Hc. destruct (H handle Hc) as [t Et]. congruence. }
  unfold SetCurrentThread. cbn [mbind option_bind]. rewrite Gh.
  cbn [mbind option_bind].
  set (kd := update_thread handle (set_status THREADSTATUS_RUNNING)
               (set_current_thread (Some handle) kc)).
  assert (Gd : forall x, Get_Thread kd x
                         = if decide (handle = x)
                           then Some (set_status THREADSTATUS_RUNNING
                                        (ResetThread 0 0 th0))
                           else Get_Thread kc x).
  { intros x. unfold kd. rewrite Get_Thread_update_thread.
    change (Get_Thread (set_current_thread _ kc)) with (Get_Thread kc).
    rewrite Gh. by case_decide. }
  rewrite Gd, decide_True by done. cbn [mbind option_bind].
  eexists. eexists. split; [reflexivity|].
  cbn [kernel g_app_core g_reschedule switches].
  split; [|split; [done|split; [|split; [by rewrite Gd, decide_True|]]]].
  - destruct Sc as (Qc & Oc & Rc). split; [|split].
    + apply queue_ok_update_unqueued; [|by apply queue_ok_set_current].
      apply (not_ready_not_queued kc handle _ Qc Gh).
      unfold IsReady. rewrite status_ResetThread. simpl.
      by rewrite Z.land_comm, (ready_dormant wf).
    + apply one_running_spec. intros h t. rewrite Gd. case_decide as D.
      * intros [= <-] _. subst h. split; [done|].
        unfold IsReady. simpl. by rewrite (running_ready wf).
      * intros E Run. by rewrite (NRc h t E) in Run.
    + by apply registered_update.
  - change (g_thread_queue kd) with (g_thread_queue kc). rewrite Tc.
    change (g_thread_queue kb) with (g_thread_queue k ++ [handle]).
    apply elem_of_app. right. apply list_elem_of_here.
  - split; [done|].
    do 3 (split; [unfold ResetThread; simpl; by destruct (_ <? _)|]).
    split; [done|].
    intros h t E.
    assert (D : handle <> h) by congruence.
    rewrite Gd, decide_False by done.
    destruct (IsRunning t) eqn:Run.
    + destruct S as (_ & O & _).
      destruct (proj1 (one_running_spec _) O h t E Run) as [C _].
      assert (is_Some (Get_Thread kc h)) as [t' E'].
      { destruct Sc as (_ & _ & _). unfold GetCurrentThread in Ec.
        change (g_current_thread kb) with (g_current_thread k) in Ec.
        rewrite C, Gb, decide_False, E in Ec by done. simpl in Ec.
        rewrite Run in Ec. injection Ec as <-.
        rewrite Get_Thread_ChangeReadyState, decide_True, Gb, decide_False, E
          by done. eauto. }
      exists t'. split; [done|]. split; [by apply (NRc h)|done].
    + exists t. destruct (decide (g_current_thread k = Some h)) as [C|C].
      * unfold GetCurrentThread in Ec.
        change (g_current_thread kb) with (g_current_thread k) in Ec.
        rewrite C, Gb, decide_False, E in Ec by done. simpl in Ec.
        rewrite Run in Ec. injection Ec as <-.
        rewrite Gb, decide_False by done. done.
      * rewrite Gc by done. rewrite Gb, decide_False by done. done.
Qed.

(** ** Events and the scheduler *)

Section EventsKeep.

Context `{hdr : ThreadHeader}.

(** The invariants read the threads, the two queues and the current
    thread, and nothing else. *)
Lemma sched_ok_same_threads k k' :
  (forall h, Get_Thread k' h = Get_Thread k h) ->
  g_thread_ready_queue k' = g_thread_ready_queue k ->
  g_thread_queue k' = g_thread_queue k ->
  g_current_thread k' = g_current_thread k ->
  sched_ok k -> sched_ok k'.
Proof.
  intros G Q T C (Qk & O & R). split; [|split].
  - apply (queue_ok_transfer k); [done|done|].
    intros p h _. unfold entry_ok. by rewrite G.
  - apply one_running_spec. intros h t. rewrite G, C.
    apply (proj1 (one_running_spec k) O).
  - unfold registered in *. rewrite T. eapply Forall_impl; [exact R|].
    intros h. simpl. by rewrite G.
Qed.

Lemma sched_ok_update_event k e f : sched_ok k -> sched_ok (update_event e f k).
Proof.
  apply sched_ok_same_threads; try done.
  intros h. apply Get_Thread_update_event.
Qed.

Lemma spec_release_each_keeps (P : Kernel -> Prop) this ws k :
  (forall w k, P k -> P (ResumeThreadFromWait w k)) ->
  P k -> P (spec_release_each this ws k).2.
Proof.
  intros Hr. revert k. induction ws as [|w ws IH]; intros k Pk; simpl; [done|].
  destruct (spec_release_one this w k) as [woke k1] eqn:E1.
  assert (P1 : P k1).
  { unfold spec_release_one in E1.
    destruct (VerifyWait k w WAITTYPE_EVENT this) as [[|]|];
      injection E1 as <- <-; [by apply Hr|done..]. }
  specialize (IH k1 P1).
  by destruct (spec_release_each this ws k1) as [any k2].
Qed.

Context (ok : header_ok = true).

Lemma sched_ok_WaitCurrentThread ty wh k k' :
  WaitCurrentThread ty wh k = Some k' -> sched_ok k -> sched_ok k'.
Proof.
  intros E S. unfold WaitCurrentThread in E.
  destruct (GetCurrentThread k) as [c|]; [|done].
  cbn [mbind option_bind] in E.
  destruct (Get_Thread k c) as [th|]; [|done].
  cbn [mbind option_bind] in E.
  replace k' with
    (ChangeThreadState (Some c)
       (Z.lor THREADSTATUS_WAIT (Z.land (status th) THREADSTATUS_SUSPEND))
       (update_thread c (set_wait_handle wh)
          (update_thread c (set_wait_type ty) k))) by congruence.
  apply (sched_ok_ChangeThreadState ok); [apply IsRunning_blocked, ok|].
  apply sched_ok_update_waits; [done|]. by apply sched_ok_update_waits.
Qed.

End EventsKeep.

(** X17. The calls of [event.cpp] keep the scheduler's invariants:
    [SetEventSignaled] and [ClearEvent], which touch no thread, and, with
    the wait-object protocol of the specification, [SignalEvent], which
    resumes the waiters, and [Event::WaitSynchronization], which blocks the
    caller, whenever it returns. *)
Theorem event_calls_keep `{hdr : ThreadHeader} (handle : Handle) (index : Z)
    (value : bool) (k : Kernel) :
  header_ok = true -> sched_ok k ->
  sched_ok (SetEventSignaled handle value k).2
  /\ sched_ok (ClearEvent handle k).2
  /\ sched_ok (SignalEvent (ops := spec_WaitObject) handle k).2
  /\ (forall r,
        Event_WaitSynchronization (ops := spec_WaitObject) handle index k
        = Some r ->
        sched_ok r.2).
Proof.
  intros ok S. split; [|split; [|split]].
  - unfold SetEventSignaled. destruct (Get_Event k handle); [|done].
    by apply sched_ok_update_event.
  - unfold ClearEvent. destruct (Get_Event k handle); [|done].
    by apply sched_ok_update_event.
  - unfold SignalEvent. destruct (Get_Event k handle); [|done].
    simpl. unfold spec_ReleaseAllWaitingThreads.
    set (k1 := update_event handle (set_signaled true) k).
    assert (S1 : sched_ok k1) by by apply sched_ok_update_event.
    destruct (Get_Event k1 handle) as [e1|].
    + pose proof (spec_release_each_keeps sched_ok handle
                    (wo_waiting_threads e1) k1) as R.
      destruct (spec_release_each handle (wo_waiting_threads e1) k1)
        as [any k2].
      simpl in *.
      assert (S2 : sched_ok k2).
      { apply R; [|done]. intros w k0. by apply sched_ok_Resume. }
      destruct (Get_Event _ handle) as [e3|];
        [destruct (_ && _)|]; simpl;
        repeat apply sched_ok_update_event; done.
    + simpl. destruct (Get_Event k1 handle) as [e3|];
        [destruct (_ && _)|]; simpl;
        repeat apply sched_ok_update_event; done.
  - intros r. unfold Event_WaitSynchronization.
    destruct (Get_Event k handle) as [e|]; [|done]. simpl.
    destruct (negb (signaled e)); [|by intros [= <-]].
    unfold spec_WaitCurrentThread_WaitSynchronization.
    destruct (WaitCurrentThread _ _ _) as [k'|] eqn:W; [|done]. simpl.
    intros [= <-]. simpl.
    apply (sched_ok_WaitCurrentThread ok _ _ _ _ W).
    unfold spec_AddWaitingThread_ptr.
    destruct (GetCurrentThread k); [|done].
    by apply sched_ok_update_event.
Qed.

(** X18. Two writes of [signaled] to the same event leave what the second
    alone leaves, and [ClearEvent] is the write of false. *)
Theorem SetEventSignaled_overwrites (handle : Handle) (a b : bool) (k : Kernel) :
  SetEventSignaled handle b (SetEventSignaled handle a k).2
  = SetEventSignaled handle b k
  /\ ClearEvent handle (SetEventSignaled handle a k).2 = ClearEvent handle k
  /\ SetEventSignaled handle b (ClearEvent handle k).2
     = SetEventSignaled handle b k.
Proof.
  assert (U : forall x y,
            update_event handle (set_signaled y)
              (update_event handle (set_signaled x) k)
            = update_event handle (set_signaled y) k).
  { intros x y. unfold update_event, set_pool. simpl. f_equal.
    apply map_eq. intros i. destruct (decide (handle = i)) as [->|N].
    - rewrite !lookup_alter_eq.
      by destruct (g_object_pool k !! i) as [[?|?]|].
    - by rewrite !lookup_alter_ne. }
  unfold SetEventSignaled, ClearEvent.
  destruct (Get_Event k handle) as [e|] eqn:E; simpl.
  - rewrite !Get_Event_update_event, !decide_True, E by done. simpl.
    by rewrite !U.
  - by rewrite E.
Qed.

(** X19. [CreateEvent] with a handle from the table, free so far, enters
    under it an event that is not signalled, has the reset type given as
    both its reset types, the name given and no waiter, and changes nothing
    else; the scheduler's invariants are kept. When the table gives no
    handle it returns [INVALID_HANDLE], and the state is as it was: the
    event made is in no registry. *)
Theorem CreateEvent_spec `{hdr : ThreadHeader} `{tbl : HandleTable}
    (reset_type' : ResetType) (name' : string) (k : Kernel) :
  (HandleTable_Create (g_object_pool k) = None ->
   CreateEvent reset_type' name' k = (INVALID_HANDLE, k))
  /\ (forall handle,
        HandleTable_Create (g_object_pool k) = Some handle ->
        g_object_pool k !! handle = None ->
        exists k',
          CreateEvent reset_type' name' k = (handle, k')
          /\ Get_Event k' handle
             = Some (mkEvent reset_type' reset_type' false name' [])
          /\ (forall h, h <> handle ->
                g_object_pool k' !! h = g_object_pool k !! h)
          /\ (forall h, Get_Thread k' h = Get_Thread k h)
          /\ g_thread_queue k' = g_thread_queue k
          /\ g_thread_ready_queue k' = g_thread_ready_queue k
          /\ g_current_thread k' = g_current_thread k
          /\ (sched_ok k -> sched_ok k')).
Proof.
  split.
  - intros E. unfold CreateEvent, CreateEvent_Event. by rewrite E.
  - intros handle E F. unfold CreateEvent, CreateEvent_Event. rewrite E.
    eexists. split; [reflexivity|].
    assert (G : forall h,
              Get_Thread
                (set_pool
                   (<[handle := ObjEvent
                                  (mkEvent reset_type' reset_type' false name' [])]>
                      (g_object_pool k)) k) h = Get_Thread k h).
    { intros h. unfold Get_Thread. simpl.
      destruct (decide (handle = h)) as [<-|N].
      - by rewrite lookup_insert_eq, F.
      - by rewrite lookup_insert_ne. }
    split; [unfold Get_Event; simpl; by rewrite lookup_insert_eq|].
    split; [intros h N; simpl; by rewrite lookup_insert_ne|].
    split; [done|]. split; [done|]. split; [done|]. split; [done|].
    by apply sched_ok_same_threads.
Qed.

(** X20. A thread that is not suspended and waits on an unsignalled event
    without waiters is blocked, and the next [SignalEvent] on that event
    brings it back: it has the status ready and stands at the back of the
    bucket of its priority, and the event has no waiter left. That wake-up
    uses up a one-shot event, which is unsignalled again, while a sticky
    event stays signalled. The wait-object protocol is that of the
    specification. *)
Theorem wait_then_signal `{hdr : ThreadHeader} (this : Handle) (index : Z)
    (k : Kernel) (e : Event) (c : Handle) (ct : Thread) :
  header_ok = true ->
  Get_Event k this = Some e -> signaled e = false ->
  wo_waiting_threads e = [] ->
  g_current_thread k = Some c -> Get_Thread k c = Some ct ->
  Z.land (status ct) THREADSTATUS_SUSPEND = 0 ->
  exists k1 k2 ct2 e2,
    Event_WaitSynchronization (ops := spec_WaitObject) this index k
    = Some (RESULT_SUCCESS, true, k1)
    /\ SignalEvent (ops := spec_WaitObject) this k1 = (RESULT_SUCCESS, k2)
    /\ Get_Thread k2 c = Some ct2
    /\ status ct2 = THREADSTATUS_READY
    /\ (exists b,
          g_thread_ready_queue k2 !! current_priority ct = Some (b ++ [c]))
    /\ Get_Event k2 this = Some e2
    /\ wo_waiting_threads e2 = []
    /\ signaled e2 = bool_decide (reset_type e = RESETTYPE_STICKY).
Proof.
  intros ok E Sg W C G NS. pose proof (header_ok_wf ok) as wf.
  (* the wait *)
  set (ka := spec_AddWaitingThread this c k).
  assert (Ga : Get_Thread ka c = Some ct).
  { unfold ka, spec_AddWaitingThread. by rewrite Get_Thread_update_event. }
  assert (Ea : Get_Event ka this = Some (set_wo_waiting_threads [c] e)).
  { unfold ka, spec_AddWaitingThread.
    rewrite Get_Event_update_event, decide_True, E by done. simpl.
    rewrite W. rewrite bool_decide_eq_false_2 by apply not_elem_of_nil.
    done. }
  destruct (WaitCurrentThread_spec wf WAITTYPE_EVENT this ka c ct C Ga)
    as (k1 & E1 & G1 & V1 & Q1 & _); [done|].
  cbv zeta in G1. rewrite NS, Z.lor_0_r in G1.
  set (ct1 := set_status THREADSTATUS_WAIT
                (set_wait_handle this (set_wait_type WAITTYPE_EVENT ct))) in *.
  exists k1.
  assert (X1 : Event_WaitSynchronization (ops := spec_WaitObject) this index k
               = Some (RESULT_SUCCESS, true, k1)).
  { unfold Event_WaitSynchronization, GetCurrentThread. rewrite E.
    cbn [mbind option_bind]. rewrite Sg. cbn [negb]. rewrite C.
    change (AddWaitingThread this (Some c) k) with ka.
    change (WaitCurrentThread_WaitSynchronization WAITTYPE_EVENT this index ka)
      with (WaitCurrentThread WAITTYPE_EVENT this ka).
    by rewrite E1. }
  (* the signal *)
  set (ea := set_wo_waiting_threads [c] e) in *.
  set (kb := update_event this (set_signaled true) k1).
  assert (Eb : Get_Event kb this = Some (set_signaled true ea)).
  { unfold kb. by rewrite Get_Event_update_event, decide_True, V1, Ea. }
  assert (Gb : Get_Thread kb c = Some ct1).
  { unfold kb. by rewrite Get_Thread_update_event, G1, decide_True. }
  set (kr := ResumeThreadFromWait c kb).
  assert (Rs : resumed ct1 = set_status THREADSTATUS_READY ct1).
  { unfold resumed. change (status ct1) with THREADSTATUS_WAIT.
    rewrite Z.land_lnot_diag. simpl. unfold IsReady. simpl. done. }
  assert (Gr : Get_Thread kr c = Some (set_status THREADSTATUS_READY ct1)).
  { unfold kr. rewrite Get_Thread_ResumeThreadFromWait, decide_True, Gb by done.
    cbn [fmap option_fmap option_map]. by rewrite Rs. }
  assert (Qr : g_thread_ready_queue kr
               = ThreadQueueList.push_back (current_priority ct) c
                   (g_thread_ready_queue kb)).
  { unfold kr, ResumeThreadFromWait. rewrite Gb.
    change (status ct1) with THREADSTATUS_WAIT.
    rewrite Z.land_lnot_diag. simpl.
    unfold ChangeReadyState.
    rewrite Get_Thread_update_thread, decide_True, Gb by done. simpl.
    unfold IsReady, IsRunning. simpl. done. }
  assert (Er : Get_Event kr this = Some (set_signaled true ea)).
  { unfold kr. by rewrite Get_Event_ResumeThreadFromWait. }
  assert (R1 : spec_release_one this c kb = (true, kr)).
  { unfold spec_release_one.
    rewrite (VerifyWait_wait_matches _ _ _ _ _ Gb). unfold wait_matches.
    rewrite Gb. simpl. rewrite !bool_decide_eq_true_2 by done. simpl.
    fold kr. rewrite Gr. simpl. unfold IsReady. simpl.
    by rewrite Z.land_diag, (READY_ne_0 wf). }
  set (kc := update_event this (set_wo_waiting_threads []) kr).
  assert (RA : spec_ReleaseAllWaitingThreads this kb = (true, kc)).
  { unfold spec_ReleaseAllWaitingThreads. rewrite Eb. simpl. by rewrite R1. }
  assert (Ec : Get_Event kc this
               = Some (set_wo_waiting_threads [] (set_signaled true ea))).
  { unfold kc. by rewrite Get_Event_update_event, decide_True, Er. }
  set (k2 := if bool_decide (reset_type e <> RESETTYPE_STICKY)
             then update_event this (set_signaled false) kc else kc).
  assert (X2 : SignalEvent (ops := spec_WaitObject) this k1
               = (RESULT_SUCCESS, k2)).
  { unfold SignalEvent. rewrite V1, Ea. fold kb.
    change (ReleaseAllWaitingThreads this kb)
      with (spec_ReleaseAllWaitingThreads this kb).
    rewrite RA, Ec. simpl. rewrite andb_true_r. done. }
  exists k2.
  exists (set_status THREADSTATUS_READY ct1).
  exists (set_signaled (bool_decide (reset_type e = RESETTYPE_STICKY))
            (set_wo_waiting_threads [] (set_signaled true ea))).
  split; [done|]. split; [done|].
  assert (T2 : forall h, Get_Thread k2 h = Get_Thread kr h).
  { intros h. unfold k2, kc. case_bool_decide;
      by rewrite ?Get_Thread_update_event. }
  split; [by rewrite T2|]. split; [done|]. split.
  { exists (ThreadQueueList.bucket (g_thread_ready_queue kb)
              (current_priority ct)).
    assert (g_thread_ready_queue k2 = g_thread_ready_queue kr) as ->
      by (unfold k2; by case_bool_decide).
    rewrite Qr. unfold ThreadQueueList.push_back. by rewrite lookup_insert_eq. }
  split; [|done].
  unfold k2. case_bool_decide as B.
  - rewrite Get_Event_update_event, decide_True, Ec by done. simpl.
    by rewrite bool_decide_eq_false_2.
  - rewrite Ec. assert (B' : reset_type e = RESETTYPE_STICKY).
    { destruct (reset_type e); [by destruct B|done]. }
    by rewrite bool_decide_eq_true_2.
Qed.

(** ** Instances for the scheduler *)

Lemma ResumeThreadFromWait_keeps_witness :
  header_ok (hdr := example_header) = true
  /\ sched_ok (hdr := example_header) event_kernel
  /\ sched_ok (hdr := example_header)
       (ResumeThreadFromWait (hdr := example_header) 1 event_kernel).
Proof.
  assert (S : sched_ok (hdr := example_header) event_kernel) by by_compute.
  split; [reflexivity|]. split; [exact S|].
  exact (ResumeThreadFromWait_keeps (hdr := example_header) 1 event_kernel
           eq_refl S).
Defined.

Lemma ResumeThreadFromWait_idempotent_witness :
  header_ok (hdr := example_header) = true
  /\ ResumeThreadFromWait (hdr := example_header) 1
       (ResumeThreadFromWait (hdr := example_header) 1 event_kernel)
     = ResumeThreadFromWait (hdr := example_header) 1 event_kernel.
Proof.
  split; [reflexivity|].
  exact (ResumeThreadFromWait_idempotent (hdr := example_header) 1 event_kernel
           eq_refl).
Defined.

Lemma NextThread_keeps_witness :
  sched_ok (hdr := example_header) ready_kernel
  /\ sched_ok (hdr := example_header)
       (NextThread (hdr := example_header) ready_kernel).2
  /\ ~ queued
         (g_thread_ready_queue (NextThread (hdr := example_header) ready_kernel).2)
         1.
Proof.
  assert (S : sched_ok (hdr := example_header) ready_kernel) by by_compute.
  split; [exact S|].
  destruct (NextThread_keeps (hdr := example_header) ready_kernel S) as [S' H].
  split; [exact S'|].
  destruct (H 1 eq_refl) as (_ & N & _). exact N.
Defined.

Lemma WaitCurrentThread_blocks_witness :
  header_ok (hdr := example_header) = true
  /\ sched_ok (hdr := example_header) ready_kernel
  /\ exists k',
       WaitCurrentThread (hdr := example_header) WAITTYPE_EVENT 5 ready_kernel
       = Some k'
       /\ sched_ok (hdr := example_header) k'
       /\ (NextThread (hdr := example_header) k').1 <> Some 2.
Proof.
  assert (S : sched_ok (hdr := example_header) ready_kernel) by by_compute.
  split; [reflexivity|]. split; [exact S|].
  destruct (WaitCurrentThread_blocks (hdr := example_header) WAITTYPE_EVENT 5
              ready_kernel 2 (example_thread 1 20 WAITTYPE_NONE 0)
              eq_refl S eq_refl eq_refl)
    as (k' & ct' & E & S' & _ & _ & _ & _ & _ & N).
  exists k'. split; [exact E|]. split; [exact S'|exact N].
Defined.

Lemma CallThread_spec_witness :
  header_ok (hdr := example_header) = true
  /\ sched_ok (hdr := example_header) event_kernel
  /\ sched_ok (hdr := example_header)
       (CallThread (hdr := example_header) 1 event_kernel)
  /\ g_thread_ready_queue (CallThread (hdr := example_header) 1 event_kernel)
     = ThreadQueueList.push_back 10 1 (g_thread_ready_queue event_kernel).
Proof.
  assert (S : sched_ok (hdr := example_header) event_kernel) by by_compute.
  split; [reflexivity|]. split; [exact S|].
  destruct (CallThread_spec (hdr := example_header) 1 event_kernel
              (example_thread 4 10 WAITTYPE_EVENT 5) eq_refl S eq_refl)
    as (S' & _ & _ & Q).
  split; [exact S'|exact Q].
Defined.

Lemma StopThread_keeps_witness :
  header_ok (hdr := example_header) = true
  /\ sched_ok (hdr := example_header) stop_kernel
  /\ exists k',
       StopThread (hdr := example_header) 1 stop_kernel = Some k'
       /\ sched_ok (hdr := example_header) k'
       /\ (NextThread (hdr := example_header) k').1 <> Some 1.
Proof.
  assert (S : sched_ok (hdr := example_header) stop_kernel) by by_compute.
  split; [reflexivity|]. split; [exact S|].
  destruct (StopThread (hdr := example_header) 1 stop_kernel) as [k'|] eqn:E;
    [|vm_compute in E; discriminate].
  destruct (StopThread_keeps (hdr := example_header) 1 stop_kernel k'
              eq_refl S E) as (S' & _ & N).
  exists k'. split; [reflexivity|]. split; [exact S'|exact N].
Defined.

Lemma ArbitrateAllThreads_spec_witness :
  header_ok (hdr := example_header) = true
  /\ registered arbitration_kernel
  /\ exists k',
       ArbitrateAllThreads (hdr := example_header) 9 0 arbitration_kernel
       = Some k'
       /\ Get_Thread k' 2
          = resumed (hdr := example_header) <$> Get_Thread arbitration_kernel 2.
Proof.
  assert (R : registered arbitration_kernel) by by_compute.
  split; [reflexivity|]. split; [exact R|].
  destruct (ArbitrateAllThreads_spec (hdr := example_header) 9 0
              arbitration_kernel eq_refl R)
    as (k' & E & _ & W & _).
  exists k'. split; [exact E|]. apply W.
  vm_compute. apply list_elem_of_further, list_elem_of_here.
Defined.

Lemma ArbitrateHighestPriorityThread_keeps_witness :
  header_ok (hdr := example_header) = true
  /\ sched_ok (hdr := example_header) arbitration_kernel
  /\ exists k',
       ArbitrateHighestPriorityThread (hdr := example_header) 9 0
         arbitration_kernel = Some (2, k')
       /\ sched_ok (hdr := example_header) k'.
Proof.
  assert (S : sched_ok (hdr := example_header) arbitration_kernel)
    by by_compute.
  split; [reflexivity|]. split; [exact S|].
  destruct (ArbitrateHighestPriorityThread (hdr := example_header) 9 0
              arbitration_kernel) as [[h k']|] eqn:E;
    [|vm_compute in E; discriminate].
  assert (H : h = 2) by (vm_compute in E; congruence).
  subst h.
  destruct (ArbitrateHighestPriorityThread_keeps (hdr := example_header) 9 0
              arbitration_kernel k' 2 eq_refl S E) as (S' & _).
  exists k'. split; [reflexivity|exact S'].
Defined.

Lemma SetThreadPriority_spec_witness :
  header_ok (hdr := example_header) = true
  /\ sched_ok (hdr := example_header) ready_kernel
  /\ exists k',
       SetThreadPriority (hdr := example_header) 3 100 ready_kernel
       = Some (0, k')
       /\ sched_ok (hdr := example_header) k'
       /\ GetThreadPriority 3 k' = Some 63.
Proof.
  assert (S : sched_ok (hdr := example_header) ready_kernel) by by_compute.
  split; [reflexivity|]. split; [exact S|].
  destruct (SetThreadPriority_spec (hdr := example_header) 3 100 ready_kernel
              (example_thread 2 20 WAITTYPE_NONE 0) eq_refl S)
    as (k' & E & S' & _ & _ & _ & P & _); [discriminate|reflexivity|].
  exists k'. split; [exact E|]. split; [exact S'|exact P].
Defined.

Lemma SetThreadPriority_current_witness :
  header_ok (hdr := example_header) = true
  /\ sched_ok (hdr := example_header) ready_kernel
  /\ exists k' th',
       SetThreadPriority (hdr := example_header) 0 5 ready_kernel
       = Some (0, k')
       /\ Get_Thread k' 2 = Some th'
       /\ IsReady (hdr := example_header) th' = true
       /\ ~ queued (g_thread_ready_queue k') 2.
Proof.
  assert (S : sched_ok (hdr := example_header) ready_kernel) by by_compute.
  split; [reflexivity|]. split; [exact S|].
  destruct (SetThreadPriority_current (hdr := example_header) 5 ready_kernel 2
              (example_thread 1 20 WAITTYPE_NONE 0) eq_refl S eq_refl)
    as (k' & th' & E & G & _ & R & _ & N & _);
    [discriminate|reflexivity|reflexivity|].
  exists k', th'. split; [exact E|]. split; [exact G|]. split; [exact R|exact N].
Defined.

Lemma SwitchContext_spec_witness :
  header_ok (hdr := example_header) = true
  /\ sched_ok (hdr := example_header) ready_kernel
  /\ exists m',
       SwitchContext (hdr := example_header) (Some 1)
         (example_machine ready_kernel) = Some m'
       /\ sched_ok (hdr := example_header) (kernel m')
       /\ g_current_thread (kernel m') = Some 1.
Proof.
  assert (S : sched_ok (hdr := example_header) ready_kernel) by by_compute.
  split; [reflexivity|]. split; [exact S|].
  destruct (SwitchContext_spec (hdr := example_header) (core := example_core) 1
              (example_machine ready_kernel)
              (example_thread 2 10 WAITTYPE_NONE 0) eq_refl S eq_refl)
    as (_ & m' & tt' & E & S' & C & _).
  { intros c [= <-]. vm_compute. eauto. }
  exists m'. split; [exact E|]. split; [exact S'|exact C].
Defined.

Lemma Reschedule_idle_witness :
  queue_ok (hdr := example_header) passed_over_kernel
  /\ g_thread_ready_queue passed_over_kernel !! 20 = Some [3]
  /\ g_thread_ready_queue passed_over_kernel !! 30 = Some [1]
  /\ Reschedule (hdr := example_header) (example_machine passed_over_kernel)
     = Some (@mkMachine example_core passed_over_kernel example_context false
               []).
Proof.
  assert (Q : queue_ok (hdr := example_header) passed_over_kernel)
    by by_compute.
  split; [exact Q|]. split; [reflexivity|]. split; [reflexivity|].
  apply (Reschedule_idle (hdr := example_header) (core := example_core)
           (example_machine passed_over_kernel) 2
           (example_thread 1 20 WAITTYPE_NONE 0) Q eq_refl eq_refl eq_refl).
  intros h th (p & b & Hb & Hh) G.
  change (g_thread_ready_queue (kernel (example_machine passed_over_kernel)))
    with (<[20 := [3]]> (<[30 := [1]]> (∅ : gmap Z (list Z)))) in Hb.
  change (kernel (example_machine passed_over_kernel))
    with passed_over_kernel in G.
  destruct (decide (20 = p)) as [<-|N20].
  { rewrite lookup_insert_eq in Hb. injection Hb as <-.
    apply list_elem_of_singleton in Hh as ->.
    vm_compute in G. injection G as <-. vm_compute. discriminate. }
  rewrite lookup_insert_ne in Hb by done.
  destruct (decide (30 = p)) as [<-|N30].
  { rewrite lookup_insert_eq in Hb. injection Hb as <-.
    apply list_elem_of_singleton in Hh as ->.
    vm_compute in G. injection G as <-. vm_compute. discriminate. }
  rewrite lookup_insert_ne, lookup_empty in Hb by done. discriminate.
Defined.

Lemma Reschedule_switches_witness :
  header_ok (hdr := example_header) = true
  /\ sched_ok (hdr := example_header) ready_kernel
  /\ exists m',
       Reschedule (hdr := example_header) (example_machine ready_kernel)
       = Some m'
       /\ sched_ok (hdr := example_header) (kernel m')
       /\ g_current_thread (kernel m') = Some 1
       /\ switches m' = [(2, 1)].
Proof.
  assert (S : sched_ok (hdr := example_header) ready_kernel) by by_compute.
  split; [reflexivity|]. split; [exact S|].
  destruct (Reschedule_switches (hdr := example_header) (core := example_core)
              (example_machine ready_kernel) 2 1
              (example_thread 1 20 WAITTYPE_NONE 0) eq_refl S eq_refl eq_refl
              eq_refl)
    as (m' & tn' & E & S' & C & _ & W & _).
  exists m'. split; [exact E|]. split; [exact S'|]. split; [exact C|exact W].
Defined.

Lemma Reschedule_without_current_witness :
  g_current_thread stop_kernel = None
  /\ Reschedule (hdr := example_header) (example_machine stop_kernel) = None.
Proof.
  split; [reflexivity|].
  exact (Reschedule_without_current (hdr := example_header)
           (core := example_core) (example_machine stop_kernel) 1
           eq_refl eq_refl).
Defined.

Lemma CreateThread_keeps_witness :
  header_ok (hdr := example_header) = true
  /\ sched_ok (hdr := example_header) ready_kernel
  /\ exists h k',
       CreateThread (hdr := example_header) (env := example_env)
         example_context (Some "t") 256 100 7 0 4096 16384 ready_kernel
       = Some (h, k')
       /\ sched_ok (hdr := example_header) k'.
Proof.
  assert (S : sched_ok (hdr := example_header) ready_kernel) by by_compute.
  split; [reflexivity|]. split; [exact S|].
  destruct (CreateThread_keeps (hdr := example_header) (env := example_env)
              example_context (Some "t") 256 100 7 0 4096 16384 ready_kernel
              eq_refl S eq_refl)
    as (h & k' & E & S' & _).
  exists h, k'. split; [exact E|exact S'].
Defined.

Lemma SetupMainThread_spec_witness :
  header_ok (hdr := example_header) = true
  /\ sched_ok (hdr := example_header) ready_kernel
  /\ exists m',
       SetupMainThread (hdr := example_header) (env := example_env)
         (mc := example_consts) example_context 30 16384
         (example_machine ready_kernel) = Some (4, m')
       /\ sched_ok (hdr := example_header) (kernel m')
       /\ g_current_thread (kernel m') = Some 4.
Proof.
  assert (S : sched_ok (hdr := example_header) ready_kernel) by by_compute.
  split; [reflexivity|]. split; [exact S|].
  destruct (SetupMainThread_spec (hdr := example_header) (env := example_env)
              (core := example_core) (mc := example_consts) example_context 30
              16384 (example_machine ready_kernel) eq_refl S eq_refl)
    as [_ H].
  { intros c [= <-]. vm_compute. eauto. }
  destruct H as (m' & th' & E & S' & C & _).
  { vm_compute. split; discriminate. }
  exists m'. split; [exact E|]. split; [exact S'|exact C].
Defined.

Lemma event_calls_keep_witness :
  header_ok (hdr := example_header) = true
  /\ sched_ok (hdr := example_header) event_kernel
  /\ sched_ok (hdr := example_header)
       (SignalEvent (ops := spec_WaitObject (hdr := example_header)) 5
          event_kernel).2.
Proof.
  assert (S : sched_ok (hdr := example_header) event_kernel) by by_compute.
  split; [reflexivity|]. split; [exact S|].
  destruct (event_calls_keep (hdr := example_header) 5 0 true event_kernel
              eq_refl S) as (_ & _ & S' & _).
  exact S'.
Defined.

Lemma CreateEvent_spec_witness :
  HandleTable_Create (HandleTable := example_table) (g_object_pool event_kernel)
  = Some 4
  /\ g_object_pool event_kernel !! 4 = None
  /\ exists k',
       CreateEvent (tbl := example_table) RESETTYPE_STICKY "s" event_kernel
       = (4, k')
       /\ Get_Event k' 4
          = Some (mkEvent RESETTYPE_STICKY RESETTYPE_STICKY false "s" []).
Proof.
  split; [reflexivity|]. split; [reflexivity|].
  destruct (CreateEvent_spec (hdr := example_header) (tbl := example_table)
              RESETTYPE_STICKY "s" event_kernel) as [_ H].
  destruct (H 4 eq_refl eq_refl) as (k' & E & G & _).
  exists k'. split; [exact E|exact G].
Defined.

Lemma wait_then_signal_witness :
  header_ok (hdr := example_header) = true
  /\ Get_Thread quiet_event_kernel 2
     = Some (example_thread 1 20 WAITTYPE_NONE 0)
  /\ exists k1 k2 e2,
       Event_WaitSynchronization
         (ops := spec_WaitObject (hdr := example_header)) 5 0 quiet_event_kernel
       = Some (RESULT_SUCCESS, true, k1)
       /\ SignalEvent (ops := spec_WaitObject (hdr := example_header)) 5 k1
          = (RESULT_SUCCESS, k2)
       /\ (status <$> Get_Thread k2 2) = Some 2
       /\ Get_Event k2 5 = Some e2
       /\ signaled e2 = false.
Proof.
  split; [reflexivity|]. split; [reflexivity|].
  destruct (wait_then_signal (hdr := example_header) 5 0 quiet_event_kernel
              (mkEvent RESETTYPE_ONESHOT RESETTYPE_ONESHOT false "e" []) 2
              (example_thread 1 20 WAITTYPE_NONE 0)
              eq_refl eq_refl eq_refl eq_refl eq_refl eq_refl eq_refl)
    as (k1 & k2 & ct2 & e2 & W & Sg & G & St & _ & Ev & _ & Sd).
  exists k1, k2, e2. split; [exact W|]. split; [exact Sg|].
  split; [rewrite G; simpl; rewrite St; reflexivity|].
  split; [exact Ev|exact Sd].
Defined.
